(* ===== verification/_CoqProject ===== *)
-Q . S2P
Prelude.v
PyStr.v
PyDict.v
FileSys.v
CallLog.v
Frame.v
Replace.v
CtkPc.v
VersionMacros.v
PostInstall.v
