(* ===== verification/Prelude.v ===== *)
(** * Verification of the build scripts of CTK (cafe-desktop/ctk)

    ** The program

    The repository slice holds three Python scripts run at build or
    install time:
    - [src/win32/ctkpc.py]: [main] merges four dicts of placeholders with
      [dict.update] and renders the templates [cdk-3.0.pc.in],
      [ctk+-3.0.pc.in] and [gail-3.0.pc.in] into [.pc] files;
    - [src/win32/gen-cdkversionmacros-h.py]: [main] splits [--version] on
      dots and renders [cdk/cdkversionmacros.h.in] with the three first
      components;
    - [src/build-aux/meson/post-install.py]: module-level code that, unless
      [DESTDIR] is set, copies MSVC import libraries on Windows and runs
      four external refresh tools in a fixed order, ignoring their exit
      codes.
    Both generators call [replace_multi] of [win32/replace.py]; [ctkpc.py]
    takes its base items and directories from [BasePCItems] of
    [win32/pc_base.py].  Neither helper is under [src/]: both are modelled
    from the spec.

    ** The files

    - [Prelude] (this file): Python exceptions [exc]; the outcome of a
      statement [outcome]; the state-and-exception monad [st] (effects done
      before an exception stay done, as in Python) with its bind lemmas and
      the invariant combinator [preserves]; the process exit status
      ([exit_code], [exit_status], [sys_exit_main] for
      [sys.exit(main(sys.argv))]); string lemmas, the hint databases
      [ctk] and [ctk_inv] and the rewrite base [ctk_str].
    - [PyStr]: the [str] built-ins the scripts call ([split], [join],
      [replace], [strip], [startswith], [in], iteration by lines), with
      the split/join round trips.
    - [PyDict]: a Python [dict] as an association list in insertion order
      ([pydict]); [d[k] = v], [d.update(e)] and literals; the keys stay
      duplicate-free, and a [pydict] refines a stdpp [gmap] ([dict_set] is
      [insert], [dict_update] is the left-biased union).
    - [FileSys]: the world ([world]: files, directories, environment,
      [os.name], standard output, log of started commands) and the
      [os]/[os.path]/[shutil]/[open] operations ([shutil.copyfile]
      raises [SameFileError] on one path); the invariants [dir_closed]
      (directories closed under parents) and [keeps_file]; the round trip
      [path_split_join2] of [os.path.join] and [os.path.split]; and
      [makedirs_chain]: on a chain of plain names below an existing
      directory, [os.makedirs] creates every missing directory, and only
      prefixes of the path.
    - [CallLog]: the log of started commands: [keeps_calls] (a statement
      starts no command; every file operation, [os.makedirs] at any fuel)
      and [logs ps c] ([c] starts a prefix of the commands [ps] describes,
      in order, all of them when it returns normally), composed along the
      monad by [logs_bind].
    - [Frame]: [modifies F D c], what a statement may change on the file
      system (files satisfying [F], new directories satisfying [D], no
      directory removed), closed under [≫=]; the frame of each primitive,
      and [makedirs_modifies]: [os.makedirs p] creates only prefixes of [p].
    - [Replace]: the renderer of [replace.py]: [render] (one left-to-right
      pass, at each position the first key of the dict in insertion order)
      against its relational spec [renders] ([render_correct]); dicts
      without competing keys are order independent ([render_perm], a
      [Proper] instance for the setoid [match_equiv]); [@NAME@] tokens,
      and [render_tokens], which reduces a rendering on a dict of tokens to
      its [dict_get]; the interface [TemplateRenderer] that the generators
      use, with the instance [replace_py]; the spec's batch variant
      [batch_spec] (jobs in order, the first failure aborts, earlier
      outputs stay) and [tr_seq_spec]: a sequence of [replace_multi] calls
      is that batch for every renderer meeting the contract.
    - [CtkPc]: [ctkpc.py] ([ctkpc_main], [ctkpc_script]) against
      [TemplateRenderer].
    - [VersionMacros]: [gen-cdkversionmacros-h.py] ([gen_main],
      [gen_script]) against [TemplateRenderer].
    - [PostInstall]: [post-install.py] ([post_install] and its steps),
      with external programs as an oracle [run] (exit code and output, or
      [None] for a missing executable).

    ** The theorems

    - Functional behaviour of each generator on success, and its error
      paths: which exception escapes after which writes, and the exit
      status of each script ([ctkpc_script_exit_status],
      [gen_script_exit_status]).
    - Refinement: the merged dicts of [ctkpc.py] are the left-biased unions
      of the code's dicts ([ctkpc_replace_items_union]); [render] computes
      exactly what the spec's single-pass relation allows; each generator's
      [main] is, on every branch, the spec's batch of its render jobs
      ([ctkpc_main_batch], [gen_main_batch]).
    - Equivalence: on a base of tokens the dicts of [ctkpc.py] are
      unambiguous, so their order does not matter.
    - Behaviours the spec does not state: the plain keys [cdk-3]/[ctk-3]
      make rendering non-idempotent; the gail dict leaves
      [@CTK_API_VERSION@] verbatim; a key can survive the single pass.
    - [post-install.py]: the frame of every run ([post_install_frame]:
      only [immodules.cache] and, on Windows, the [.lib] copies change; new
      directories are the two module directories and their ancestors), the
      independence from the refresh tools' exit codes, the whole trace of a
      successful run on a non-Windows host
      ([post_install_trace]) and of the input-method step on a fresh tree,
      that a reinstall into the same prefix runs to its end and changes no
      file or directory ([post_install_rerun], by [exist_ok=True]),
      the [DESTDIR] gate, argument indexing errors, the pkg-config
      fallback, the truncated [immodules.cache], and the import-library
      loop (what it copies, that it never copies the [cdk] library, and
      [SameFileError] for an API version without a dot).
    - Ordering ([post_install_command_order]): on every run, failing runs
      included, the commands started are a prefix of the six commands of
      the source in their order, and a raising statement cuts the sequence.
    Each theorem with hypotheses has a witness on a concrete world.

    ** Bounds and fuel

    [makedirs] recurses on [dirname], which is not structural: it runs
    with fuel [String.length p + 1], enough because each recursive call is
    on a strictly shorter path ([makedirs_split_shorter]); any larger fuel
    gives the same run ([makedirs_go_fuel]), so the fuel never runs out,
    and [makedirs_chain] proves that the run succeeds and creates the
    directory.  No
    other loop needs fuel: [py_for], the scanners and the dict operations
    are structural.  Exit statuses are [Z] as the process sees them.

    No theorem is of the termination kind: the scripts are straight-line
    code whose only loop runs over the fixed list [msvc_libs], and the
    renderer makes one structural pass ([render_correct] gives every
    template exactly one output, for every dict).  The one recursion that
    is not structural is [os.makedirs] of the standard library, whose fuel
    lemma above is about that library rather than the repository.

    ** Not modelled

    - argparse: the parsed options are the input records [ctkpc_args] and
      [genver_args]; a missing required option is [SystemExit 2].
    - [pc_base.py]: only the three fields [ctkpc.py] reads ([BasePC]).
    - The external tools' effects beyond a redirected standard output.
    - Windows path separators ([ntpath]), text encodings and universal
      newlines: paths are joined with [/] and text is read as written.
    - Path normalisation: a file or directory is named by its path string,
      so [a/b/] and [a/b] are different names; the theorems about
      [makedirs] are stated for paths without trailing slash or [.].
    - [replace()] of [replace.py]: imported by both generators, never
      called. *)

From stdpp Require Export base strings list gmap.
From Stdlib Require Export Ascii.

Declare Scope ctk_scope.
Delimit Scope ctk_scope with ctk.
Open Scope ctk_scope.

(** ** Python exceptions raised by the modelled code *)

Inductive exc : Type :=
| FileNotFoundError (path : string)
| IsADirectoryError (path : string)
| FileExistsError (path : string)
| NotADirectoryError (path : string)
| IndexError
| ValueError (msg : string)
| CalledProcessError (code : Z) (cmd : list string)
| SameFileError (src dst : string)
| SystemExit (code : Z).

(** The outcome of a Python statement: a value or a raised exception. *)
Inductive outcome (A : Type) : Type :=
| Ok (a : A)
| Exc (e : exc).
Arguments Ok {A} a.
Arguments Exc {A} e.

#[export] Instance outcome_ret : MRet outcome := fun A a => Ok a.
#[export] Instance outcome_bind : MBind outcome :=
  fun A B (f : A -> outcome B) (o : outcome A) =>
    match o with Ok a => f a | Exc e => Exc e end.

(** [l[i]] on a Python list: [IndexError] out of range. *)
Definition py_index {A} (l : list A) (i : nat) : outcome A :=
  match l !! i with Some x => Ok x | None => Exc IndexError end.

(** ** A state-and-exception monad

    A statement runs on a state [S] and returns its outcome together with
    the state reached: effects performed before an exception is raised
    stay performed, as in Python. *)

Definition st (S A : Type) : Type := S -> outcome A * S.

#[export] Instance st_ret {S} : MRet (st S) := fun A a s => (Ok a, s).
#[export] Instance st_bind {S} : MBind (st S) :=
  fun A B (f : A -> st S B) (c : st S A) s =>
    match c s with
    | (Ok a, s') => f a s'
    | (Exc e, s') => (Exc e, s')
    end.

Definition raise {S A} (e : exc) : st S A := fun s => (Exc e, s).
Definition lift_outcome {S A} (o : outcome A) : st S A := fun s => (o, s).
Definition get_st {S} : st S S := fun s => (Ok s, s).
Definition put_st {S} (s' : S) : st S unit := fun _ => (Ok tt, s').
Definition modify_st {S} (f : S -> S) : st S unit := fun s => (Ok tt, f s).

(** [for x in l: body(x)] *)
Fixpoint py_for {S A} (l : list A) (body : A -> st S unit) : st S unit :=
  match l with
  | [] => mret tt
  | x :: l' => body x ;; py_for l' body
  end.

(** ** The interpreter's exit status

    An uncaught exception ends the process with status 1 after its
    traceback; [SystemExit c] ends it with status [c]; a script that runs
    to its end exits with 0. *)
Definition exit_code (e : exc) : Z :=
  match e with SystemExit c => c | _ => 1 end.

Definition exit_status {A} (o : outcome A) : Z :=
  match o with Ok _ => 0 | Exc e => exit_code e end.

(** [sys.exit(main(sys.argv))] for a [main] that returns [None]:
    [sys.exit(None)] raises [SystemExit] with status 0. *)
Definition sys_exit_main {S} (main : st S unit) : st S unit :=
  main ;; raise (SystemExit 0).

Section Monad.
Context {S : Type}.

Lemma bind_ok {A B} (c : st S A) (f : A -> st S B) s a s' :
  c s = (Ok a, s') -> (c ≫= f) s = f a s'.
Proof. intros H. unfold mbind, st_bind. by rewrite H. Qed.

Lemma bind_exc {A B} (c : st S A) (f : A -> st S B) s e s' :
  c s = (Exc e, s') -> (c ≫= f) s = (Exc e, s').
Proof. intros H. unfold mbind, st_bind. by rewrite H. Qed.

Lemma bind_lift_ok {A B} (a : A) (f : A -> st S B) s : (lift_outcome (Ok a) ≫= f) s = f a s.
Proof. reflexivity. Qed.

Lemma bind_lift_exc {A B} e (f : A -> st S B) s : (lift_outcome (Exc e) ≫= f) s = (Exc e, s).
Proof. reflexivity. Qed.

Lemma bind_ret {A B} (a : A) (f : A -> st S B) s : (mret a ≫= f) s = f a s.
Proof. reflexivity. Qed.

Lemma bind_assoc {A B C} (c : st S A) (f : A -> st S B) (g : B -> st S C) s :
  ((c ≫= f) ≫= g) s = (c ≫= (fun a => f a ≫= g)) s.
Proof. unfold mbind, st_bind. by destruct (c s) as [[a|e] s']. Qed.
(** Binds of pointwise-equal computations are equal. *)
Lemma bind_ext {A B} (c c' : st S A) (f f' : A -> st S B) s :
  (forall s, c s = c' s) -> (forall a s, f a s = f' a s) -> (c ≫= f) s = (c' ≫= f') s.
Proof. intros Hc Hf. unfold mbind, st_bind. rewrite Hc. destruct (c' s) as [[a|e] s']; auto. Qed.

(** [c] keeps the invariant [P] of the state, whatever its outcome. *)
Definition preserves {A} (P : S -> Prop) (c : st S A) : Prop :=
  forall s, P s -> P (snd (c s)).

Lemma preserves_ret {A} P (a : A) : preserves P (mret a).
Proof. by intros s. Qed.

Lemma preserves_raise {A} P e : preserves P (raise (A:=A) e).
Proof. by intros s. Qed.

Lemma preserves_lift {A} P (o : outcome A) : preserves P (lift_outcome o).
Proof. by intros s. Qed.

Lemma preserves_bind {A B} P (c : st S A) (f : A -> st S B) :
  preserves P c -> (forall a, preserves P (f a)) -> preserves P (c ≫= f).
Proof.
  intros Hc Hf s Hs. unfold mbind, st_bind.
  specialize (Hc s Hs). destruct (c s) as [[a|e] s']; simpl in *; auto. by apply Hf.
Qed.

Lemma preserves_for {A} P (l : list A) (body : A -> st S unit) :
  (forall x, x ∈ l -> preserves P (body x)) -> preserves P (py_for l body).
Proof.
  intros Hb. induction l as [|x l IH]; simpl; [apply preserves_ret|].
  apply preserves_bind; [apply Hb; set_solver|]. intros _. apply IH. set_solver.
Qed.

Lemma sys_exit_main_status (main : st S unit) s :
  exit_status (sys_exit_main main s).1 = exit_status (main s).1 /\
  (sys_exit_main main s).2 = (main s).2.
Proof. unfold sys_exit_main, mbind, st_bind. destruct (main s) as [[[]|e] s0]; split; reflexivity. Qed.
End Monad.

Create HintDb ctk_inv discriminated.
#[export] Hint Resolve preserves_ret preserves_raise preserves_lift preserves_bind preserves_for : ctk_inv.

(** ** Strings

    [String.append] is [simpl never] under stdpp, so its equations are
    rewrite rules of the [ctk_str] database. *)

Create Rewrite HintDb ctk_str.
Create HintDb ctk discriminated.

Lemma str_app_nil_l (s : string) : "" +:+ s = s.
Proof. reflexivity. Qed.

Lemma str_app_cons c (s t : string) : String c s +:+ t = String c (s +:+ t).
Proof. reflexivity. Qed.

Lemma str_app_nil_r (s : string) : s +:+ "" = s.
Proof. induction s as [|c s IH]; [done|]. by rewrite str_app_cons, IH. Qed.

Lemma str_app_assoc (s t u : string) : s +:+ (t +:+ u) = (s +:+ t) +:+ u.
Proof. induction s as [|c s IH]; [done|]. by rewrite !str_app_cons, IH. Qed.

Lemma str_length_app (s t : string) :
  String.length (s +:+ t) = String.length s + String.length t.
Proof. induction s as [|c s IH]; [done|]. rewrite str_app_cons. simpl. lia. Qed.

Lemma str_app_inv_l (p s t : string) : p +:+ s = p +:+ t -> s = t.
Proof. induction p as [|c p IH]; [done|]. rewrite !str_app_cons. by intros [= ?%IH]. Qed.

Lemma str_app_inv_r (p s t : string) : s +:+ p = t +:+ p -> s = t.
Proof.
  revert t. induction s as [|c s IH]; intros [|d t]; rewrite ?str_app_nil_l, ?str_app_cons; intros H.
  - done.
  - apply (f_equal String.length) in H. simpl in H. rewrite str_length_app in H. lia.
  - apply (f_equal String.length) in H. simpl in H. rewrite str_length_app in H. lia.
  - injection H as -> H. f_equal. by apply IH.
Qed.

Lemma str_app_eq_nil (s t : string) : s +:+ t = "" -> s = "" /\ t = "".
Proof. destruct s; [done|]. by rewrite str_app_cons. Qed.

#[export] Hint Rewrite str_app_nil_l str_app_cons str_app_nil_r str_length_app : ctk_str.
#[export] Hint Rewrite <- str_app_assoc : ctk_str.

Ltac str_simpl := autorewrite with ctk_str in *.

(** Induction on the length of a string. *)
Lemma str_len_ind (P : string -> Prop) :
  (forall s, (forall t, String.length t < String.length s -> P t) -> P s) -> forall s, P s.
Proof.
  intros H s. remember (String.length s) as n eqn:E. revert s E.
  induction n as [n IH] using lt_wf_ind. intros s ->. apply H. intros t Ht. by eapply IH.
Qed.

(** [occurs k s]: [k] is a substring of [s]. *)
Definition occurs (k s : string) : Prop := exists p r, s = p +:+ k +:+ r.
Notation "k ⊑ₛ s" := (occurs k s) (at level 70) : ctk_scope.

Lemma occurs_app_r (k s t : string) : k ⊑ₛ t -> k ⊑ₛ s +:+ t.
Proof. intros (p & r & ->). exists (s +:+ p), r. by str_simpl. Qed.

(** The last character of a string. *)
Fixpoint str_last (s : string) : option ascii :=
  match s with
  | EmptyString => None
  | String c s' => match s' with EmptyString => Some c | _ => str_last s' end
  end.

Lemma str_last_nonempty (s : string) : s <> "" -> is_Some (str_last s).
Proof. induction s as [|c s IH]; [done|]. intros _. destruct s as [|d s]; [by eexists|]. by apply IH. Qed.

Lemma str_last_app (s t : string) : t <> "" -> str_last (s +:+ t) = str_last t.
Proof.
  intros Ht. induction s as [|c s IH]; [done|]. rewrite str_app_cons. simpl.
  destruct (s +:+ t) eqn:E; [|done]. by destruct (str_app_eq_nil _ _ E).
Qed.

(** Paths with different last characters differ, whatever their prefixes. *)
Lemma app_last_neq (a b x y : string) :
  x <> "" -> y <> "" -> str_last x <> str_last y -> a +:+ x <> b +:+ y.
Proof. intros Hx Hy Hl E. apply Hl. by rewrite <- (str_last_app a), E, str_last_app. Qed.
