(* ===== verification/PyStr.v ===== *)
(** * Python string built-ins used by the scripts

    [str.startswith], [str.split(sep)], [sep.join(l)], [str.replace],
    [bytes.strip()] and the iteration of a text file by lines, written
    after CPython's documented semantics.  These are the library the
    scripts call, not code of the repository; the scripts' own code is
    modelled in the component files.  The round trips between [split]
    and [join] are proved here. *)

From S2P Require Import Prelude.

(** [s.startswith(k)] *)
Fixpoint starts_with (k s : string) : bool :=
  match k, s with
  | EmptyString, _ => true
  | String c k', String d s' => bool_decide (c = d) && starts_with k' s'
  | String _ _, EmptyString => false
  end.

(** [s.endswith(k)] *)
Fixpoint ends_with (k s : string) : bool :=
  bool_decide (s = k) ||
  match s with
  | EmptyString => false
  | String _ s' => ends_with k s'
  end.

(** The scanner of [s.split(sep)] for a non-empty [sep]: it returns the
    piece being read and the pieces after it; [skip] counts the characters
    of a separator just matched that are still to be passed over. *)
Fixpoint split_go (sep : string) (skip : nat) (s : string) : string * list string :=
  match s with
  | EmptyString => ("", [])
  | String c s' =>
      match skip with
      | S n => split_go sep n s'
      | O =>
          if starts_with sep s
          then let '(h, t) := split_go sep (pred (String.length sep)) s' in ("", h :: t)
          else let '(h, t) := split_go sep 0 s' in (String c h, t)
      end
  end.

Definition py_split (sep s : string) : list string :=
  let '(h, t) := split_go sep 0 s in h :: t.

(** [s.split(sep)] raises [ValueError] on an empty separator. *)
Definition str_split (sep s : string) : outcome (list string) :=
  if decide (sep = "") then Exc (ValueError "empty separator") else Ok (py_split sep s).

(** [sep.join(l)] *)
Fixpoint py_join (sep : string) (l : list string) : string :=
  match l with
  | [] => ""
  | [x] => x
  | x :: l' => x +:+ sep +:+ py_join sep l'
  end.

(** [s.replace("", new)] inserts [new] before every character and at the end. *)
Fixpoint interleave (new s : string) : string :=
  match s with
  | EmptyString => new
  | String c s' => new +:+ String c (interleave new s')
  end.

(** [s.replace(old, new)]: for a non-empty [old], CPython replaces the
    leftmost non-overlapping occurrences, i.e. [new.join(s.split(old))]. *)
Definition py_replace (old new s : string) : string :=
  if decide (old = "") then interleave new s else py_join new (py_split old s).

(** [bytes.isspace] on one character: space, \t, \n, \v, \f, \r. *)
Definition py_isspace (c : ascii) : bool :=
  match nat_of_ascii c with
  | 9 | 10 | 11 | 12 | 13 | 32 => true
  | _ => false
  end.

Fixpoint lstrip (s : string) : string :=
  match s with
  | EmptyString => ""
  | String c s' => if py_isspace c then lstrip s' else s
  end.

Fixpoint rstrip (s : string) : string :=
  match s with
  | EmptyString => ""
  | String c s' =>
      let r := rstrip s' in
      if bool_decide (r = "") && py_isspace c then "" else String c r
  end.

(** [s.strip()] *)
Definition py_strip (s : string) : string := lstrip (rstrip s).

Definition newline : ascii := "010"%char.

(** [for line in f]: the lines of a text, each with its newline kept. *)
Fixpoint py_lines (s : string) : list string :=
  match s with
  | EmptyString => []
  | String c s' =>
      if bool_decide (c = newline) then String c "" :: py_lines s'
      else match py_lines s' with
           | [] => [String c ""]
           | l :: ls => String c l :: ls
           end
  end.

(** [c in s] *)
Fixpoint has_char (c : ascii) (s : string) : bool :=
  match s with
  | EmptyString => false
  | String d s' => bool_decide (d = c) || has_char c s'
  end.

Fixpoint str_concat (l : list string) : string :=
  match l with
  | [] => ""
  | x :: l' => x +:+ str_concat l'
  end.

(** ** Lemmas *)

Lemma starts_with_spec k s : starts_with k s = true <-> exists r, s = k +:+ r.
Proof.
  revert s; induction k as [|c k IH]; intros [|d s]; simpl.
  - split; [by exists ""|done].
  - split; [by eexists|done].
  - split; [done|]. by intros [r Hr].
  - rewrite andb_true_iff, bool_decide_eq_true, IH. split.
    + by intros [-> [r ->]]; exists r.
    + intros [r Hr]. rewrite str_app_cons in Hr. injection Hr as -> ->. eauto.
Qed.

Lemma starts_with_app k r : starts_with k (k +:+ r) = true.
Proof. apply starts_with_spec. eauto. Qed.

Lemma split_go_skip sep p s :
  split_go sep (String.length p) (p +:+ s) = split_go sep 0 s.
Proof. induction p as [|c p IH]; [done|]. exact IH. Qed.

Lemma py_join_cons2 sep x y l : py_join sep (x :: y :: l) = x +:+ sep +:+ py_join sep (y :: l).
Proof. reflexivity. Qed.

Lemma py_join_app_head sep p h t : py_join sep ((p +:+ h) :: t) = p +:+ py_join sep (h :: t).
Proof. destruct t; simpl; [done|]. by str_simpl. Qed.

Lemma py_join_cons_head sep c h t :
  py_join sep (String c h :: t) = String c (py_join sep (h :: t)).
Proof. by destruct t. Qed.

(** Splitting then joining with the same non-empty separator gives the
    string back. *)
Lemma split_go_join sep s :
  sep <> "" -> let '(h, t) := split_go sep 0 s in py_join sep (h :: t) = s.
Proof.
  intros Hsep. induction s as [[|c s'] IH] using str_len_ind; [done|].
  cbn [split_go]. destruct (starts_with sep (String c s')) eqn:Hm.
  - apply starts_with_spec in Hm as [r Hr].
    destruct sep as [|c' sep']; [done|]. rewrite str_app_cons in Hr.
    injection Hr as <- ->. cbn [pred String.length]. rewrite split_go_skip.
    specialize (IH r ltac:(simpl; rewrite str_length_app; lia)).
    destruct (split_go _ 0 r) as [h t]. rewrite py_join_cons2, IH. by str_simpl.
  - specialize (IH s' ltac:(simpl; lia)). destruct (split_go _ 0 s') as [h t].
    by rewrite py_join_cons_head, IH.
Qed.

Lemma py_split_join sep s : sep <> "" -> py_join sep (py_split sep s) = s.
Proof. intros H. unfold py_split. pose proof (split_go_join sep s H). by destruct split_go. Qed.

Lemma py_split_nonempty sep s : py_split sep s <> [].
Proof. unfold py_split. by destruct split_go. Qed.

Lemma split_go_char_free c x rest :
  has_char c x = false ->
  split_go (String c "") 0 (x +:+ rest) =
    let '(h, t) := split_go (String c "") 0 rest in (x +:+ h, t).
Proof.
  induction x as [|d x IH]; simpl; intros Hx.
  - by destruct split_go.
  - apply orb_false_iff in Hx as [Hd Hx]. apply bool_decide_eq_false in Hd.
    rewrite bool_decide_false by congruence. simpl. rewrite IH by done.
    by destruct (split_go (String c "") 0 rest).
Qed.

(** Joining pieces free of a one-character separator, then splitting,
    gives the pieces back. *)
Lemma py_join_split c l :
  l <> [] -> Forall (fun x => has_char c x = false) l ->
  py_split (String c "") (py_join (String c "") l) = l.
Proof.
  intros Hne Hl. induction Hl as [|x l Hx Hl IH]; [done|].
  destruct l as [|y l].
  - unfold py_split. simpl. rewrite <- (str_app_nil_r x), split_go_char_free by done.
    simpl. by rewrite str_app_nil_r.
  - rewrite py_join_cons2. unfold py_split in *.
    rewrite split_go_char_free by done. rewrite str_app_cons, str_app_nil_l.
    cbn [split_go starts_with]. rewrite bool_decide_true by done.
    cbn [andb pred String.length].
    destruct (split_go _ 0 (py_join _ (y :: l))) as [h t]. simpl.
    rewrite str_app_nil_r. by rewrite (IH ltac:(done)).
Qed.

(** The lines of a text concatenate back to the text. *)
Lemma py_lines_concat s : str_concat (py_lines s) = s.
Proof.
  induction s as [|c s IH]; [done|]. simpl.
  case_bool_decide.
  - simpl. by rewrite IH.
  - destruct (py_lines s) as [|l ls]; simpl in *; by rewrite <- IH.
Qed.

Lemma has_char_app c s t : has_char c (s +:+ t) = has_char c s || has_char c t.
Proof. induction s as [|d s IH]; [done|]. rewrite str_app_cons. simpl. by rewrite IH, orb_assoc. Qed.

(** [s.count(c)] for one character. *)
Fixpoint count_char (c : ascii) (s : string) : nat :=
  match s with
  | EmptyString => 0
  | String d s' => (if bool_decide (d = c) then 1 else 0) + count_char c s'
  end.

Lemma split_go_char c d s :
  split_go (String c "") 0 (String d s) =
    let '(h, t) := split_go (String c "") 0 s in
    if bool_decide (d = c) then ("", h :: t) else (String d h, t).
Proof.
  cbn [split_go starts_with pred String.length]. rewrite andb_true_r.
  destruct (split_go (String c "") 0 s) as [h t].
  case_bool_decide as E1; case_bool_decide as E2; subst; done.
Qed.

(** [len(s.split(c))] is one more than the number of [c] in [s]. *)
Lemma length_py_split_char c s : length (py_split (String c "") s) = S (count_char c s).
Proof.
  unfold py_split. induction s as [|d s IH]; [done|].
  rewrite split_go_char. destruct (split_go _ 0 s) as [h t]. simpl in *.
  case_bool_decide; simpl; lia.
Qed.

Lemma py_split_char_free c x : has_char c x = false -> py_split (String c "") x = [x].
Proof.
  intros Hx. unfold py_split. rewrite <- (str_app_nil_r x), split_go_char_free by done.
  simpl. by rewrite str_app_nil_r.
Qed.

Lemma py_split_char_cons c x s :
  has_char c x = false ->
  py_split (String c "") (x +:+ String c "" +:+ s) = x :: py_split (String c "") s.
Proof.
  intros Hx. unfold py_split. rewrite split_go_char_free by done.
  rewrite str_app_cons, str_app_nil_l, split_go_char, bool_decide_true by done.
  destruct (split_go _ 0 s). by rewrite str_app_nil_r.
Qed.

(** [k in s] for strings. *)
Fixpoint py_contains (k s : string) : bool :=
  starts_with k s || match s with EmptyString => false | String _ s' => py_contains k s' end.

Lemma py_contains_spec k s : py_contains k s = true <-> k ⊑ₛ s.
Proof.
  induction s as [|c s IH]; cbn [py_contains]; rewrite orb_true_iff, starts_with_spec.
  - split.
    + intros [[r E]|?]; [|done]. exists "", r. by rewrite str_app_nil_l.
    + intros (p & r & E). destruct p as [|d p]; [|by rewrite str_app_cons in E].
      rewrite str_app_nil_l in E. left. by exists r.
  - rewrite IH. split.
    + intros [[r E]|(p & r & E)]; [exists "", r; by rewrite str_app_nil_l|].
      exists (String c p), r. by rewrite E, str_app_cons.
    + intros (p & r & E). destruct p as [|d p]; [left; exists r; by rewrite <- str_app_nil_l|].
      rewrite str_app_cons in E. injection E as -> E. right. by exists p, r.
Qed.

Lemma starts_with_refl k : starts_with k k = true.
Proof. rewrite <- (str_app_nil_r k) at 2. apply starts_with_app. Qed.

Lemma starts_with_trans a b c : starts_with a b = true -> starts_with b c = true -> starts_with a c = true.
Proof.
  rewrite !starts_with_spec. intros [r1 ->] [r2 ->]. exists (r1 +:+ r2). by rewrite str_app_assoc.
Qed.

Lemma starts_with_app_l m a b : starts_with (m +:+ a) (m +:+ b) = starts_with a b.
Proof. induction m as [|c m IH]; [done|]. rewrite !str_app_cons. simpl. by rewrite bool_decide_true. Qed.
