(* ===== verification/PyDict.v ===== *)
(** * Python dictionaries with string keys

    A Python [dict] remembers the order in which its keys were first
    inserted, and [replace_multi] tries the placeholders of a dict in that
    order, so a dict is modelled as an association list in insertion order
    ([pydict]).  [d[k] = v] ([dict_set]) overwrites in place or appends;
    [d.update(e)] ([dict_update]) sets the items of [e] one by one; a
    literal [{k1: v1, ...}] ([dict_lit]) is the empty dict updated with its
    items, so a duplicated key keeps its first position and its last value.

    The file proves that these operations keep the keys duplicate-free,
    and that a [pydict] refines a stdpp [gmap] ([to_map]): [dict_set] is
    [insert] and [dict_update] is the left-biased union [∪]. *)

From S2P Require Import Prelude.

Definition pydict (V : Type) : Type := list (string * V).

Section PyDict.
Context {V : Type}.
Implicit Types (d e : pydict V) (k : string) (v : V).

(** [d.get(k)] *)
Fixpoint dict_get d k : option V :=
  match d with
  | [] => None
  | (k', v') :: d' => if decide (k' = k) then Some v' else dict_get d' k
  end.

(** [d[k] = v] *)
Fixpoint dict_set k v d : pydict V :=
  match d with
  | [] => [(k, v)]
  | (k', v') :: d' => if decide (k' = k) then (k, v) :: d' else (k', v') :: dict_set k v d'
  end.

(** [d.update(e)] *)
Definition dict_update d e : pydict V :=
  fold_left (fun acc '(k, v) => dict_set k v acc) e d.

(** [{k1: v1, k2: v2, ...}] *)
Definition dict_lit (items : list (string * V)) : pydict V := dict_update [] items.

Definition dict_keys d : list string := fst <$> d.

(** Well-formedness: no key twice. *)
Definition dict_wf d : Prop := NoDup (dict_keys d).

(** The abstraction of a dict as a finite map. *)
Definition to_map d : gmap string V := list_to_map d.

Lemma dict_get_set d k k' v :
  dict_get (dict_set k v d) k' = if decide (k = k') then Some v else dict_get d k'.
Proof.
  induction d as [|[k0 v0] d IH]; simpl; [done|].
  destruct (decide (k0 = k)) as [->|Hne]; simpl.
  - by repeat case_decide.
  - rewrite IH. by repeat case_decide; subst.
Qed.

Lemma dict_keys_set d k v :
  dict_keys (dict_set k v d) =
    if decide (k ∈ dict_keys d) then dict_keys d else dict_keys d ++ [k].
Proof.
  induction d as [|[k0 v0] d IH]; [done|]. unfold dict_keys in *. cbn [dict_set].
  destruct (decide (k0 = k)) as [->|Hne]; rewrite !fmap_cons; cbn [fst].
  - rewrite decide_True by set_solver. done.
  - rewrite IH. destruct (decide (k ∈ fst <$> d)) as [Hin|Hnin].
    + rewrite decide_True by set_solver. done.
    + rewrite decide_False by set_solver. done.
Qed.

Lemma dict_set_wf d k v : dict_wf d -> dict_wf (dict_set k v d).
Proof.
  unfold dict_wf. rewrite dict_keys_set. case_decide; [done|].
  intros Hnd. apply NoDup_app. split_and!; [done| |by apply NoDup_singleton].
  set_solver.
Qed.

Lemma dict_update_cons d k v e :
  dict_update d ((k, v) :: e) = dict_update (dict_set k v d) e.
Proof. reflexivity. Qed.

Lemma dict_update_wf d e : dict_wf d -> dict_wf (dict_update d e).
Proof.
  revert d. induction e as [|[k v] e IH]; intros d Hd; [done|].
  rewrite dict_update_cons. by apply IH, dict_set_wf.
Qed.

Lemma dict_lit_wf items : dict_wf (dict_lit items).
Proof. apply dict_update_wf. constructor. Qed.

Lemma dict_get_none_not_key d k : dict_get d k = None <-> k ∉ dict_keys d.
Proof.
  induction d as [|[k0 v0] d IH]; simpl; [set_solver|].
  case_decide; set_solver.
Qed.

Lemma to_map_lookup d k : to_map d !! k = dict_get d k.
Proof.
  induction d as [|[k0 v0] d IH]; simpl; [done|].
  unfold to_map in *. simpl. rewrite lookup_insert. by repeat case_decide.
Qed.

(** [d[k] = v] refines [insert] on the abstract map. *)
Lemma dict_set_refines d k v : to_map (dict_set k v d) = <[k:=v]> (to_map d).
Proof.
  apply map_eq. intros k'. rewrite lookup_insert, !to_map_lookup, dict_get_set.
  by repeat case_decide.
Qed.

(** The value of a key after [d.update(e)]: the value in [e] when [e] has
    the key, else the value in [d]. *)
Lemma dict_get_update d e k :
  dict_wf e ->
  dict_get (dict_update d e) k =
    match dict_get e k with Some v => Some v | None => dict_get d k end.
Proof.
  revert d. induction e as [|[k0 v0] e IH]; intros d He; [done|].
  inversion He as [|? ? Hk0 He']; subst.
  rewrite dict_update_cons, IH by done. simpl.
  destruct (decide (k0 = k)) as [->|Hne].
  - apply dict_get_none_not_key in Hk0 as ->. by rewrite dict_get_set, decide_True.
  - rewrite dict_get_set, decide_False by done. done.
Qed.

(** [d.update(e)] refines the left-biased union [to_map e ∪ to_map d]. *)
Lemma dict_update_refines d e :
  dict_wf e -> to_map (dict_update d e) = to_map e ∪ to_map d.
Proof.
  intros He. apply map_eq. intros k.
  rewrite lookup_union, !to_map_lookup, dict_get_update by done.
  by destruct (dict_get e k), (dict_get d k).
Qed.
End PyDict.

#[export] Hint Resolve dict_set_wf dict_update_wf dict_lit_wf : ctk.
#[export] Hint Rewrite @dict_get_set @to_map_lookup : ctk_str.

Section PyDictMore.
Context {V : Type}.
Implicit Types (d e : pydict V) (k : string) (v : V).

Lemma dict_get_elem d k v : dict_wf d -> (k, v) ∈ d -> dict_get d k = Some v.
Proof.
  induction d as [|[k0 v0] d IH]; intros Hwf Hin; [set_solver|].
  inversion Hwf as [|? ? Hk0 Hwf']; subst. simpl.
  apply elem_of_cons in Hin as [[= -> ->]|Hin]; [by rewrite decide_True|].
  rewrite decide_False; [by apply IH|]. intros ->. apply Hk0.
  apply list_elem_of_fmap. by exists (k, v).
Qed.

Lemma dict_get_some_elem d k v : dict_get d k = Some v -> (k, v) ∈ d.
Proof.
  induction d as [|[k0 v0] d IH]; simpl; [done|].
  case_decide; [intros [= <-]; subst; set_solver|intros; set_solver].
Qed.

Lemma dict_keys_elem d k v : (k, v) ∈ d -> k ∈ dict_keys d.
Proof. intros H. apply list_elem_of_fmap. by exists (k, v). Qed.

Lemma dict_keys_cons d k v : dict_keys ((k, v) :: d) = k :: dict_keys d.
Proof. reflexivity. Qed.

Lemma dict_set_keys_incl d k v k' v' : (k', v') ∈ dict_set k v d -> k' = k \/ k' ∈ dict_keys d.
Proof.
  induction d as [|[k0 v0] d IH]; cbn [dict_set].
  - intros [Heq|Hin]%elem_of_cons; [injection Heq as -> ->; by left|by apply elem_of_nil in Hin].
  - rewrite dict_keys_cons. case_decide; intros [Heq|Hin]%elem_of_cons.
    + injection Heq as -> ->. by left.
    + right. apply elem_of_cons. right. by eapply dict_keys_elem.
    + injection Heq as -> ->. right. by apply elem_of_cons; left.
    + destruct (IH Hin) as [?|?]; [by left|right; apply elem_of_cons; by right].
Qed.

(** Every key of [d.update(e)] is a key of [d] or of [e]. *)
Lemma dict_update_keys_incl d e k v :
  (k, v) ∈ dict_update d e -> k ∈ dict_keys d \/ k ∈ dict_keys e.
Proof.
  revert d. induction e as [|[k0 v0] e IH]; intros d Hin; [left; by eapply dict_keys_elem|].
  rewrite dict_update_cons in Hin. rewrite dict_keys_cons, elem_of_cons.
  destruct (IH _ Hin) as [Hk|Hk]; [|by right; right].
  apply list_elem_of_fmap in Hk as [[k1 v1] [-> Hk1]].
  destruct (dict_set_keys_incl _ _ _ _ _ Hk1) as [->|?]; [by right; left|by left].
Qed.
End PyDictMore.
