(* ===== verification/FileSys.v ===== *)
(** * The world the scripts run in: files, directories, environment

    A [world] holds the regular files (path to contents), the directories,
    [os.environ], whether [os.name == 'nt'], the lines printed on standard
    output and the external commands run, in order.  Paths are strings,
    compared literally (no normalisation of [..] or doubled slashes).
    Statements are [io] computations: the state-and-exception monad of the
    prelude over [world].

    The operations follow CPython's [posixpath] and [os]: [path_join]
    ([os.path.join]), [path_split] and [dirname], [path_exists],
    [isfile], [read_file] ([open(p).read()]), [write_file]
    ([open(p, 'w').write(s)]), [mkdir_exist_ok] and [makedirs]
    ([os.makedirs(p, exist_ok=True)]), [copyfile] ([shutil.copyfile]).
    The file proves that [os.makedirs] keeps the directory tree closed
    ([makedirs_closed]), the [join]/[split] round trip, and that [makedirs] terminates within its fuel and creates a
    missing chain of directories ([makedirs_chain]). *)

From S2P Require Import Prelude PyStr.

Record world := mkWorld {
  w_files : gmap string string;
  w_dirs : gset string;
  w_environ : gmap string string;
  w_os_nt : bool;
  w_stdout : list string;
  w_calls : list (list string)
}.

Abbreviation io := (st world).

Definition set_files (fs : gmap string string) (w : world) : world :=
  mkWorld fs (w_dirs w) (w_environ w) (w_os_nt w) (w_stdout w) (w_calls w).
Definition set_dirs (ds : gset string) (w : world) : world :=
  mkWorld (w_files w) ds (w_environ w) (w_os_nt w) (w_stdout w) (w_calls w).
Definition set_stdout (o : list string) (w : world) : world :=
  mkWorld (w_files w) (w_dirs w) (w_environ w) (w_os_nt w) o (w_calls w).
Definition set_calls (c : list (list string)) (w : world) : world :=
  mkWorld (w_files w) (w_dirs w) (w_environ w) (w_os_nt w) (w_stdout w) c.

Definition slash : ascii := "/"%char.

(** ** [posixpath] *)

(** [os.path.join(a, b)]: an absolute [b] discards [a]. *)
Definition join2 (a b : string) : string :=
  if starts_with "/" b then b
  else if bool_decide (a = "") || ends_with "/" a then a +:+ b
  else a +:+ "/" +:+ b.

(** [os.path.join(a, *p)] *)
Definition path_join (a : string) (p : list string) : string := fold_left join2 p a.

(** [(p[:i], p[i:])] where [i] is one past the last slash of [p]. *)
Fixpoint rsplit_slash (p : string) : string * string :=
  match p with
  | EmptyString => ("", "")
  | String c p' =>
      let '(h, t) := rsplit_slash p' in
      if bool_decide (h = "") then
        (if bool_decide (c = slash) then ("/", t) else ("", String c t))
      else (String c h, t)
  end.

Fixpoint all_slashes (s : string) : bool :=
  match s with
  | EmptyString => true
  | String c s' => bool_decide (c = slash) && all_slashes s'
  end.

Fixpoint rstrip_slash (s : string) : string :=
  match s with
  | EmptyString => ""
  | String c s' =>
      let r := rstrip_slash s' in
      if bool_decide (r = "") && bool_decide (c = slash) then "" else String c r
  end.

(** [os.path.split(p)] *)
Definition path_split (p : string) : string * string :=
  let '(head, tail) := rsplit_slash p in
  let head := if bool_decide (head <> "") && negb (all_slashes head)
              then rstrip_slash head else head in
  (head, tail).

(** [os.path.dirname(p)] *)
Definition dirname (p : string) : string := fst (path_split p).

(** ** [os] on the world *)

(** [os.path.exists(p)] *)
Definition path_exists (w : world) (p : string) : bool :=
  bool_decide (is_Some (w_files w !! p)) || bool_decide (p ∈ w_dirs w).

(** [os.path.isfile(p)] *)
Definition isfile (w : world) (p : string) : bool := bool_decide (is_Some (w_files w !! p)).

(** The parent directory of [p] exists (the empty dirname is the working
    directory, which exists). *)
Definition parent_ok (w : world) (p : string) : bool :=
  let d := dirname p in bool_decide (d = "") || bool_decide (d ∈ w_dirs w).

(** The error of creating [p] when its parent is missing. *)
Definition missing_parent_error (w : world) (p : string) : exc :=
  if isfile w (dirname p) then NotADirectoryError p else FileNotFoundError p.

(** The error of [open(p)] on a path that is not a regular file. *)
Definition read_error (w : world) (p : string) : exc :=
  if bool_decide (p ∈ w_dirs w) then IsADirectoryError p else FileNotFoundError p.

(** [open(p).read()] *)
Definition read_file (p : string) : io string := fun w =>
  match w_files w !! p with
  | Some s => (Ok s, w)
  | None => (Exc (read_error w p), w)
  end.

(** [open(p, 'w')] succeeds: [p] is not a directory and its parent exists. *)
Definition writable (w : world) (p : string) : bool :=
  bool_decide (p ∉ w_dirs w) && parent_ok w p.

Definition write_error (w : world) (p : string) : exc :=
  if bool_decide (p ∈ w_dirs w) then IsADirectoryError p else missing_parent_error w p.

(** [open(p, 'w')]: create or truncate. *)
Definition open_write (p : string) : io unit := fun w =>
  if writable w p then (Ok tt, set_files (<[p:=""]> (w_files w)) w)
  else (Exc (write_error w p), w).

(** [f.write(s)] on a file opened for writing (and empty). *)
Definition write_contents (p s : string) : io unit :=
  modify_st (fun w => set_files (<[p:=s]> (w_files w)) w).

(** [with open(p, 'w') as f: f.write(s)] *)
Definition write_file (p s : string) : io unit := open_write p ;; write_contents p s.

(** [shutil.copyfile(src, dst)]: [SameFileError] when both name the same
    file, else read [src] and write [dst]. *)
Definition copyfile (src dst : string) : io unit :=
  if bool_decide (src = dst) then raise (SameFileError src dst)
  else s ← read_file src ; write_file dst s.

(** [os.mkdir(p)] followed by the [exist_ok] recovery of [os.makedirs]. *)
Definition mkdir_exist_ok (p : string) : io unit := fun w =>
  if bool_decide (p ∈ w_dirs w) then (Ok tt, w)
  else if isfile w p then (Exc (FileExistsError p), w)
  else if parent_ok w p then (Ok tt, set_dirs ({[p]} ∪ w_dirs w) w)
  else (Exc (missing_parent_error w p), w).

(** The split [os.makedirs] recurses on: [head, tail = path.split(name)],
    split again when [tail] is empty (a trailing slash). *)
Definition makedirs_split (p : string) : string * string :=
  let '(head, tail) := path_split p in
  if bool_decide (tail = "") then path_split head else (head, tail).

(** [try: c except FileExistsError: pass] *)
Definition except_exists (c : io unit) : io unit := fun w =>
  match c w with
  | (Exc (FileExistsError _), w') => (Ok tt, w')
  | r => r
  end.

(** [os.makedirs(p, exist_ok=True)]: create the missing ancestors first
    (a [FileExistsError] of the recursive call is ignored), return early
    on a last component [.], then [mkdir] with the [exist_ok] recovery.
    The head of a split is shorter than the path, so [String.length p + 1]
    steps are enough ([makedirs_go_fuel]). *)
Fixpoint makedirs_go (fuel : nat) (p : string) : io unit :=
  match fuel with
  | O => mret tt
  | S f =>
      let '(head, tail) := makedirs_split p in
      (early ← (fun w =>
         if bool_decide (head <> "") && bool_decide (tail <> "") && negb (path_exists w head)
         then (except_exists (makedirs_go f head) ;; mret (bool_decide (tail = "."))) w
         else (Ok false, w));
       if (early : bool) then mret tt else mkdir_exist_ok p)
  end.

Definition makedirs (p : string) : io unit := makedirs_go (S (String.length p)) p.

(** [print(s)] *)
Definition print (s : string) : io unit :=
  modify_st (fun w => set_stdout (w_stdout w ++ [s]) w).

(** ** Lemmas *)

Lemma read_file_ok p w s : w_files w !! p = Some s -> read_file p w = (Ok s, w).
Proof. intros H. unfold read_file. by rewrite H. Qed.

Lemma read_file_missing p w : w_files w !! p = None -> read_file p w = (Exc (read_error w p), w).
Proof. intros H. unfold read_file. by rewrite H. Qed.

Lemma write_file_ok p s w :
  writable w p = true -> write_file p s w = (Ok tt, set_files (<[p:=s]> (w_files w)) w).
Proof.
  intros H. unfold write_file, open_write, write_contents, modify_st, mbind, st_bind.
  rewrite H. simpl. by rewrite insert_insert_eq.
Qed.

Lemma write_file_bad p s w :
  writable w p = false -> write_file p s w = (Exc (write_error w p), w).
Proof. intros H. unfold write_file, open_write, mbind, st_bind. by rewrite H. Qed.

Lemma set_files_files fs w : w_files (set_files fs w) = fs.
Proof. reflexivity. Qed.

Lemma set_files_dirs fs w : w_dirs (set_files fs w) = w_dirs w.
Proof. reflexivity. Qed.

Lemma set_files_twice fs fs' w : set_files fs' (set_files fs w) = set_files fs' w.
Proof. reflexivity. Qed.

(** Writing a file does not change which paths are writable. *)
Lemma writable_set_files fs w p : writable (set_files fs w) p = writable w p.
Proof. reflexivity. Qed.

Lemma writable_set_stdout o w p : writable (set_stdout o w) p = writable w p.
Proof. reflexivity. Qed.

#[export] Hint Rewrite set_files_files set_files_dirs set_files_twice writable_set_files
  writable_set_stdout : ctk_str.

(** ** The directory tree

    [dir_closed w]: the parent of every directory is a directory (or the
    working directory).  [os.mkdir] checks the parent, so every operation
    keeps the invariant. *)
Definition dir_closed (w : world) : Prop :=
  forall d, d ∈ w_dirs w -> dirname d = "" \/ dirname d ∈ w_dirs w.

(** A decision procedure for [dir_closed]. *)
Definition dir_closedb (w : world) : bool :=
  forallb (fun d => bool_decide (dirname d = "") || bool_decide (dirname d ∈ w_dirs w))
          (elements (w_dirs w)).

Lemma dir_closedb_sound w : dir_closedb w = true -> dir_closed w.
Proof.
  unfold dir_closedb. rewrite forallb_forall. intros H d Hd.
  specialize (H d ltac:(by apply list_elem_of_In, elem_of_elements)).
  apply orb_true_iff in H as [H|H]; apply bool_decide_eq_true in H; auto.
Qed.

Lemma mkdir_exist_ok_closed p : preserves dir_closed (mkdir_exist_ok p).
Proof.
  intros w Hw. unfold mkdir_exist_ok.
  case_bool_decide; [done|]. destruct (isfile w p); [done|].
  destruct (parent_ok w p) eqn:Hp; [|done]. simpl.
  unfold parent_ok in Hp. apply orb_true_iff in Hp.
  intros d [->%elem_of_singleton|Hd]%elem_of_union.
  - destruct Hp as [Hp|Hp]; apply bool_decide_eq_true in Hp; [by left|right; set_solver].
  - destruct (Hw d Hd); [by left|right; set_solver].
Qed.

Lemma except_exists_preserves P c : preserves P c -> preserves P (except_exists c).
Proof. intros Hc w Hw. unfold except_exists. specialize (Hc w Hw). by repeat case_match; subst. Qed.

(** [os.makedirs] keeps every property [mkdir] keeps, at any fuel. *)
Lemma makedirs_go_preserves P fuel p :
  (forall q, preserves P (mkdir_exist_ok q)) -> preserves P (makedirs_go fuel p).
Proof.
  intros Hm. revert p. induction fuel as [|f IH]; intros p; simpl; [apply preserves_ret|].
  destruct (makedirs_split p) as [h t].
  apply preserves_bind; [|intros []; [apply preserves_ret|apply Hm]].
  intros w Hw. destruct (_ && _); [|done].
  by apply (preserves_bind _ _ _ (except_exists_preserves _ _ (IH h)) (fun _ => preserves_ret _ _)).
Qed.

Lemma makedirs_closed p : preserves dir_closed (makedirs p).
Proof. apply makedirs_go_preserves, mkdir_exist_ok_closed. Qed.

#[export] Hint Resolve mkdir_exist_ok_closed makedirs_closed : ctk_inv.

(** ** [os.makedirs] on an existing directory *)

Lemma rsplit_slash_tail_nil s :
  snd (rsplit_slash s) = "" -> s = "" \/ str_last s = Some slash.
Proof.
  induction s as [|c s IH]; [by left|]. cbn [rsplit_slash].
  destruct (rsplit_slash s) as [h t] eqn:E. simpl in IH.
  assert (Hlast : str_last s = Some slash -> str_last (String c s) = Some slash)
    by (destruct s; done).
  case_bool_decide as Hh; [case_bool_decide as Hc|]; simpl; intros Ht; subst; right.
  - destruct (IH eq_refl) as [->|Hs]; [done|]. by apply Hlast.
  - done.
  - destruct (IH eq_refl) as [->|Hs]; [simpl in E; congruence|]. by apply Hlast.
Qed.

Lemma path_split_tail p : snd (path_split p) = snd (rsplit_slash p).
Proof. unfold path_split. by destruct (rsplit_slash p). Qed.

(** A path that does not end with a slash has a non-empty last component. *)
Lemma path_split_tail_ne p : p <> "" -> str_last p <> Some slash -> snd (path_split p) <> "".
Proof. rewrite path_split_tail. intros H1 H2 H. by destruct (rsplit_slash_tail_nil p H). Qed.

Lemma str_last_join2 a b : b <> "" -> str_last (join2 a b) = str_last b.
Proof.
  intros Hb. unfold join2. destruct (starts_with "/" b); [done|].
  destruct (_ || _); [by apply str_last_app|].
  rewrite str_last_app by done. by apply str_last_app.
Qed.

Lemma makedirs_dir_exists p w :
  dir_closed w -> p ∈ w_dirs w -> snd (path_split p) <> "" -> makedirs p w = (Ok tt, w).
Proof.
  intros Hw Hp Ht. unfold makedirs. cbn [makedirs_go]. unfold makedirs_split.
  assert (Hd := Hw p Hp). unfold dirname in Hd.
  destruct (path_split p) as [h t]. simpl in *. rewrite bool_decide_false by done.
  unfold mbind, st_bind.
  replace (bool_decide (h <> "") && bool_decide (t <> "") && negb (path_exists w h)) with false.
  - unfold mkdir_exist_ok. by rewrite bool_decide_true.
  - unfold path_exists. destruct Hd as [->|Hh]; [done|].
    rewrite (bool_decide_true (h ∈ _)) by done. by rewrite orb_true_r, andb_false_r.
Qed.

(** ** Files a computation leaves alone *)

Definition keeps_file {A} (p : string) (c : io A) : Prop :=
  forall v, preserves (fun w => w_files w !! p = v) c.

Lemma keeps_file_bind {A B} p (c : io A) (f : A -> io B) :
  keeps_file p c -> (forall a, keeps_file p (f a)) -> keeps_file p (c ≫= f).
Proof. intros Hc Hf v. apply preserves_bind; [apply Hc|intros a; apply Hf]. Qed.

Lemma keeps_file_ret {A} p (a : A) : keeps_file p (mret a).
Proof. intros v. apply preserves_ret. Qed.

Lemma keeps_file_lift {A} p (o : outcome A) : keeps_file p (lift_outcome o).
Proof. intros v. apply preserves_lift. Qed.

Lemma keeps_file_query {A} p (q : world -> A) : keeps_file p (fun w => (Ok (q w), w)).
Proof. by intros v w. Qed.

Lemma keeps_file_for {A} p (l : list A) (body : A -> io unit) :
  (forall x, x ∈ l -> keeps_file p (body x)) -> keeps_file p (py_for l body).
Proof. intros Hb v. apply preserves_for. intros x Hx. by apply Hb. Qed.

Lemma read_file_keeps_file p q : keeps_file p (read_file q).
Proof. intros v w Hw. unfold read_file. by destruct (w_files w !! q). Qed.

Lemma write_file_keeps_file p q s : p <> q -> keeps_file p (write_file q s).
Proof.
  intros Hne v w Hw. destruct (writable w q) eqn:E.
  - rewrite write_file_ok by done. simpl. by rewrite lookup_insert_ne.
  - by rewrite write_file_bad.
Qed.

Lemma copyfile_keeps_file p src dst : p <> dst -> keeps_file p (copyfile src dst).
Proof.
  intros Hne. unfold copyfile. case_bool_decide; [by intros v w Hw|].
  apply keeps_file_bind; [apply read_file_keeps_file|].
  intros s. by apply write_file_keeps_file.
Qed.

Lemma copyfile_ok src dst s w :
  src <> dst -> w_files w !! src = Some s -> writable w dst = true ->
  copyfile src dst w = (Ok tt, set_files (<[dst := s]> (w_files w)) w).
Proof.
  intros Hne Hs Hw. unfold copyfile. rewrite bool_decide_false by done.
  rewrite (bind_ok _ _ _ s w) by (by apply read_file_ok). by apply write_file_ok.
Qed.

(** A loop whose body only rewrites files, on a fixed directory tree. *)
Lemma py_for_files {A} (l : list A) (body : A -> io unit) (g : A -> gmap string string -> gmap string string) D :
  (forall x w, x ∈ l -> w_dirs w = D -> body x w = (Ok tt, set_files (g x (w_files w)) w)) ->
  forall w, w_dirs w = D ->
  py_for l body w = (Ok tt, set_files (fold_left (fun fs x => g x fs) l (w_files w)) w).
Proof.
  intros Hb. induction l as [|x l IH]; intros w Hw; simpl.
  - by destruct w.
  - rewrite (bind_ok _ _ _ tt (set_files (g x (w_files w)) w)) by (apply Hb; [set_solver|done]).
    rewrite IH; [|set_solver|done]. by rewrite set_files_files, set_files_twice.
Qed.

(** [os.path.join(a, x)] is injective in a relative [x]. *)
Lemma join2_inj_r a x y :
  starts_with "/" x = false -> starts_with "/" y = false -> join2 a x = join2 a y -> x = y.
Proof.
  unfold join2. intros -> ->. destruct (_ || _); intros H; apply str_app_inv_l in H; [done|].
  by apply (str_app_inv_l "/").
Qed.

(** ** [os.path.join] then [os.path.split]

    Joining a directory that does not end with a slash and a plain name,
    then splitting, gives both back; this is how the scripts' paths
    relate to their parents. *)

Lemma rsplit_slash_free t : has_char slash t = false -> rsplit_slash t = ("", t).
Proof.
  induction t as [|c t IH]; [done|]. cbn [has_char]. intros [Hc Ht]%orb_false_iff.
  cbn [rsplit_slash]. rewrite IH by done. rewrite bool_decide_true by done.
  rewrite bool_decide_false; [done|]. intros ->. by rewrite bool_decide_true in Hc.
Qed.

Lemma rsplit_slash_dir a t :
  has_char slash t = false -> rsplit_slash (a +:+ String slash t) = (a +:+ "/", t).
Proof.
  intros Ht. induction a as [|c a IH].
  - rewrite str_app_nil_l. cbn [rsplit_slash]. rewrite (rsplit_slash_free t Ht). simpl. by rewrite ?bool_decide_true.
  - rewrite str_app_cons. cbn [rsplit_slash]. rewrite IH.
    rewrite bool_decide_false; [done|]. by destruct a.
Qed.

Lemma rstrip_slash_keep a : a <> "" -> str_last a <> Some slash -> rstrip_slash a = a.
Proof.
  induction a as [|c a IH]; [done|]. intros _ Hl. cbn [rstrip_slash].
  destruct a as [|d a].
  - rewrite (bool_decide_false (c = slash)) by (intros ->; done). by rewrite andb_false_r.
  - rewrite IH by done. rewrite (bool_decide_false (String d a = "")) by done. done.
Qed.

Lemma rstrip_slash_trailing a : a <> "" -> str_last a <> Some slash -> rstrip_slash (a +:+ "/") = a.
Proof.
  induction a as [|c a IH]; [done|]. intros _ Hl. rewrite str_app_cons. cbn [rstrip_slash].
  destruct a as [|d a].
  - rewrite str_app_nil_l. cbn [rstrip_slash]. rewrite (bool_decide_true ("" = "")) by done.
    rewrite (bool_decide_true (slash = slash)) by done. simpl.
    by rewrite (bool_decide_false (c = slash)) by (intros ->; done).
  - rewrite IH by done. rewrite (bool_decide_false (String d a = "")) by done. done.
Qed.

Lemma all_slashes_last a : a <> "" -> str_last a <> Some slash -> all_slashes a = false.
Proof.
  induction a as [|c a IH]; [done|]. intros _ Hl. cbn [all_slashes].
  destruct a as [|d a].
  - rewrite (bool_decide_false (c = slash)) by (intros ->; done). done.
  - rewrite IH by done. by rewrite andb_false_r.
Qed.

Lemma all_slashes_app a t : all_slashes (a +:+ t) = all_slashes a && all_slashes t.
Proof. induction a as [|c a IH]; [done|]. rewrite str_app_cons. simpl. by rewrite IH, andb_assoc. Qed.

(** [os.path.split(os.path.join(a, b)) == (a, b)] *)
(** [os.path.join(a, b)] of a directory without trailing slash and a
    plain name is [a + '/' + b]. *)
Lemma join2_plain a b :
  a <> "" -> str_last a <> Some slash -> has_char slash b = false -> join2 a b = a +:+ "/" +:+ b.
Proof.
  intros Ha Hl Hs. unfold join2.
  assert (starts_with "/" b = false) as ->.
  { destruct b as [|c b]; [done|]. simpl in *. apply orb_false_iff in Hs as [Hc _].
    rewrite andb_true_r. apply bool_decide_eq_false in Hc. by apply bool_decide_false. }
  rewrite bool_decide_false by done.
  assert (ends_with "/" a = false) as ->; [|done].
  destruct (ends_with "/" a) eqn:E; [|done]. exfalso. apply Hl.
  clear -E. induction a as [|c a IH]; [done|]. simpl in E.
  apply orb_true_iff in E as [E|E].
  - apply bool_decide_eq_true in E. by injection E as -> ->.
  - specialize (IH E). by destruct a.
Qed.

Lemma path_split_join2 a b :
  a <> "" -> str_last a <> Some slash -> b <> "" -> has_char slash b = false ->
  path_split (join2 a b) = (a, b).
Proof.
  intros Ha Hl Hb Hs. rewrite join2_plain by done.
  unfold path_split. rewrite str_app_cons, str_app_nil_l.
  change (String "/"%char b) with (String slash b). rewrite (rsplit_slash_dir a b Hs).
  cbn zeta. rewrite bool_decide_true by (intros E; apply str_app_eq_nil in E as [? ?]; done).
  assert (Hf : all_slashes (a +:+ "/") = false).
  { rewrite all_slashes_app. by rewrite all_slashes_last. }
  rewrite Hf. simpl. by rewrite rstrip_slash_trailing.
Qed.

(** ** [os.makedirs] terminates within its fuel *)

Lemma rsplit_slash_app p : (rsplit_slash p).1 +:+ (rsplit_slash p).2 = p.
Proof.
  induction p as [|c p IH]; [done|]. cbn [rsplit_slash].
  destruct (rsplit_slash p) as [h t]. simpl in IH.
  case_bool_decide as Hh; [case_bool_decide as Hc|]; simpl; subst; [done..|].
  by rewrite str_app_cons.
Qed.

Lemma rstrip_slash_length s : String.length (rstrip_slash s) <= String.length s.
Proof.
  induction s as [|c s IH]; [done|]. cbn [rstrip_slash].
  destruct (_ && _); simpl; lia.
Qed.

Lemma path_split_length p :
  String.length (path_split p).1 + String.length (path_split p).2 <= String.length p.
Proof.
  unfold path_split. pose proof (rsplit_slash_app p) as E.
  destruct (rsplit_slash p) as [h t]. simpl in *.
  rewrite <- E, str_length_app.
  destruct (_ && _); simpl; [pose proof (rstrip_slash_length h)|]; lia.
Qed.

(** The head [os.makedirs] recurses on is shorter than the path. *)
Lemma makedirs_split_shorter p :
  (makedirs_split p).2 <> "" -> String.length (makedirs_split p).1 < String.length p.
Proof.
  unfold makedirs_split. pose proof (path_split_length p) as L.
  destruct (path_split p) as [h t] eqn:E. simpl in *. case_bool_decide as Ht.
  - pose proof (path_split_length h) as L'. subst. simpl in *.
    destruct (path_split h) as [h' t']. simpl in *. intros Ht'.
    destruct t'; [done|]. simpl in *. lia.
  - simpl. intros _. destruct t; [done|]. simpl in *. lia.
Qed.

(** Any fuel above the length of the path gives the same run: the
    recursion never runs out. *)
Lemma makedirs_go_fuel f f' p w :
  S (String.length p) <= f -> S (String.length p) <= f' -> makedirs_go f p w = makedirs_go f' p w.
Proof.
  revert f' p w. induction f as [|f IH]; intros f' p w Hf Hf'; [lia|].
  destruct f' as [|f']; [lia|]. cbn [makedirs_go].
  pose proof (makedirs_split_shorter p) as Hs. destruct (makedirs_split p) as [h t]. simpl in Hs.
  apply bind_ext; [|done]. intros w'.
  destruct (bool_decide (h <> "") && bool_decide (t <> "") && _) eqn:E; [|done].
  apply andb_true_iff in E as [[_ Ht]%andb_true_iff _]. apply bool_decide_eq_true in Ht.
  apply bind_ext; [|done]. intros w''. unfold except_exists.
  rewrite (IH f' h w''); [done|specialize (Hs Ht); lia..].
Qed.

Lemma makedirs_fuel n p w : makedirs_go (S (String.length p) + n) p w = makedirs p w.
Proof. apply makedirs_go_fuel; lia. Qed.

(** The world after [os.mkdir(p)] succeeded or found [p] already there. *)
Definition with_dir (p : string) (w : world) : world :=
  if bool_decide (p ∈ w_dirs w) then w else set_dirs ({[p]} ∪ w_dirs w) w.

Lemma with_dir_dirs p w : w_dirs (with_dir p w) = {[p]} ∪ w_dirs w.
Proof. unfold with_dir. case_bool_decide; [set_solver|done]. Qed.

Lemma with_dir_other p w :
  w_files (with_dir p w) = w_files w /\ w_environ (with_dir p w) = w_environ w /\
  w_os_nt (with_dir p w) = w_os_nt w /\ w_stdout (with_dir p w) = w_stdout w /\
  w_calls (with_dir p w) = w_calls w.
Proof. unfold with_dir. by case_bool_decide. Qed.

(** [os.makedirs(p, exist_ok=True)] when the parent of [p] exists: [p] is
    created, or left as it is when it already is a directory. *)
Lemma makedirs_parent_exists p w :
  (path_split p).2 <> "" -> parent_ok w p = true -> isfile w p = false ->
  makedirs p w = (Ok tt, with_dir p w).
Proof.
  intros Ht Hp Hf. unfold makedirs. cbn [makedirs_go]. unfold makedirs_split.
  pose proof Hp as Hp'. unfold parent_ok, dirname in Hp'.
  destruct (path_split p) as [h t]. simpl in *. rewrite bool_decide_false by done.
  unfold mbind, st_bind.
  replace (bool_decide (h <> "") && bool_decide (t <> "") && negb (path_exists w h)) with false.
  - unfold mkdir_exist_ok, with_dir. rewrite Hf, Hp. by destruct (bool_decide (p ∈ w_dirs w)).
  - apply orb_true_iff in Hp' as [E|E]; apply bool_decide_eq_true in E.
    + subst h. by rewrite (bool_decide_false ("" <> "")) by (intros H; by apply H).
    + unfold path_exists. rewrite (bool_decide_true (h ∈ _)) by done.
      by rewrite orb_true_r, andb_false_r.
Qed.

(** ** [os.makedirs] creates a missing chain of directories

    [mk_chain w p]: [p] is an existing directory without trailing slash,
    extended by plain names ([x], not [.], without slash) none of which
    names a file.  On such a path [makedirs] creates every missing
    directory of the chain. *)
Inductive mk_chain (w : world) : string -> Prop :=
| mk_chain_dir r : r ∈ w_dirs w -> r <> "" -> str_last r <> Some slash -> mk_chain w r
| mk_chain_join q x : mk_chain w q -> x <> "" -> x <> "." -> has_char slash x = false ->
    isfile w (join2 q x) = false -> mk_chain w (join2 q x).

Lemma has_char_last c s : has_char c s = false -> str_last s <> Some c.
Proof.
  induction s as [|d s IH]; [done|]. cbn [has_char]. intros [Hd Hs]%orb_false_iff.
  destruct s as [|e s].
  - intros [= ->]. by rewrite bool_decide_true in Hd.
  - by apply IH.
Qed.

Lemma mk_chain_shape w p : mk_chain w p -> p <> "" /\ str_last p <> Some slash.
Proof.
  induction 1 as [r|q x Hq [Hq1 Hq2] Hx Hdot Hs Hf].
  - done.
  - rewrite join2_plain by done. split.
    + intros E. by apply str_app_eq_nil in E as [? _].
    + rewrite !str_last_app by done. by apply has_char_last.
Qed.

Lemma mk_chain_exists_dir w w' q :
  mk_chain w q -> w_files w' = w_files w -> w_dirs w ⊆ w_dirs w' ->
  path_exists w' q = true -> q ∈ w_dirs w'.
Proof.
  intros Hq Hfs Hds. unfold path_exists. intros [E|E]%orb_true_iff; [|by apply bool_decide_eq_true in E].
  destruct Hq as [r Hr|q x _ _ _ _ Hf]; [set_solver|].
  unfold isfile in Hf. rewrite Hfs in E. by rewrite E in Hf.
Qed.

Lemma mkdir_exist_ok_parent p w :
  isfile w p = false -> dirname p ∈ w_dirs w ->
  exists D, mkdir_exist_ok p w = (Ok tt, set_dirs D w) /\ p ∈ D /\ w_dirs w ⊆ D /\
    forall d, d ∈ D -> d ∈ w_dirs w \/ d = p.
Proof.
  intros Hf Hd. unfold mkdir_exist_ok. case_bool_decide as Hp.
  - exists (w_dirs w). split_and!; [by destruct w|done|done|by left].
  - rewrite Hf. unfold parent_ok. rewrite (bool_decide_true (dirname p ∈ _)) by done.
    rewrite orb_true_r. exists ({[p]} ∪ w_dirs w). split_and!; [done|set_solver|set_solver|set_solver].
Qed.

(** On a chain, [makedirs p] succeeds, [p] is a directory afterwards, and
    every directory it creates is a prefix of [p]. *)
Theorem makedirs_chain w p :
  mk_chain w p -> forall w', dir_closed w' -> w_files w' = w_files w -> w_dirs w ⊆ w_dirs w' ->
  exists D, makedirs p w' = (Ok tt, set_dirs D w') /\ p ∈ D /\ w_dirs w' ⊆ D /\
    forall d, d ∈ D -> d ∈ w_dirs w' \/ starts_with d p = true.
Proof.
  induction 1 as [r Hr Hr1 Hr2|q x Hq IH Hx Hdot Hs Hf]; intros w' Hc Hfs Hds.
  - exists (w_dirs w'). rewrite makedirs_dir_exists; [|done|set_solver|by apply path_split_tail_ne].
    split_and!; [by destruct w'|set_solver|done|by left].
  - destruct (mk_chain_shape _ _ Hq) as [Hq1 Hq2].
    assert (Hlen : String.length q < String.length (join2 q x))
      by (rewrite join2_plain by done; rewrite !str_length_app; simpl; lia).
    assert (Hpre : starts_with q (join2 q x) = true)
      by (rewrite join2_plain by done; apply starts_with_app).
    assert (Hdn : dirname (join2 q x) = q) by (unfold dirname; by rewrite path_split_join2).
    assert (Hpf : isfile w' (join2 q x) = false) by (unfold isfile in *; by rewrite Hfs).
    unfold makedirs. cbn [makedirs_go]. unfold makedirs_split.
    rewrite path_split_join2 by done. rewrite (bool_decide_false (x = "")) by done.
    unfold mbind, st_bind. destruct (path_exists w' q) eqn:Hex.
    + apply (mk_chain_exists_dir w) in Hex; [|done..]. rewrite andb_false_r.
      destruct (mkdir_exist_ok_parent (join2 q x) w') as (D & E & Hp & HD & Hnew);
        [done|by rewrite Hdn|].
      exists D. split_and!; [done|done|done|].
      intros d Hd. destruct (Hnew d Hd) as [?| ->]; [by left|right; apply starts_with_refl].
    + rewrite (bool_decide_true (q <> "")), (bool_decide_true (x <> "")) by done. simpl.
      unfold except_exists. rewrite (makedirs_go_fuel _ (S (String.length q)) q w') by lia.
      destruct (IH w' Hc Hfs Hds) as (D1 & E1 & Hq1' & HD1 & Hnew1).
      change (makedirs_go (S (String.length q)) q w') with (makedirs q w'). rewrite E1. simpl.
      rewrite (bool_decide_false (x = ".")) by done.
      destruct (mkdir_exist_ok_parent (join2 q x) (set_dirs D1 w')) as (D & E & Hp & HD & Hnew);
        [by unfold isfile in *|by rewrite Hdn|].
      exists D. rewrite E. split_and!; [done|done|set_solver|].
      intros d Hd. destruct (Hnew d Hd) as [Hd1| ->]; [|right; apply starts_with_refl].
      destruct (Hnew1 d Hd1) as [?|Hdq]; [by left|right]. by apply (starts_with_trans _ q).
Qed.
