(* ===== verification/CallLog.v ===== *)
(** * The log of started commands

    The world records every command the scripts start, in order, in
    [w_calls].  This file holds the two predicates the ordering theorems
    of [post-install.py] are stated with:
    - [keeps_calls c]: [c] starts no command (the file operations of
      [FileSys], including [os.makedirs] at any fuel);
    - [logs ps c]: whatever its outcome, [c] appends to the log a prefix of
      the commands described by [ps], one per element and in that order,
      and the whole of [ps] when it returns normally.
    [logs_bind] composes them along [≫=], so a script's command order is
    the concatenation of its statements' orders, and a statement that
    raises cuts the sequence there. *)

From S2P Require Import Prelude PyStr FileSys.

(** [c] never starts a command. *)
Definition keeps_calls {A} (c : io A) : Prop := forall L, preserves (fun w => w_calls w = L) c.

(** [c] starts a prefix of the commands [ps] describes, all of them when
    it returns normally. *)
Definition logs {A} (ps : list (list string -> Prop)) (c : io A) : Prop :=
  forall w, exists l, w_calls (c w).2 = w_calls w ++ l /\
    Forall2 (fun P a => P a) (take (length l) ps) l /\
    (forall a, (c w).1 = Ok a -> length l = length ps).

(** ** Generic lemmas *)

Lemma logs_length (ps : list (list string -> Prop)) (l : list (list string)) :
  Forall2 (fun (P : list string -> Prop) a => P a) (take (length l) ps) l -> length l <= length ps.
Proof. intros H%Forall2_length. rewrite length_take in H. lia. Qed.

Lemma keeps_calls_logs {A} (c : io A) : keeps_calls c -> logs [] c.
Proof.
  intros Hc w. exists []. rewrite app_nil_r. split_and!; [by apply Hc|constructor|done].
Qed.

Lemma logs_bind {A B} ps qs (c : io A) (k : A -> io B) :
  logs ps c -> (forall a, logs qs (k a)) -> logs (ps ++ qs) (c ≫= k).
Proof.
  intros Hc Hk w. destruct (Hc w) as (l1 & E1 & F1 & O1).
  pose proof (logs_length ps l1 F1) as L1.
  unfold mbind, st_bind. destruct (c w) as [[a|e] w1]; simpl in *.
  - specialize (O1 a eq_refl). destruct (Hk a w1) as (l2 & E2 & F2 & O2).
    exists (l1 ++ l2). split_and!.
    + by rewrite E2, E1, app_assoc.
    + rewrite length_app, (take_app_add' ps qs (length l1) (length l2) O1).
      rewrite take_ge in F1 by lia. by apply Forall2_app.
    + intros b Hb. rewrite length_app, (O2 b Hb), O1, length_app. done.
  - exists l1. split_and!; [done| |done]. by rewrite take_app_le.
Qed.

(** [logs_bind] with the concatenation left to unification. *)
Lemma logs_bind_eq {A B} ps qs rs (c : io A) (k : A -> io B) :
  logs ps c -> (forall a, logs qs (k a)) -> rs = ps ++ qs -> logs rs (c ≫= k).
Proof. intros Hc Hk ->. by apply logs_bind. Qed.

Lemma logs_ret {A} (a : A) : logs [] (mret a).
Proof. apply keeps_calls_logs. intros L. apply preserves_ret. Qed.

Lemma logs_if {A} ps (b : bool) (c1 c2 : io A) : logs ps c1 -> logs ps c2 -> logs ps (if b then c1 else c2).
Proof. by destruct b. Qed.

(** ** The file operations start no command *)

Lemma keeps_calls_bind {A B} (c : io A) (f : A -> io B) :
  keeps_calls c -> (forall a, keeps_calls (f a)) -> keeps_calls (c ≫= f).
Proof. intros Hc Hf L. apply preserves_bind; [apply Hc|intros a; apply Hf]. Qed.

Lemma keeps_calls_ret {A} (a : A) : keeps_calls (mret a).
Proof. intros L. apply preserves_ret. Qed.

Lemma keeps_calls_lift {A} (o : outcome A) : keeps_calls (lift_outcome o).
Proof. intros L. apply preserves_lift. Qed.

Lemma keeps_calls_query {A} (f : world -> A) : keeps_calls (fun w => (Ok (f w), w)).
Proof. by intros L w. Qed.

Lemma keeps_calls_for {A} (l : list A) (body : A -> io unit) :
  (forall x, x ∈ l -> keeps_calls (body x)) -> keeps_calls (py_for l body).
Proof. intros Hb L. apply preserves_for. intros x Hx. by apply Hb. Qed.

Lemma read_file_keeps_calls p : keeps_calls (read_file p).
Proof. intros L w Hw. unfold read_file. by destruct (w_files w !! p). Qed.

Lemma open_write_keeps_calls p : keeps_calls (open_write p).
Proof. intros L w Hw. unfold open_write. by destruct (writable w p). Qed.

Lemma write_file_keeps_calls p s : keeps_calls (write_file p s).
Proof. apply keeps_calls_bind; [apply open_write_keeps_calls|by intros _ L w]. Qed.

Lemma copyfile_keeps_calls src dst : keeps_calls (copyfile src dst).
Proof.
  unfold copyfile. case_bool_decide; [by intros L w|].
  apply keeps_calls_bind; [apply read_file_keeps_calls|intros; apply write_file_keeps_calls].
Qed.

Lemma print_keeps_calls s : keeps_calls (print s).
Proof. by intros L w. Qed.

Lemma mkdir_exist_ok_keeps_calls p : keeps_calls (mkdir_exist_ok p).
Proof. intros L w Hw. unfold mkdir_exist_ok. by repeat case_match. Qed.

Lemma makedirs_keeps_calls p : keeps_calls (makedirs p).
Proof. intros L. apply makedirs_go_preserves. intros q. apply mkdir_exist_ok_keeps_calls. Qed.

#[export] Hint Resolve keeps_calls_bind keeps_calls_ret keeps_calls_lift keeps_calls_query
  read_file_keeps_calls open_write_keeps_calls write_file_keeps_calls copyfile_keeps_calls
  print_keeps_calls mkdir_exist_ok_keeps_calls makedirs_keeps_calls : ctk_inv.
