(* ===== verification/Frame.v ===== *)
(** * What a statement may change on the file system

    [modifies F D c]: whatever its outcome, [c] changes only the files
    whose path satisfies [F], removes no directory, and creates only
    directories satisfying [D].  The predicate is closed under [≫=] and
    weakening ([modifies_bind], [modifies_mono]); each file-system
    primitive of [FileSys] gets its frame, and [makedirs_modifies] shows
    that [os.makedirs p] creates only prefixes of [p] (its ancestors and
    [p] itself), at any fuel. *)

From S2P Require Import Prelude PyStr FileSys.

Definition modifies {A} (F D : string -> Prop) (c : io A) : Prop :=
  forall w,
    (forall p, ~ F p -> w_files (c w).2 !! p = w_files w !! p) /\
    w_dirs w ⊆ w_dirs (c w).2 /\
    (forall d, d ∈ w_dirs (c w).2 -> d ∈ w_dirs w \/ D d).

(** ** Composition *)

Lemma modifies_bind {A B} F D (c : io A) (k : A -> io B) :
  modifies F D c -> (forall a, modifies F D (k a)) -> modifies F D (c ≫= k).
Proof.
  intros Hc Hk w. destruct (Hc w) as (F1 & S1 & D1).
  unfold mbind, st_bind. destruct (c w) as [[a|e] w1]; simpl in *; [|done].
  destruct (Hk a w1) as (F2 & S2 & D2). split_and!.
  - intros p Hp. by rewrite F2, F1.
  - set_solver.
  - intros d Hd. destruct (D2 d Hd) as [Hd1|]; [|by right]. by apply D1.
Qed.

Lemma modifies_mono {A} F F' D D' (c : io A) :
  (forall p, F p -> F' p) -> (forall d, D d -> D' d) -> modifies F D c -> modifies F' D' c.
Proof.
  intros HF HD Hc w. destruct (Hc w) as (F1 & S1 & D1). split_and!; [|done|].
  - intros p Hp. apply F1. naive_solver.
  - intros d Hd. destruct (D1 d Hd); [by left|right; auto].
Qed.

(** A statement that leaves files and directories alone. *)
Lemma modifies_none {A} F D (c : io A) :
  (forall w, w_files (c w).2 = w_files w /\ w_dirs (c w).2 = w_dirs w) -> modifies F D c.
Proof. intros H w. destruct (H w) as [-> ->]. split_and!; [done|done|by left]. Qed.

Lemma modifies_ret {A} F D (a : A) : modifies F D (mret a).
Proof. by apply modifies_none. Qed.

Lemma modifies_lift {A} F D (o : outcome A) : modifies F D (lift_outcome o).
Proof. by apply modifies_none. Qed.

Lemma modifies_for {A} F D (l : list A) (body : A -> io unit) :
  (forall x, x ∈ l -> modifies F D (body x)) -> modifies F D (py_for l body).
Proof.
  intros Hb. induction l as [|x l IH]; simpl; [apply modifies_ret|].
  apply modifies_bind; [apply Hb; set_solver|]. intros _. apply IH. set_solver.
Qed.

(** ** The primitives *)

Lemma read_file_modifies F D p : modifies F D (read_file p).
Proof. apply modifies_none. intros w. unfold read_file. by destruct (w_files w !! p). Qed.

Lemma print_modifies F D s : modifies F D (print s).
Proof. by apply modifies_none. Qed.

Lemma open_write_modifies D p : modifies (eq p) D (open_write p).
Proof.
  intros w. unfold open_write. destruct (writable w p); simpl; [|split_and!; [done|done|by left]].
  split_and!; [|done|by left]. intros q Hq. by rewrite lookup_insert_ne.
Qed.

Lemma write_file_modifies D p s : modifies (eq p) D (write_file p s).
Proof.
  apply modifies_bind; [apply open_write_modifies|intros _].
  intros w. simpl. split_and!; [|done|by left]. intros q Hq. by rewrite lookup_insert_ne.
Qed.

Lemma copyfile_modifies D src dst : modifies (eq dst) D (copyfile src dst).
Proof.
  unfold copyfile. case_bool_decide; [by apply modifies_none|].
  apply modifies_bind; [apply read_file_modifies|intros; apply write_file_modifies].
Qed.

Lemma mkdir_exist_ok_modifies F p : modifies F (eq p) (mkdir_exist_ok p).
Proof.
  intros w. unfold mkdir_exist_ok.
  case_bool_decide; [split_and!; [done|done|by left]|].
  destruct (isfile w p); [split_and!; [done|done|by left]|].
  destruct (parent_ok w p); simpl; [|split_and!; [done|done|by left]].
  split_and!; [done|set_solver|]. intros d [->%elem_of_singleton|Hd]%elem_of_union; [by right|by left].
Qed.

Lemma except_exists_modifies F D c : modifies F D c -> modifies F D (except_exists c).
Proof. intros Hc w. unfold except_exists. destruct (Hc w) as (? & ? & ?). by repeat case_match; subst. Qed.

(** ** [os.makedirs] creates only prefixes of its path *)

Lemma rsplit_slash_prefix p : starts_with (rsplit_slash p).1 p = true.
Proof.
  induction p as [|c p IH]; [done|]. cbn [rsplit_slash].
  destruct (rsplit_slash p) as [h t]. simpl in IH.
  case_bool_decide; [case_bool_decide; subst|]; simpl; try rewrite bool_decide_true by done; done.
Qed.

Lemma rstrip_slash_prefix s : starts_with (rstrip_slash s) s = true.
Proof.
  induction s as [|c s IH]; [done|]. cbn [rstrip_slash].
  destruct (_ && _); [done|]. simpl. try rewrite bool_decide_true by done; done.
Qed.

Lemma path_split_prefix p : starts_with (path_split p).1 p = true.
Proof.
  unfold path_split. pose proof (rsplit_slash_prefix p) as H.
  destruct (rsplit_slash p) as [h t]. simpl in *.
  destruct (_ && _); [|done]. by apply (starts_with_trans _ h); [apply rstrip_slash_prefix|].
Qed.

Lemma makedirs_split_prefix p : starts_with (makedirs_split p).1 p = true.
Proof.
  unfold makedirs_split. pose proof (path_split_prefix p) as H.
  destruct (path_split p) as [h t]. simpl in *.
  case_bool_decide; [|done]. by apply (starts_with_trans _ h); [apply path_split_prefix|].
Qed.

Lemma makedirs_go_modifies F fuel p : modifies F (fun d => starts_with d p = true) (makedirs_go fuel p).
Proof.
  revert p. induction fuel as [|f IH]; intros p; simpl; [apply modifies_ret|].
  pose proof (makedirs_split_prefix p) as Hh. destruct (makedirs_split p) as [h t]. simpl in Hh.
  apply modifies_bind.
  - intros w. destruct (_ && _); [|split_and!; [done|done|by left]].
    apply (modifies_mono F F (fun d => starts_with d h = true)); [done| |].
    + intros d Hd. by apply (starts_with_trans _ h).
    + apply modifies_bind; [apply except_exists_modifies, IH|intros; apply modifies_ret].
  - intros []; [apply modifies_ret|].
    apply (modifies_mono F F (eq p)); [done|intros d <-; apply starts_with_refl|].
    apply mkdir_exist_ok_modifies.
Qed.

Lemma makedirs_modifies F p : modifies F (fun d => starts_with d p = true) (makedirs p).
Proof. apply makedirs_go_modifies. Qed.
