(* ===== verification/Replace.v ===== *)
(** * The template renderer: [replace_multi] of [win32/replace.py]

    [replace.py] is not under [src/]: the renderer is modelled from the
    spec (sections 3, 4.1 and 8).  [replace_multi(src, dest, items)] reads
    the template [src], replaces every placeholder of the dict [items] in
    one left-to-right pass (a placeholder is a literal key; at each
    position the first key of the dict, in insertion order, that the text
    starts with is replaced, and the scan resumes after it: the value is
    never scanned again), and writes the result to [dest].

    - [first_match], [scan], [render]: the text substitution;
    - [renders]: its abstract specification, the relation between a
      template and its output, by the spec's rules; [render_correct]
      proves that [render] computes exactly the output the rules allow;
    - [replace_multi]: the file-level operation, and [TemplateRenderer]
      the interface the generators rely on, discharged by [replace_multi];
    - [batch_spec]: the spec's batch variant, which [tr_seq_spec] shows a
      sequence of [replace_multi] calls implements. *)

From S2P Require Import Prelude PyStr PyDict FileSys.

(** ** Text substitution *)

(** The first entry of [m], in dict order, whose (non-empty) key the text
    [s] starts with. *)
Fixpoint first_match (m : pydict string) (s : string) : option (string * string) :=
  match m with
  | [] => None
  | (k, v) :: m' =>
      if bool_decide (k <> "") && starts_with k s then Some (k, v) else first_match m' s
  end.

(** The scan: [skip] counts the characters of a replaced key still to be
    passed over. *)
Fixpoint scan (m : pydict string) (skip : nat) (s : string) : string :=
  match s with
  | EmptyString => ""
  | String c s' =>
      match skip with
      | S n => scan m n s'
      | O =>
          match first_match m s with
          | Some (k, v) => v +:+ scan m (pred (String.length k)) s'
          | None => String c (scan m 0 s')
          end
      end
  end.

Definition render (m : pydict string) (s : string) : string := scan m 0 s.

(** The spec of a single-pass substitution: the template is cut into
    literal characters, at which no key starts, and keys, each the first
    key of the dict at its position; the output replaces each key by its
    value and keeps each literal character. *)
Inductive renders (m : pydict string) : string -> string -> Prop :=
| renders_nil : renders m "" ""
| renders_key k v r o :
    first_match m (k +:+ r) = Some (k, v) ->
    renders m r o -> renders m (k +:+ r) (v +:+ o)
| renders_lit c r o :
    first_match m (String c r) = None ->
    renders m r o -> renders m (String c r) (String c o).

(** ** Equations of the scan *)

Lemma first_match_some m s k v :
  first_match m s = Some (k, v) -> k <> "" /\ (k, v) ∈ m /\ exists r, s = k +:+ r.
Proof.
  induction m as [|[k0 v0] m IH]; simpl; [done|].
  destruct (bool_decide (k0 <> "") && starts_with k0 s) eqn:E.
  - intros [= <- <-]. apply andb_true_iff in E as [Hk Hs%starts_with_spec].
    apply bool_decide_eq_true in Hk. split_and!; [done|set_solver|done].
  - intros (? & ? & ?)%IH. split_and!; [done|set_solver|done].
Qed.

Lemma first_match_none m s :
  first_match m s = None <->
  forall k v, (k, v) ∈ m -> k <> "" -> starts_with k s = false.
Proof.
  induction m as [|[k0 v0] m IH]; simpl; [set_solver|].
  destruct (bool_decide (k0 <> "") && starts_with k0 s) eqn:E.
  - split; [done|]. intros H. apply andb_true_iff in E as [Hk%bool_decide_eq_true Hs].
    by rewrite (H k0 v0) in Hs by set_solver.
  - rewrite IH. split.
    + intros H k v [[= -> ->]|Hin]%elem_of_cons Hk; [|by apply (H k v)].
      apply andb_false_iff in E as [E|E]; [|done]. by apply bool_decide_eq_false in E.
    + intros H k v Hin. apply (H k v). set_solver.
Qed.

Lemma scan_skip m p s : scan m (String.length p) (p +:+ s) = scan m 0 s.
Proof. induction p as [|c p IH]; [done|]. exact IH. Qed.

Lemma render_key m k v r :
  first_match m (k +:+ r) = Some (k, v) -> render m (k +:+ r) = v +:+ render m r.
Proof.
  intros H. pose proof (first_match_some _ _ _ _ H) as [Hk _].
  destruct k as [|c k]; [done|]. unfold render in *. rewrite str_app_cons in *.
  cbn [scan]. rewrite H. cbn [String.length pred]. by rewrite scan_skip.
Qed.

Lemma render_lit m c r :
  first_match m (String c r) = None -> render m (String c r) = String c (render m r).
Proof. intros H. unfold render. cbn [scan]. by rewrite H. Qed.

Lemma render_nil m : render m "" = "".
Proof. reflexivity. Qed.

Lemma render_renders m s : renders m s (render m s).
Proof.
  induction s as [[|c s'] IH] using str_len_ind; [constructor|].
  destruct (first_match m (String c s')) as [[k v]|] eqn:E.
  - pose proof (first_match_some _ _ _ _ E) as (Hk & _ & r & Hr).
    rewrite Hr in E |- *. rewrite (render_key _ _ v _ E). constructor; [done|].
    apply IH. rewrite Hr, str_length_app. destruct k; [done|]. simpl. lia.
  - rewrite render_lit by done. constructor; [done|]. apply IH. simpl. lia.
Qed.

Lemma renders_render m s o : renders m s o -> o = render m s.
Proof.
  induction 1 as [|k v r o Hm _ IH|c r o Hm _ IH].
  - done.
  - by rewrite (render_key m k v r Hm), IH.
  - by rewrite render_lit, IH.
Qed.

(** ** Properties of the text substitution *)

(** [render m s] is the one and only output that the single-pass
    substitution spec allows for the template [s] and the dict [m]. *)
Theorem render_correct m s o : renders m s o <-> o = render m s.
Proof. split; [apply renders_render|intros ->; apply render_renders]. Qed.

(** A template in which no key of the dict occurs is left unchanged. *)
Lemma render_nokey m s :
  (forall k v, (k, v) ∈ m -> k <> "" -> ~ k ⊑ₛ s) -> render m s = s.
Proof.
  induction s as [|c s IH]; intros Hm; [done|].
  rewrite render_lit, IH; [done| |].
  - intros k v Hin Hk Hocc. apply (Hm k v Hin Hk).
    by apply (occurs_app_r k (String c "") s).
  - apply first_match_none. intros k v Hin Hk.
    destruct (starts_with k (String c s)) eqn:E; [|done].
    apply starts_with_spec in E as [r Hr]. exfalso. apply (Hm k v Hin Hk).
    exists "", r. by rewrite Hr.
Qed.

(** ** Independence from the order of the dict *)

(** No two entries compete at a position: a non-empty key that is a prefix
    of another non-empty key belongs to the same entry. *)
Definition unambiguous (m : pydict string) : Prop :=
  Forall (fun e1 => Forall (fun e2 =>
    e1.1 = "" \/ e2.1 = "" \/ starts_with e1.1 e2.1 = false \/ e1 = e2) m) m.

#[export] Instance unambiguous_dec m : Decision (unambiguous m).
Proof. unfold unambiguous. apply _. Defined.

Lemma starts_with_common k1 k2 s :
  starts_with k1 s = true -> starts_with k2 s = true ->
  starts_with k1 k2 = true \/ starts_with k2 k1 = true.
Proof.
  revert k2 s. induction k1 as [|c1 k1 IH]; intros k2 s;
    destruct k2 as [|c2 k2], s as [|d s]; simpl; auto; try (intros; discriminate).
  rewrite !andb_true_iff, !bool_decide_eq_true. intros [-> H1] [-> H2].
  destruct (IH k2 s H1 H2); auto.
Qed.

Lemma first_match_unambiguous m s k v :
  unambiguous m -> (k, v) ∈ m -> k <> "" -> starts_with k s = true ->
  first_match m s = Some (k, v).
Proof.
  intros Hu Hin Hk Hs. destruct (first_match m s) as [[k' v']|] eqn:E.
  - apply first_match_some in E as (Hk' & Hin' & r & Hr).
    assert (Hs' : starts_with k' s = true) by (apply starts_with_spec; eauto).
    unfold unambiguous in Hu. rewrite Forall_forall in Hu.
    pose proof (Hu _ Hin) as H1. pose proof (Hu _ Hin') as H2.
    rewrite Forall_forall in H1, H2. specialize (H1 _ Hin'). specialize (H2 _ Hin).
    simpl in *. destruct (starts_with_common k k' s Hs Hs') as [E|E].
    + destruct H1 as [?|[?|[?|?]]]; congruence.
    + destruct H2 as [?|[?|[?|?]]]; congruence.
  - rewrite first_match_none in E. by rewrite (E k v) in Hs.
Qed.

Lemma unambiguous_perm m m' : m ≡ₚ m' -> unambiguous m -> unambiguous m'.
Proof.
  intros Hp. unfold unambiguous. rewrite !Forall_forall. intros H e1 He1.
  rewrite Forall_forall. intros e2 He2.
  pose proof (H e1 ltac:(by rewrite Hp)) as H1. rewrite Forall_forall in H1.
  apply H1. by rewrite Hp.
Qed.

(** Two dicts are match-equivalent when they pick the same entry at every
    position; [render] only depends on that. *)
Definition match_equiv (m m' : pydict string) : Prop :=
  forall s, first_match m s = first_match m' s.

#[export] Instance match_equiv_equivalence : Equivalence match_equiv.
Proof. split; repeat intro; congruence. Qed.

Lemma scan_match_equiv m m' n s : match_equiv m m' -> scan m n s = scan m' n s.
Proof.
  intros He. revert n. induction s as [|c s IH]; intros [|n]; simpl; [done..| |done].
  rewrite (He (String c s)). destruct first_match as [[k v]|]; by rewrite IH.
Qed.

#[export] Instance render_proper : Proper (match_equiv ==> eq ==> eq) render.
Proof. intros m m' He s ? <-. by apply scan_match_equiv. Qed.

Lemma perm_match_equiv m m' : unambiguous m -> m ≡ₚ m' -> match_equiv m m'.
Proof.
  intros Hu Hp s. destruct (first_match m s) as [[k v]|] eqn:E.
  - apply first_match_some in E as (Hk & Hin & r & Hr). symmetry.
    apply first_match_unambiguous; [by eapply unambiguous_perm|by rewrite <- Hp|done|].
    apply starts_with_spec. eauto.
  - symmetry. rewrite first_match_none in E |- *. intros k v Hin. apply (E k v). by rewrite Hp.
Qed.

(** With unambiguous keys the order of the dict does not matter. *)
Lemma render_perm m m' s : unambiguous m -> m ≡ₚ m' -> render m s = render m' s.
Proof. intros Hu Hp. by rewrite (perm_match_equiv m m' Hu Hp). Qed.

(** ** [replace_multi] on files *)

(** [replace_multi(src, dest, replace_items)]: read the whole template,
    substitute, write the output (created or truncated).  A missing
    template raises before [dest] is opened. *)
Definition replace_multi (src dest : string) (replace_items : pydict string) : io unit :=
  s ← read_file src ; write_file dest (render replace_items s).

(** The contract of [replace_multi] that the generators rely on: on
    success exactly one file changes, to the rendered template; a missing
    template or an unwritable output raises and changes nothing. *)
Class TemplateRenderer := {
  tr_text : pydict string -> string -> string;
  tr_replace_multi : string -> string -> pydict string -> io unit;
  tr_ok : forall src dest items w s,
    w_files w !! src = Some s -> writable w dest = true ->
    tr_replace_multi src dest items w =
      (Ok tt, set_files (<[dest := tr_text items s]> (w_files w)) w);
  tr_no_src : forall src dest items w,
    w_files w !! src = None ->
    tr_replace_multi src dest items w = (Exc (read_error w src), w);
  tr_no_dest : forall src dest items w s,
    w_files w !! src = Some s -> writable w dest = false ->
    tr_replace_multi src dest items w = (Exc (write_error w dest), w)
}.

Lemma replace_multi_ok src dest items w s :
  w_files w !! src = Some s -> writable w dest = true ->
  replace_multi src dest items w =
    (Ok tt, set_files (<[dest := render items s]> (w_files w)) w).
Proof.
  intros Hs Hd. unfold replace_multi.
  rewrite (bind_ok _ _ _ s w) by (by apply read_file_ok). by apply write_file_ok.
Qed.

Lemma replace_multi_no_src src dest items w :
  w_files w !! src = None -> replace_multi src dest items w = (Exc (read_error w src), w).
Proof. intros Hs. unfold replace_multi. apply bind_exc. by apply read_file_missing. Qed.

Lemma replace_multi_no_dest src dest items w s :
  w_files w !! src = Some s -> writable w dest = false ->
  replace_multi src dest items w = (Exc (write_error w dest), w).
Proof.
  intros Hs Hd. unfold replace_multi.
  rewrite (bind_ok _ _ _ s w) by (by apply read_file_ok). by apply write_file_bad.
Qed.

#[export] Instance replace_py : TemplateRenderer := {|
  tr_text := render;
  tr_replace_multi := replace_multi;
  tr_ok := replace_multi_ok;
  tr_no_src := replace_multi_no_src;
  tr_no_dest := replace_multi_no_dest
|}.

(** ** What a client of the interface can conclude *)

(** [replace_multi src dest] succeeds exactly when the template exists and
    the output can be opened for writing. *)
Definition tr_ready (w : world) (src dest : string) : bool :=
  bool_decide (is_Some (w_files w !! src)) && writable w dest.

Section Client.
Context `{TemplateRenderer}.

Lemma tr_fail src dest items w :
  tr_ready w src dest = false ->
  exists e, tr_replace_multi src dest items w = (Exc e, w) /\ exit_code e = 1%Z.
Proof.
  unfold tr_ready. intros Hr. destruct (w_files w !! src) as [s|] eqn:Hs.
  - rewrite bool_decide_true in Hr by done. simpl in Hr.
    exists (write_error w dest). rewrite (tr_no_dest src dest items w s Hs Hr).
    split; [done|]. unfold write_error, missing_parent_error. by repeat case_match.
  - exists (read_error w src). rewrite tr_no_src by done.
    split; [done|]. unfold read_error. by case_match.
Qed.

Lemma tr_success src dest items w :
  tr_ready w src dest = true ->
  exists s, w_files w !! src = Some s /\
    tr_replace_multi src dest items w = (Ok tt, set_files (<[dest := tr_text items s]> (w_files w)) w).
Proof.
  unfold tr_ready. intros [Hs Hd]%andb_true_iff. apply bool_decide_eq_true in Hs as [s Hs].
  exists s. split; [done|]. by apply tr_ok.
Qed.
Lemma tr_status src dest items w :
  exit_status (tr_replace_multi src dest items w).1 = if tr_ready w src dest then 0%Z else 1%Z.
Proof.
  destruct (tr_ready w src dest) eqn:R.
  - by destruct (tr_success src dest items w R) as (s & _ & ->).
  - by destruct (tr_fail src dest items w R) as (e & -> & ?).
Qed.

Lemma tr_then_fail {A} src dest items (k : io A) w :
  tr_ready w src dest = false -> exit_status ((tr_replace_multi src dest items ;; k) w).1 = 1%Z.
Proof. intros R. destruct (tr_fail src dest items w R) as (e & E & ?). by rewrite (bind_exc _ _ _ e w E). Qed.

Lemma tr_then_ok {A} src dest items (k : io A) w :
  tr_ready w src dest = true ->
  exists x, (tr_replace_multi src dest items ;; k) w = k (set_files (<[dest := x]> (w_files w)) w).
Proof.
  intros R. destruct (tr_success src dest items w R) as (s & _ & E).
  exists (tr_text items s). by rewrite (bind_ok _ _ _ tt _ E).
Qed.

(** ** The batch variant of the spec

    The spec's batch: jobs (template, output, dict) run in order, a
    failing job aborts the rest and the outputs already written stay.
    [batch_spec] is that contract computed job by job from the files;
    [tr_seq] is a sequence of [replace_multi] calls as the generators
    write it. *)

Fixpoint batch_spec (jobs : list (string * string * pydict string)) (w : world) : outcome unit * world :=
  match jobs with
  | [] => (Ok tt, w)
  | (src, dest, items) :: jobs' =>
      match w_files w !! src with
      | None => (Exc (read_error w src), w)
      | Some s =>
          if writable w dest then batch_spec jobs' (set_files (<[dest := tr_text items s]> (w_files w)) w)
          else (Exc (write_error w dest), w)
      end
  end.

Fixpoint tr_seq (jobs : list (string * string * pydict string)) : io unit :=
  match jobs with
  | [] => mret tt
  | [(src, dest, items)] => tr_replace_multi src dest items
  | (src, dest, items) :: jobs' => tr_replace_multi src dest items ;; tr_seq jobs'
  end.

(** One call of the interface, on every branch. *)
Lemma tr_step src dest items w :
  tr_replace_multi src dest items w =
    match w_files w !! src with
    | None => (Exc (read_error w src), w)
    | Some s =>
        if writable w dest then (Ok tt, set_files (<[dest := tr_text items s]> (w_files w)) w)
        else (Exc (write_error w dest), w)
    end.
Proof.
  destruct (w_files w !! src) as [s|] eqn:Hs; [|by apply tr_no_src].
  destruct (writable w dest) eqn:Hd; [by apply tr_ok|by apply (tr_no_dest _ _ _ _ s)].
Qed.

Lemma tr_seq_spec jobs w : tr_seq jobs w = batch_spec jobs w.
Proof.
  revert w. induction jobs as [|[[src dest] items] jobs IH]; intros w; [done|].
  assert (E : forall w', tr_seq ((src, dest, items) :: jobs) w' = (tr_replace_multi src dest items ;; tr_seq jobs) w').
  { intros w'. destruct jobs; [|done]. unfold mbind, st_bind. cbn [tr_seq].
    by destruct (tr_replace_multi _ _ _ w') as [[[]|] ?]. }
  rewrite E. unfold mbind, st_bind. rewrite tr_step. cbn [batch_spec].
  destruct (w_files w !! src); [|done]. destruct (writable w dest); [apply IH|done].
Qed.
End Client.

(** Writing a file other than the template keeps [replace_multi] ready. *)
Lemma tr_ready_write w p x src dest :
  p <> src -> tr_ready (set_files (<[p := x]> (w_files w)) w) src dest = tr_ready w src dest.
Proof.
  intros Hp. unfold tr_ready. rewrite writable_set_files, set_files_files, lookup_insert_ne by done.
  done.
Qed.

(** ** Placeholders of the form [@NAME@]

    The spec's convention: a key is a token [@NAME@] with a non-empty
    [NAME] free of [@].  Tokens are prefix-free, so a dict whose keys are
    tokens, plus one plain word that does not start with [@], is
    unambiguous. *)

Definition at_sign : ascii := "@"%char.

(** [n] is [NAME@] with [NAME] free of [@] (possibly empty). *)
Fixpoint closes (n : string) : bool :=
  match n with
  | EmptyString => false
  | String c n' => if bool_decide (c = at_sign) then bool_decide (n' = "") else closes n'
  end.

Definition is_token (k : string) : bool :=
  match k with
  | String a (String b n) => bool_decide (a = at_sign) && bool_decide (b <> at_sign) && closes (String b n)
  | _ => false
  end.

(** A plain key: non-empty, not starting with [@]. *)
Definition plain_key (k : string) : bool :=
  match k with
  | String a _ => negb (bool_decide (a = at_sign))
  | EmptyString => false
  end.

(** Every key of [m] is a token or the plain word [b]. *)
Definition keys_tokens_or (b : string) (m : pydict string) : Prop :=
  Forall (fun e => is_token e.1 = true \/ e.1 = b) m.

Lemma closes_prefix n1 n2 :
  closes n1 = true -> closes n2 = true -> starts_with n1 n2 = true -> n1 = n2.
Proof.
  revert n2. induction n1 as [|c n1 IH]; intros [|d n2]; simpl; try done.
  rewrite andb_true_iff, bool_decide_eq_true. intros H1 H2 [<- Hs].
  case_bool_decide.
  - apply bool_decide_eq_true in H1, H2. by subst.
  - f_equal. by apply IH.
Qed.

Lemma token_prefix k1 k2 : is_token k1 = true -> is_token k2 = true -> starts_with k1 k2 = true -> k1 = k2.
Proof.
  destruct k1 as [|a1 [|b1 n1]], k2 as [|a2 [|b2 n2]]; simpl; try done.
  rewrite !andb_true_iff, !bool_decide_eq_true.
  intros [[-> Hb1] H1] [[-> Hb2] H2] [_ [<- Hs]]. f_equal. apply closes_prefix; [done|done|].
  simpl. by rewrite bool_decide_true.
Qed.

Lemma token_not_plain k b : is_token k = true -> plain_key b = true ->
  starts_with k b = false /\ starts_with b k = false.
Proof.
  destruct k as [|a [|c n]], b as [|d b]; simpl; try done.
  rewrite !andb_true_iff, !bool_decide_eq_true. intros [[-> _] _] Hd.
  apply negb_true_iff, bool_decide_eq_false in Hd.
  rewrite !bool_decide_false by congruence. done.
Qed.

Lemma token_nonempty k : is_token k = true -> k <> "".
Proof. by destruct k. Qed.

(** A duplicate-free dict whose keys are tokens or one plain word is
    unambiguous. *)
Lemma unambiguous_tokens b m :
  plain_key b = true -> dict_wf m -> keys_tokens_or b m -> unambiguous m.
Proof.
  intros Hb Hwf Hk. unfold unambiguous, keys_tokens_or in *. rewrite Forall_forall in Hk.
  apply Forall_forall. intros [k1 v1] H1. apply Forall_forall. intros [k2 v2] H2. simpl.
  destruct (starts_with k1 k2) eqn:Hs; [|auto]. right; right; right.
  assert (k1 = k2) as <-.
  { destruct (Hk _ H1) as [T1|E1], (Hk _ H2) as [T2|E2]; simpl in *; subst; try done.
    - by apply token_prefix.
    - by rewrite (proj1 (token_not_plain _ _ T1 Hb)) in Hs.
    - by rewrite (proj2 (token_not_plain _ _ T2 Hb)) in Hs. }
  pose proof (dict_get_elem _ _ _ Hwf H1) as G1. rewrite (dict_get_elem _ _ _ Hwf H2) in G1.
  by injection G1 as ->.
Qed.

(** ** Matching on a dict of tokens

    On a dict whose keys are tokens and one plain word [b], the entry
    [first_match] picks at a position is determined by the text alone: the
    token the text starts with ([token_at]), or else [b].  The scan then
    depends on the dict only through [dict_get] ([render_tokens]), which
    lets a rendering be computed for a dict known only by some of its
    values. *)

(** The prefix of [n] up to and including its first [@]. *)
Fixpoint close_at (n : string) : option string :=
  match n with
  | EmptyString => None
  | String c n' => if bool_decide (c = at_sign) then Some (String c "") else String c <$> close_at n'
  end.

(** The token the text starts with, if any. *)
Definition token_at (s : string) : option string :=
  match s with
  | String a (String b n) =>
      if bool_decide (a = at_sign) && bool_decide (b <> at_sign)
      then String a <$> close_at (String b n) else None
  | _ => None
  end.

Definition tok_match (look : string -> option string) (b s : string) : option (string * string) :=
  match token_at s with
  | Some t => pair t <$> look t
  | None => if starts_with b s then pair b <$> look b else None
  end.

(** The scan of [scan] for any matcher. *)
Fixpoint scan_fm (fm : string -> option (string * string)) (skip : nat) (s : string) : string :=
  match s with
  | EmptyString => ""
  | String c s' =>
      match skip with
      | S n => scan_fm fm n s'
      | O =>
          match fm s with
          | Some (k, v) => v +:+ scan_fm fm (pred (String.length k)) s'
          | None => String c (scan_fm fm 0 s')
          end
      end
  end.

Lemma scan_scan_fm m n s : scan m n s = scan_fm (first_match m) n s.
Proof. revert n. induction s as [|c s IH]; intros [|n]; simpl; [done..| |done].
  destruct first_match as [[k v]|]; by rewrite IH. Qed.

Lemma scan_fm_ext fm fm' n s : (forall t, fm t = fm' t) -> scan_fm fm n s = scan_fm fm' n s.
Proof. intros He. revert n. induction s as [|c s IH]; intros [|n]; simpl; [done..| |done].
  rewrite He. destruct fm' as [[k v]|]; by rewrite IH. Qed.

Lemma close_at_spec k n : closes k = true -> starts_with k n = true -> close_at n = Some k.
Proof.
  revert n. induction k as [|c k IH]; intros [|d n]; simpl; try done.
  rewrite andb_true_iff, bool_decide_eq_true. intros Hk [<- Hs].
  case_bool_decide; [apply bool_decide_eq_true in Hk; by subst|]. by rewrite (IH n).
Qed.

Lemma close_at_sound n t : close_at n = Some t -> closes t = true /\ starts_with t n = true.
Proof.
  revert t. induction n as [|c n IH]; intros t; simpl; [done|]. case_bool_decide.
  - intros [= <-]. simpl. rewrite !bool_decide_true by done. done.
  - destruct (close_at n) as [t'|] eqn:E; [|done]. intros [= <-].
    destruct (IH t' eq_refl) as [H1 H2]. simpl. rewrite bool_decide_false by done.
    rewrite bool_decide_true by done. done.
Qed.

Lemma token_at_spec k s : is_token k = true -> starts_with k s = true -> token_at s = Some k.
Proof.
  destruct k as [|a [|b n]], s as [|a' [|b' s]]; simpl; try done;
    rewrite ?andb_false_r; try done.
  rewrite !andb_true_iff, !bool_decide_eq_true. intros [[-> Hb] Hc] [<- [<- Hs]].
  rewrite !bool_decide_true by done. simpl. rewrite bool_decide_false in Hc |- * by done.
  by rewrite (close_at_spec n s).
Qed.

Lemma token_at_sound s t : token_at s = Some t -> is_token t = true /\ starts_with t s = true.
Proof.
  destruct s as [|a [|b n]]; cbn [token_at]; try done.
  destruct (bool_decide (a = at_sign) && bool_decide (b <> at_sign)) eqn:E; [|done].
  destruct (close_at (String b n)) as [t'|] eqn:C; [|done]. intros [= <-].
  apply close_at_sound in C as [Hc Hs]. destruct t' as [|b' t']; [done|].
  simpl in Hs. apply andb_true_iff in Hs as [Hb Hs]. apply bool_decide_eq_true in Hb as <-.
  split; [cbn [is_token]; by rewrite E, Hc|].
  cbn [starts_with]. by rewrite Hs, !bool_decide_true.
Qed.

Lemma plain_not_token b : plain_key b = true -> is_token b = false.
Proof. destruct b as [|a [|c n]]; simpl; [done..|]. by destruct (bool_decide (a = at_sign)). Qed.

Lemma token_plain_exclusive t b s :
  is_token t = true -> plain_key b = true -> starts_with t s = true -> starts_with b s = false.
Proof.
  intros Ht Hb Hts. destruct (starts_with b s) eqn:Hbs; [|done].
  destruct (token_not_plain t b Ht Hb) as [E1 E2].
  by destruct (starts_with_common t b s Hts Hbs) as [E|E]; congruence.
Qed.

(** On a dict of tokens and [b], [first_match] is [tok_match] of [dict_get]. *)
Lemma first_match_tokens b m s :
  plain_key b = true -> keys_tokens_or b m -> first_match m s = tok_match (dict_get m) b s.
Proof.
  intros Hb Hm. unfold tok_match. induction Hm as [|[k v] m Hk Hm IH]; simpl in *.
  { destruct (token_at s); [done|]. by destruct starts_with. }
  destruct Hk as [Hk| ->].
  - rewrite bool_decide_true by (by apply token_nonempty). simpl.
    destruct (starts_with k s) eqn:Hs.
    + by rewrite (token_at_spec k s), decide_True.
    + rewrite IH. destruct (token_at s) as [t|] eqn:Ht.
      * destruct (decide (k = t)) as [<-|]; [|done].
        apply token_at_sound in Ht as [_ Ht]. congruence.
      * rewrite decide_False; [done|]. intros ->. by rewrite plain_not_token in Hk.
  - rewrite bool_decide_true by (by destruct b). simpl.
    destruct (token_at s) as [t|] eqn:Ht.
    + apply token_at_sound in Ht as [Ht Hts].
      rewrite (token_plain_exclusive t b s) by done. rewrite IH, decide_False; [done|].
      intros ->. by rewrite plain_not_token in Ht.
    + rewrite decide_True by done. destruct (starts_with b s); [done|]. by rewrite IH.
Qed.

Lemma render_tokens b m s :
  plain_key b = true -> keys_tokens_or b m -> render m s = scan_fm (tok_match (dict_get m) b) 0 s.
Proof.
  intros Hb Hm. unfold render. rewrite scan_scan_fm. apply scan_fm_ext.
  intros t. by apply first_match_tokens.
Qed.

Lemma keys_tokens_or_elem b m k v : keys_tokens_or b m -> (k, v) ∈ m -> is_token k = true \/ k = b.
Proof. intros Hm Hin. unfold keys_tokens_or in Hm. rewrite Forall_forall in Hm. exact (Hm _ Hin). Qed.

Lemma keys_tokens_or_update b d e :
  keys_tokens_or b d -> keys_tokens_or b e -> keys_tokens_or b (dict_update d e).
Proof.
  intros Hd He. unfold keys_tokens_or. apply Forall_forall. intros [k v] Hin. simpl.
  destruct (dict_update_keys_incl _ _ _ _ Hin) as [Hk|Hk];
    apply list_elem_of_fmap in Hk as [[k' v'] [-> Hk']];
    [exact (keys_tokens_or_elem _ _ _ _ Hd Hk')|exact (keys_tokens_or_elem _ _ _ _ He Hk')].
Qed.

(** A key that is neither a token nor [b] is not in the dict. *)
Lemma dict_get_not_token b m k :
  keys_tokens_or b m -> is_token k = false -> k <> b -> dict_get m k = None.
Proof.
  intros Hm Hk Hb. destruct (dict_get m k) as [v|] eqn:E; [|done].
  apply dict_get_some_elem in E. destruct (keys_tokens_or_elem _ _ _ _ Hm E); congruence.
Qed.

Lemma keys_tokens_or_all b m : Forall (fun e => is_token e.1 = true) m -> keys_tokens_or b m.
Proof. intros H. eapply Forall_impl; [exact H|]. intros e He. by left. Qed.

#[export] Hint Resolve keys_tokens_or_update keys_tokens_or_all : ctk.

(** ** Placeholders that the dict does not define *)

(** A matcher that never fires leaves the text unchanged. *)
Lemma scan_fm_quiet fm s :
  (forall p r, s = p +:+ r -> r <> "" -> fm r = None) -> scan_fm fm 0 s = s.
Proof.
  induction s as [|c s IH]; intros Hq; [done|]. cbn [scan_fm].
  rewrite (Hq "" (String c s)) by done. f_equal. apply IH.
  intros p r -> Hr. apply (Hq (String c p) r); [by rewrite str_app_cons|done].
Qed.

(** No token starts inside the name of a token, nor at its closing [@]. *)
Lemma closes_no_token n p r : closes n = true -> n = p +:+ r -> r <> "" -> token_at r = None.
Proof.
  revert p. induction n as [|c n IH]; intros p Hc E Hr; [done|].
  destruct p as [|a p].
  - rewrite str_app_nil_l in E. subst r. cbn [closes] in Hc. cbn [token_at].
    case_bool_decide as Hca.
    + apply bool_decide_eq_true in Hc. by subst n.
    + destruct n; [done|]. by rewrite andb_false_l.
  - rewrite str_app_cons in E. injection E as -> E. cbn [closes] in Hc.
    case_bool_decide; [apply bool_decide_eq_true in Hc; subst n; symmetry in E;
      by apply str_app_eq_nil in E as [_ ?]|]. by apply (IH p).
Qed.

(** A token that the dict does not define, and in which the plain key
    does not occur, is left verbatim. *)
Lemma render_unknown_token b m t :
  plain_key b = true -> keys_tokens_or b m -> is_token t = true -> dict_get m t = None ->
  ~ b ⊑ₛ t -> render m t = t.
Proof.
  intros Hb Hm Ht Hnone Hocc. rewrite (render_tokens b m t Hb Hm). apply scan_fm_quiet.
  intros p r E Hr. unfold tok_match. destruct p as [|a p].
  - rewrite str_app_nil_l in E. subst r.
    rewrite (token_at_spec t t Ht) by (rewrite <- (str_app_nil_r t) at 2; apply starts_with_app).
    by rewrite Hnone.
  - destruct t as [|a' [|c n]]; [done..|]. rewrite str_app_cons in E. injection E as <- E.
    cbn [is_token] in Ht. apply andb_true_iff in Ht as [_ Hc].
    rewrite (closes_no_token (String c n) p r Hc E Hr).
    destruct (starts_with b r) eqn:Hs; [|done]. exfalso. apply Hocc.
    apply starts_with_spec in Hs as [r' ->]. exists (String a' p), r'.
    by rewrite E, str_app_cons, str_app_assoc.
Qed.

(** A token that the dict defines renders to its value. *)
Lemma render_known_token b m t v :
  plain_key b = true -> keys_tokens_or b m -> is_token t = true -> dict_get m t = Some v ->
  render m t = v.
Proof.
  intros Hb Hm Ht Hv. rewrite <- (str_app_nil_r t) at 1. rewrite (render_key m t v "").
  - by rewrite render_nil, str_app_nil_r.
  - rewrite (first_match_tokens b m _ Hb Hm). unfold tok_match.
    rewrite (token_at_spec t) by (done || apply starts_with_app). by rewrite Hv.
Qed.
