(* ===== verification/CtkPc.v ===== *)
(** * [src/win32/ctkpc.py]: the pkg-config files for Visual Studio builds

    [main] builds four dicts of placeholders, merges them with
    [dict.update] in the order of the source, and renders three templates
    of [top_srcdir] into [srcdir] with [replace_multi]:
    [cdk-3.0.pc], [ctk+-3.0.pc] and [gail-3.0.pc].

    [BasePCItems] of [pc_base.py] (not under [src/]) is the record
    [BasePC]: its [setup] parses the common options and fills
    [base_replace_items], [top_srcdir] and [srcdir]; the model takes the
    filled record as input.  The options of [ctkpc.py] itself are
    [ctkpc_args]: [--broadway] stores the constant 1, [--host] is
    required (a missing [--host] makes argparse exit with status 2).

    [ctkpc_main] is written against the [TemplateRenderer] interface, so its
    theorems hold for any [replace_multi] meeting the contract; the
    instance [replace_py] of [Replace] gives the concrete outputs.
    [ctkpc_script] is the [sys.exit(main(sys.argv))] entry point, whose
    exit status is characterised.  The section [TokenDicts] shows that on
    a base of [@NAME@] tokens each dict holds tokens and one plain word;
    the rendering theorems (order independence, the plain keys, unknown
    placeholders, the single pass) rest on it. *)

From S2P Require Import Prelude PyStr PyDict FileSys Replace.

Record BasePC := mkBasePC {
  base_replace_items : pydict string;
  top_srcdir : string;
  srcdir : string
}.

Record ctkpc_args := mkArgs {
  broadway : option Z;
  host : option string
}.

Definition atk_min_ver : string := "2.15.1".
Definition cairo_min_ver : string := "1.14.0".
Definition cdk_pixbuf_min_ver : string := "2.30.0".
Definition cdk_win32_sys_libs : string := "-lgdi32 -limm32 -lshell32 -lole32 -lwinmm -ldwmapi".
Definition cairo_libs : string := "-lcairo-gobject -lcairo ".
Definition glib_min_ver : string := "2.45.8".

Definition gio_package : string := "gio-2.0 >= " +:+ glib_min_ver.

(** [getattr(cdk_args, 'broadway', None) is 1]: the stored constant is the
    small int 1, which CPython caches, so identity is equality here. *)
Definition is_broadway (a : ctkpc_args) : bool :=
  match broadway a with Some 1%Z => true | _ => false end.

Definition cdk_backends (a : ctkpc_args) : string :=
  if is_broadway a then "win32" +:+ " broadway" else "win32".

Definition broadway_extra_libs (a : ctkpc_args) : string :=
  if is_broadway a then " -lzlib1" else "".

Definition pkg_replace_items0 (a : ctkpc_args) : pydict string :=
  dict_lit [("@CTK_API_VERSION@", "3.0"); ("@GDK_BACKENDS@", cdk_backends a)].

Definition pkg_required_packages : string := "cdk-pixbuf-2.0 >= " +:+ cdk_pixbuf_min_ver.

Definition cdk_pc_replace_items0 (a : ctkpc_args) : pydict string :=
  dict_lit [("@GDK_PACKAGES@", gio_package +:+ " " +:+ "pangowin32 pangocairo" +:+ " " +:+
                                 pkg_required_packages);
            ("@GDK_PRIVATE_PACKAGES@", gio_package);
            ("@GDK_EXTRA_LIBS@", cairo_libs +:+ cdk_win32_sys_libs +:+ broadway_extra_libs a);
            ("@GDK_EXTRA_CFLAGS@", "");
            ("cdk-3", "cdk-3.0")].

(** The literal lists ['@CTK_EXTRA_CFLAGS@'] twice; [dict_lit] keeps one. *)
Definition ctk_pc_replace_items0 (h : string) : pydict string :=
  dict_lit [("@host@", h);
            ("@CTK_BINARY_VERSION@", "3.0.0");
            ("@CTK_PACKAGES@", "atk >= " +:+ atk_min_ver +:+ " " +:+
                                pkg_required_packages +:+ " " +:+ gio_package);
            ("@CTK_PRIVATE_PACKAGES@", "atk");
            ("@CTK_EXTRA_CFLAGS@", "");
            ("@CTK_EXTRA_LIBS@", "");
            ("@CTK_EXTRA_CFLAGS@", "");
            ("ctk-3", "ctk-3.0")].

Definition gail_pc_replace_items0 : pydict string := dict_lit [("gailutil-3", "gailutil-3.0")].

(** The four [update] calls, in the order of the source: [pkg_replace_items]
    is updated in place first, and the updated dict is merged into the
    cdk and ctk dicts. *)
Definition pkg_replace_items (bp : BasePC) (a : ctkpc_args) : pydict string :=
  dict_update (pkg_replace_items0 a) (base_replace_items bp).

Definition cdk_pc_replace_items (bp : BasePC) (a : ctkpc_args) : pydict string :=
  dict_update (cdk_pc_replace_items0 a) (pkg_replace_items bp a).

Definition ctk_pc_replace_items (bp : BasePC) (a : ctkpc_args) (h : string) : pydict string :=
  dict_update (ctk_pc_replace_items0 h) (pkg_replace_items bp a).

Definition gail_pc_replace_items (bp : BasePC) : pydict string :=
  dict_update gail_pc_replace_items0 (base_replace_items bp).

Definition cdk_pc_in (bp : BasePC) : string := top_srcdir bp +:+ "/cdk-3.0.pc.in".
Definition cdk_pc (bp : BasePC) : string := srcdir bp +:+ "/cdk-3.0.pc".
Definition ctk_pc_in (bp : BasePC) : string := top_srcdir bp +:+ "/ctk+-3.0.pc.in".
Definition ctk_pc (bp : BasePC) : string := srcdir bp +:+ "/ctk+-3.0.pc".
Definition gail_pc_in (bp : BasePC) : string := top_srcdir bp +:+ "/gail-3.0.pc.in".
Definition gail_pc (bp : BasePC) : string := srcdir bp +:+ "/gail-3.0.pc".

(** The three [replace_multi] calls can succeed: templates present,
    outputs writable. *)
Definition ctkpc_ready (bp : BasePC) (w : world) : bool :=
  tr_ready w (cdk_pc_in bp) (cdk_pc bp) && tr_ready w (ctk_pc_in bp) (ctk_pc bp) &&
  tr_ready w (gail_pc_in bp) (gail_pc bp).

Section Main.
Context `{TemplateRenderer}.

(** [main(argv)] *)
Definition ctkpc_main (bp : BasePC) (a : ctkpc_args) : io unit :=
  match host a with
  | None => raise (SystemExit 2)
  | Some h =>
      tr_replace_multi (cdk_pc_in bp) (cdk_pc bp) (cdk_pc_replace_items bp a) ;;
      tr_replace_multi (ctk_pc_in bp) (ctk_pc bp) (ctk_pc_replace_items bp a h) ;;
      tr_replace_multi (gail_pc_in bp) (gail_pc bp) (gail_pc_replace_items bp)
  end.

(** [if __name__ == '__main__': sys.exit(main(sys.argv))] *)
Definition ctkpc_script (bp : BasePC) (a : ctkpc_args) : io unit := sys_exit_main (ctkpc_main bp a).
End Main.

(** ** Lemmas *)

Lemma ctkpc_outputs_not_templates bp :
  cdk_pc bp <> ctk_pc_in bp /\ cdk_pc bp <> gail_pc_in bp /\ ctk_pc bp <> gail_pc_in bp.
Proof. split_and!; apply app_last_neq; vm_compute; congruence. Qed.

Section MainProofs.
Context `{TemplateRenderer}.

(** C1: with the three templates present and the three outputs writable,
    [main] writes exactly the three [.pc] files, each the rendering of
    its template with its dict. *)
Theorem ctkpc_main_ok bp a h w scdk sctk sgail :
  host a = Some h ->
  w_files w !! cdk_pc_in bp = Some scdk ->
  w_files w !! ctk_pc_in bp = Some sctk ->
  w_files w !! gail_pc_in bp = Some sgail ->
  writable w (cdk_pc bp) = true -> writable w (ctk_pc bp) = true ->
  writable w (gail_pc bp) = true ->
  ctkpc_main bp a w =
    (Ok tt, set_files
       (<[gail_pc bp := tr_text (gail_pc_replace_items bp) sgail]>
       (<[ctk_pc bp := tr_text (ctk_pc_replace_items bp a h) sctk]>
       (<[cdk_pc bp := tr_text (cdk_pc_replace_items bp a) scdk]> (w_files w)))) w).
Proof.
  intros Hh Hc Hk Hg Wc Wk Wg. destruct (ctkpc_outputs_not_templates bp) as (N1 & N2 & N3).
  unfold ctkpc_main. rewrite Hh. cbv beta iota.
  rewrite (bind_ok _ _ _ tt _) by (by apply tr_ok).
  rewrite (bind_ok _ _ _ tt _) by (apply tr_ok; [by rewrite set_files_files, lookup_insert_ne|done]).
  rewrite (tr_ok _ _ _ _ sgail); [done| |done].
  by rewrite !set_files_files, !lookup_insert_ne by done.
Qed.

(** C6: a missing [ctk+-3.0.pc.in] aborts [main] after [cdk-3.0.pc] was
    written: the exception of [open] propagates and neither
    [ctk+-3.0.pc] nor [gail-3.0.pc] is touched. *)
Theorem ctkpc_main_ctk_template_missing bp a h w scdk :
  host a = Some h ->
  w_files w !! cdk_pc_in bp = Some scdk -> writable w (cdk_pc bp) = true ->
  w_files w !! ctk_pc_in bp = None ->
  ctkpc_main bp a w =
    (Exc (read_error w (ctk_pc_in bp)),
     set_files (<[cdk_pc bp := tr_text (cdk_pc_replace_items bp a) scdk]> (w_files w)) w).
Proof.
  intros Hh Hc Wc Hk. destruct (ctkpc_outputs_not_templates bp) as (N1 & _).
  unfold ctkpc_main. rewrite Hh. cbv beta iota.
  rewrite (bind_ok _ _ _ tt _) by (by apply tr_ok).
  apply bind_exc. rewrite tr_no_src; [done|]. by rewrite set_files_files, lookup_insert_ne.
Qed.

(** C29: [main] is the spec's batch of three render jobs, on every branch:
    without [--host] it exits with status 2 before any file is touched;
    otherwise it renders [cdk-3.0.pc], [ctk+-3.0.pc] and [gail-3.0.pc] in
    that order, each from its template and dict, and the first missing
    template or unwritable output raises its [OSError] after the earlier
    outputs were written and before any later one is. *)
Theorem ctkpc_main_batch bp a w :
  ctkpc_main bp a w =
    match host a with
    | None => (Exc (SystemExit 2), w)
    | Some h =>
        batch_spec [(cdk_pc_in bp, cdk_pc bp, cdk_pc_replace_items bp a);
                    (ctk_pc_in bp, ctk_pc bp, ctk_pc_replace_items bp a h);
                    (gail_pc_in bp, gail_pc bp, gail_pc_replace_items bp)] w
    end.
Proof. unfold ctkpc_main. destruct (host a) as [h|]; [|done]. by rewrite <- tr_seq_spec. Qed.

(** C15: the exit status of [ctkpc.py]: 2 when [--host] is missing (the
    argparse error), else 0 when the three templates exist and the three
    outputs can be written, and 1 (an uncaught [OSError]) otherwise. *)
Theorem ctkpc_script_exit_status bp a w :
  exit_status (ctkpc_script bp a w).1 =
    match host a with None => 2%Z | Some _ => if ctkpc_ready bp w then 0%Z else 1%Z end.
Proof.
  unfold ctkpc_script. rewrite (proj1 (sys_exit_main_status _ _)). unfold ctkpc_main, ctkpc_ready.
  destruct (host a) as [h|]; [|done]. destruct (ctkpc_outputs_not_templates bp) as (N1 & N2 & N3).
  destruct (tr_ready w (cdk_pc_in bp) (cdk_pc bp)) eqn:R1; [|by rewrite tr_then_fail].
  destruct (tr_then_ok _ _ (cdk_pc_replace_items bp a)
    (tr_replace_multi (ctk_pc_in bp) (ctk_pc bp) (ctk_pc_replace_items bp a h) ;;
     tr_replace_multi (gail_pc_in bp) (gail_pc bp) (gail_pc_replace_items bp)) w R1) as [x1 ->].
  destruct (tr_ready w (ctk_pc_in bp) (ctk_pc bp)) eqn:R2; simpl.
  - rewrite <- (tr_ready_write w (cdk_pc bp) x1) in R2 by done.
    destruct (tr_then_ok _ _ (ctk_pc_replace_items bp a h)
      (tr_replace_multi (gail_pc_in bp) (gail_pc bp) (gail_pc_replace_items bp)) _ R2) as [x2 ->].
    by rewrite tr_status, !tr_ready_write.
  - rewrite tr_then_fail; [done|]. by rewrite tr_ready_write.
Qed.
End MainProofs.

(** C2: the dicts [main] renders with are the left-biased unions of the
    code's dicts: the base items of [pc_base] win over [pkg_replace_items],
    which win over the file-specific items. *)
Theorem ctkpc_replace_items_union bp a h :
  dict_wf (base_replace_items bp) ->
  to_map (cdk_pc_replace_items bp a) =
    to_map (base_replace_items bp) ∪ to_map (pkg_replace_items0 a) ∪ to_map (cdk_pc_replace_items0 a) /\
  to_map (ctk_pc_replace_items bp a h) =
    to_map (base_replace_items bp) ∪ to_map (pkg_replace_items0 a) ∪ to_map (ctk_pc_replace_items0 h) /\
  to_map (gail_pc_replace_items bp) =
    to_map (base_replace_items bp) ∪ to_map gail_pc_replace_items0.
Proof.
  intros Hb. assert (dict_wf (pkg_replace_items bp a)) by (apply dict_update_wf, dict_lit_wf).
  unfold cdk_pc_replace_items, ctk_pc_replace_items, gail_pc_replace_items.
  rewrite !dict_update_refines by done. unfold pkg_replace_items.
  by rewrite dict_update_refines.
Qed.

(** ** Witnesses on a concrete build tree *)

Definition ex_bp : BasePC :=
  mkBasePC [("@prefix@", "C:/ctk"); ("@VERSION@", "3.24.1")] "win32/.." "win32".
Definition ex_args : ctkpc_args := mkArgs (Some 1%Z) (Some "x64").
Definition ex_cdk_in : string := "Version: @VERSION@ Libs: -lcdk-3 @GDK_EXTRA_LIBS@".
Definition ex_ctk_in : string := "target=@host@ Libs: -lctk-3".
Definition ex_gail_in : string := "Libs: -lgailutil-3".
Definition ex_world : world :=
  mkWorld (<["win32/../cdk-3.0.pc.in" := ex_cdk_in]> (<["win32/../ctk+-3.0.pc.in" := ex_ctk_in]>
           (<["win32/../gail-3.0.pc.in" := ex_gail_in]> ∅)))
          {["win32"]} ∅ true [] [].

Lemma ctkpc_main_ok_witness :
  ctkpc_main ex_bp ex_args ex_world =
    (Ok tt, set_files
       (<[gail_pc ex_bp := tr_text (gail_pc_replace_items ex_bp) ex_gail_in]>
       (<[ctk_pc ex_bp := tr_text (ctk_pc_replace_items ex_bp ex_args "x64") ex_ctk_in]>
       (<[cdk_pc ex_bp := tr_text (cdk_pc_replace_items ex_bp ex_args) ex_cdk_in]>
          (w_files ex_world)))) ex_world).
Proof. apply (ctkpc_main_ok ex_bp ex_args "x64" ex_world); vm_compute; reflexivity. Defined.

Lemma ctkpc_main_ctk_template_missing_witness :
  let w := set_files (delete "win32/../ctk+-3.0.pc.in" (w_files ex_world)) ex_world in
  ctkpc_main ex_bp ex_args w =
    (Exc (read_error w (ctk_pc_in ex_bp)),
     set_files (<[cdk_pc ex_bp := tr_text (cdk_pc_replace_items ex_bp ex_args) ex_cdk_in]>
                  (w_files w)) w).
Proof.
  intros w. apply (ctkpc_main_ctk_template_missing ex_bp ex_args "x64" w ex_cdk_in);
    vm_compute; reflexivity.
Defined.

Lemma ctkpc_replace_items_union_witness :
  to_map (cdk_pc_replace_items ex_bp ex_args) =
    to_map (base_replace_items ex_bp) ∪ to_map (pkg_replace_items0 ex_args) ∪
      to_map (cdk_pc_replace_items0 ex_args).
Proof.
  apply (ctkpc_replace_items_union ex_bp ex_args "x64").
  apply (bool_decide_unpack _). vm_compute. exact I.
Defined.

(** The rendered [cdk-3.0.pc] of the witness world. *)
Example ctkpc_ex_cdk_pc :
  render (cdk_pc_replace_items ex_bp ex_args) ex_cdk_in =
    "Version: 3.24.1 Libs: -lcdk-3.0 -lcairo-gobject -lcairo -lgdi32 -limm32 -lshell32 -lole32 -lwinmm -ldwmapi -lzlib1".
Proof. vm_compute. reflexivity. Qed.

(** ** The dicts of [main] on a base of [@NAME@] tokens

    [pc_base] fills [base_replace_items] with [@NAME@] tokens only; under
    that assumption each dict of [main] holds tokens and one plain word
    (["cdk-3"], ["ctk-3"] or ["gailutil-3"]), so [render_tokens] reduces a
    rendering to the values of the keys the text contains. *)

Section TokenDicts.
Context (bp : BasePC) (a : ctkpc_args).
Hypothesis Hwf : dict_wf (base_replace_items bp).
Hypothesis Htok : Forall (fun e => is_token e.1 = true) (base_replace_items bp).

Ltac lit_keys := apply keys_tokens_or_update; [constructor|];
  repeat constructor; (left; reflexivity) || (right; reflexivity).

Lemma pkg_keys b : keys_tokens_or b (pkg_replace_items bp a).
Proof.
  apply keys_tokens_or_update; [|by apply keys_tokens_or_all].
  unfold pkg_replace_items0, dict_lit. lit_keys.
Qed.

Lemma cdk_keys : keys_tokens_or "cdk-3" (cdk_pc_replace_items bp a).
Proof.
  apply keys_tokens_or_update; [|apply pkg_keys]. unfold cdk_pc_replace_items0, dict_lit. lit_keys.
Qed.

Lemma ctk_keys h : keys_tokens_or "ctk-3" (ctk_pc_replace_items bp a h).
Proof.
  apply keys_tokens_or_update; [|apply pkg_keys]. unfold ctk_pc_replace_items0, dict_lit. lit_keys.
Qed.

Lemma gail_keys : keys_tokens_or "gailutil-3" (gail_pc_replace_items bp).
Proof.
  apply keys_tokens_or_update; [|by apply keys_tokens_or_all].
  unfold gail_pc_replace_items0, dict_lit. lit_keys.
Qed.

Lemma pkg_wf : dict_wf (pkg_replace_items bp a).
Proof. apply dict_update_wf, dict_lit_wf. Qed.

Lemma cdk_wf : dict_wf (cdk_pc_replace_items bp a).
Proof. apply dict_update_wf, dict_lit_wf. Qed.

Lemma ctk_wf h : dict_wf (ctk_pc_replace_items bp a h).
Proof. apply dict_update_wf, dict_lit_wf. Qed.

Lemma gail_wf : dict_wf (gail_pc_replace_items bp).
Proof. apply dict_update_wf, dict_lit_wf. Qed.

(** The value of a key in each dict: the base's value, else the value in
    [pkg_replace_items], else the file-specific one. *)
Lemma pkg_lookup t :
  dict_get (pkg_replace_items bp a) t =
    match dict_get (base_replace_items bp) t with Some v => Some v | None => dict_get (pkg_replace_items0 a) t end.
Proof. by apply dict_get_update. Qed.

Lemma cdk_lookup t :
  dict_get (cdk_pc_replace_items bp a) t =
    match dict_get (pkg_replace_items bp a) t with Some v => Some v | None => dict_get (cdk_pc_replace_items0 a) t end.
Proof. apply dict_get_update, pkg_wf. Qed.

Lemma ctk_lookup h t :
  dict_get (ctk_pc_replace_items bp a h) t =
    match dict_get (pkg_replace_items bp a) t with Some v => Some v | None => dict_get (ctk_pc_replace_items0 h) t end.
Proof. apply dict_get_update, pkg_wf. Qed.

Lemma gail_lookup t :
  dict_get (gail_pc_replace_items bp) t =
    match dict_get (base_replace_items bp) t with Some v => Some v | None => dict_get gail_pc_replace_items0 t end.
Proof. by apply dict_get_update. Qed.
(** A plain word is no key of the base. *)
Lemma base_get_plain k : is_token k = false -> k <> "" -> dict_get (base_replace_items bp) k = None.
Proof. intros. apply (dict_get_not_token ""); [by apply keys_tokens_or_all|done..]. Qed.
End TokenDicts.

(** [eval_render b m Hk]: compute [render m s] on a concrete [s] from the
    hypotheses [dict_get m t = ...] in the context, [Hk] proving that the
    keys of [m] are tokens and [b]. *)
Ltac eval_render b m Hk :=
  rewrite (render_tokens b m _ eq_refl Hk);
  repeat match goal with H : dict_get m _ = _ |- _ => revert H end;
  generalize (dict_get m); let look := fresh "look" in intros look; intros;
  vm_compute;
  repeat match goal with H : look _ = _ |- _ => rewrite H; clear H end;
  reflexivity.

(** C17: the dicts of [main] are unambiguous on a base of tokens, so the
    output does not depend on the order of their entries, as the spec's
    contract of the renderer requires. *)
Theorem ctkpc_render_order_independent bp a h s :
  dict_wf (base_replace_items bp) ->
  Forall (fun e => is_token e.1 = true) (base_replace_items bp) ->
  (forall m, m ≡ₚ cdk_pc_replace_items bp a -> render m s = render (cdk_pc_replace_items bp a) s) /\
  (forall m, m ≡ₚ ctk_pc_replace_items bp a h -> render m s = render (ctk_pc_replace_items bp a h) s) /\
  (forall m, m ≡ₚ gail_pc_replace_items bp -> render m s = render (gail_pc_replace_items bp) s).
Proof.
  intros Hwf Htok. split_and!; intros m Hp; symmetry; (apply render_perm; [|by symmetry]).
  - apply (unambiguous_tokens "cdk-3"); [done|apply cdk_wf|by apply cdk_keys].
  - apply (unambiguous_tokens "ctk-3"); [done|apply ctk_wf|by apply ctk_keys].
  - apply (unambiguous_tokens "gailutil-3"); [done|apply gail_wf|by apply gail_keys].
Qed.

Lemma ctkpc_render_order_independent_witness :
  render (reverse (cdk_pc_replace_items ex_bp ex_args)) ex_cdk_in =
    render (cdk_pc_replace_items ex_bp ex_args) ex_cdk_in.
Proof.
  refine (proj1 (ctkpc_render_order_independent ex_bp ex_args "x64" ex_cdk_in _ _) _ _).
  - apply (bool_decide_unpack _). vm_compute. exact I.
  - apply (bool_decide_unpack _). vm_compute. exact I.
  - apply reverse_Permutation.
Defined.

(** C18: the keys ["cdk-3"] and ["ctk-3"] are plain words, not [@NAME@]
    tokens, so they also match inside an already versioned name: rendering
    is not idempotent, ["cdk-3"] becomes ["cdk-3.0"] and ["cdk-3.0"]
    becomes ["cdk-3.0.0"]. *)
Theorem ctkpc_plain_keys_not_idempotent bp a h :
  dict_wf (base_replace_items bp) ->
  Forall (fun e => is_token e.1 = true) (base_replace_items bp) ->
  render (cdk_pc_replace_items bp a) "-lcdk-3" = "-lcdk-3.0" /\
  render (cdk_pc_replace_items bp a) "-lcdk-3.0" = "-lcdk-3.0.0" /\
  render (ctk_pc_replace_items bp a h) "-lctk-3.0" = "-lctk-3.0.0".
Proof.
  intros Hwf Htok. pose proof (cdk_keys bp a Htok). pose proof (ctk_keys bp a Htok h).
  assert (dict_get (cdk_pc_replace_items bp a) "cdk-3" = Some "cdk-3.0")
    by (by rewrite cdk_lookup, pkg_lookup, base_get_plain).
  assert (dict_get (ctk_pc_replace_items bp a h) "ctk-3" = Some "ctk-3.0")
    by (by rewrite ctk_lookup, pkg_lookup, base_get_plain).
  split_and!; [eval_render "cdk-3" (cdk_pc_replace_items bp a) H..|].
  eval_render "ctk-3" (ctk_pc_replace_items bp a h) H0.
Qed.

Lemma ctkpc_plain_keys_not_idempotent_witness :
  render (cdk_pc_replace_items ex_bp ex_args) "-lcdk-3.0" = "-lcdk-3.0.0".
Proof.
  refine (proj1 (proj2 (ctkpc_plain_keys_not_idempotent ex_bp ex_args "x64" _ _)));
    apply (bool_decide_unpack _); vm_compute; exact I.
Defined.

(** C19: the gail dict is the base items and ["gailutil-3"] only: unless
    [pc_base] supplies it, [@CTK_API_VERSION@] is left verbatim in
    [gail-3.0.pc], while the ctk dict replaces it by ["3.0"]. *)
Theorem gail_pc_api_version_verbatim bp a h :
  dict_wf (base_replace_items bp) ->
  Forall (fun e => is_token e.1 = true) (base_replace_items bp) ->
  dict_get (base_replace_items bp) "@CTK_API_VERSION@" = None ->
  render (gail_pc_replace_items bp) "ctk+-@CTK_API_VERSION@" = "ctk+-@CTK_API_VERSION@" /\
  render (ctk_pc_replace_items bp a h) "ctk+-@CTK_API_VERSION@" = "ctk+-3.0".
Proof.
  intros Hwf Htok Hb. pose proof (gail_keys bp Htok). pose proof (ctk_keys bp a Htok h).
  assert (dict_get (gail_pc_replace_items bp) "@CTK_API_VERSION@" = None)
    by (by rewrite gail_lookup, Hb).
  assert (dict_get (ctk_pc_replace_items bp a h) "@CTK_API_VERSION@" = Some "3.0")
    by (by rewrite ctk_lookup, pkg_lookup, Hb).
  split; [eval_render "gailutil-3" (gail_pc_replace_items bp) H|].
  eval_render "ctk-3" (ctk_pc_replace_items bp a h) H0.
Qed.

Lemma gail_pc_api_version_verbatim_witness :
  render (gail_pc_replace_items ex_bp) "ctk+-@CTK_API_VERSION@" = "ctk+-@CTK_API_VERSION@".
Proof.
  refine (proj1 (gail_pc_api_version_verbatim ex_bp ex_args "x64" _ _ _));
    [apply (bool_decide_unpack _); vm_compute; exact I..|reflexivity].
Defined.

(** C20: substitution is a single left-to-right pass, so an occurrence of
    a key can survive it: the text around a replaced [@GDK_EXTRA_CFLAGS@]
    (value [""]) closes up into a new [@GDK_EXTRA_CFLAGS@]. *)
Theorem cdk_pc_key_survives bp a :
  dict_wf (base_replace_items bp) ->
  Forall (fun e => is_token e.1 = true) (base_replace_items bp) ->
  dict_get (base_replace_items bp) "@GDK_EXTRA_CFLAGS@" = None ->
  render (cdk_pc_replace_items bp a) "@@GDK_EXTRA_CFLAGS@GDK_EXTRA_CFLAGS@" = "@GDK_EXTRA_CFLAGS@".
Proof.
  intros Hwf Htok Hb. pose proof (cdk_keys bp a Htok).
  assert (dict_get (cdk_pc_replace_items bp a) "@GDK_EXTRA_CFLAGS@" = Some "")
    by (by rewrite cdk_lookup, pkg_lookup, Hb).
  eval_render "cdk-3" (cdk_pc_replace_items bp a) H.
Qed.

Lemma cdk_pc_key_survives_witness :
  render (cdk_pc_replace_items ex_bp ex_args) "@@GDK_EXTRA_CFLAGS@GDK_EXTRA_CFLAGS@" = "@GDK_EXTRA_CFLAGS@".
Proof.
  apply (cdk_pc_key_survives ex_bp ex_args);
    [apply (bool_decide_unpack _); vm_compute; exact I..|reflexivity].
Defined.

(** C24: a [@NAME@] placeholder that a dict of [main] does not define is
    left verbatim, as the spec requires, provided the dict's plain key
    (["cdk-3"], ["ctk-3"] or ["gailutil-3"]) does not occur inside it. *)
Theorem ctkpc_unknown_token_verbatim bp a h t :
  Forall (fun e => is_token e.1 = true) (base_replace_items bp) -> is_token t = true ->
  (dict_get (cdk_pc_replace_items bp a) t = None -> ~ "cdk-3" ⊑ₛ t ->
     render (cdk_pc_replace_items bp a) t = t) /\
  (dict_get (ctk_pc_replace_items bp a h) t = None -> ~ "ctk-3" ⊑ₛ t ->
     render (ctk_pc_replace_items bp a h) t = t) /\
  (dict_get (gail_pc_replace_items bp) t = None -> ~ "gailutil-3" ⊑ₛ t ->
     render (gail_pc_replace_items bp) t = t).
Proof.
  intros Htok Ht. split_and!; intros Hn Ho.
  - apply (render_unknown_token "cdk-3"); [done|by apply cdk_keys|done..].
  - apply (render_unknown_token "ctk-3"); [done|by apply ctk_keys|done..].
  - apply (render_unknown_token "gailutil-3"); [done|by apply gail_keys|done..].
Qed.

Lemma ctkpc_unknown_token_verbatim_witness :
  render (cdk_pc_replace_items ex_bp ex_args) "@GDK_WIN32_LIBS@" = "@GDK_WIN32_LIBS@".
Proof.
  refine (proj1 (ctkpc_unknown_token_verbatim ex_bp ex_args "x64" "@GDK_WIN32_LIBS@" _ _) _ _).
  - apply (bool_decide_unpack _). vm_compute. exact I.
  - reflexivity.
  - reflexivity.
  - rewrite <- py_contains_spec. vm_compute. congruence.
Defined.

(** C26: [--broadway] (stored as the constant 1) adds the Broadway backend
    to [@GDK_BACKENDS@] and [-lzlib1] to [@GDK_EXTRA_LIBS@] of
    [cdk-3.0.pc]; without it the backend is [win32] alone. *)
Theorem cdk_pc_broadway bp a :
  dict_wf (base_replace_items bp) -> Forall (fun e => is_token e.1 = true) (base_replace_items bp) ->
  dict_get (base_replace_items bp) "@GDK_BACKENDS@" = None ->
  dict_get (base_replace_items bp) "@GDK_EXTRA_LIBS@" = None ->
  render (cdk_pc_replace_items bp a) "@GDK_BACKENDS@" =
    (if bool_decide (broadway a = Some 1%Z) then "win32 broadway" else "win32") /\
  render (cdk_pc_replace_items bp a) "@GDK_EXTRA_LIBS@" =
    "-lcairo-gobject -lcairo -lgdi32 -limm32 -lshell32 -lole32 -lwinmm -ldwmapi" +:+
      (if bool_decide (broadway a = Some 1%Z) then " -lzlib1" else "").
Proof.
  intros Hwf Htok H1 H2. pose proof (cdk_keys bp a Htok) as Hk.
  assert (Hb : is_broadway a = bool_decide (broadway a = Some 1%Z))
    by (unfold is_broadway; destruct (broadway a) as [[|[]|]|]; done).
  split; (eapply (render_known_token "cdk-3"); [done|done|done|]).
  - rewrite cdk_lookup, pkg_lookup, H1 by done. unfold pkg_replace_items0, cdk_backends.
    rewrite Hb. by destruct (bool_decide _).
  - rewrite cdk_lookup, pkg_lookup, H2 by done. unfold cdk_pc_replace_items0, broadway_extra_libs.
    rewrite Hb. by destruct (bool_decide _).
Qed.

Lemma cdk_pc_broadway_witness :
  render (cdk_pc_replace_items ex_bp ex_args) "@GDK_BACKENDS@" = "win32 broadway".
Proof.
  refine (proj1 (cdk_pc_broadway ex_bp ex_args _ _ _ _));
    first [reflexivity | apply (bool_decide_unpack _); vm_compute; exact I].
Defined.

