(* ===== verification/VersionMacros.v ===== *)
(** * [src/win32/gen-cdkversionmacros-h.py]: the version-macro header

    [main] locates [cdk/] from the script's own path ([__file__]),
    splits the required [--version] on dots, builds the dict of the three
    placeholders [@CTK_MAJOR_VERSION@], [@CTK_MINOR_VERSION@],
    [@CTK_MICRO_VERSION@] from the first three components (indexing the
    list raises [IndexError] when there are fewer than three), and renders
    [cdk/cdkversionmacros.h.in] into [cdk/cdkversionmacros.h] with
    [replace_multi].  Like [ctkpc_main], [gen_main] is written against the
    [TemplateRenderer] interface. *)

From S2P Require Import Prelude PyStr PyDict FileSys Replace.

(** The parsed options: [--version] is required (argparse exits with
    status 2 without it). *)
Record genver_args := mkGenverArgs { version : option string }.

Definition dot : ascii := "."%char.

(** [srcdir], [top_srcdir] and [cdk_sourcedir] computed from [__file__]. *)
Definition gen_srcdir (file : string) : string := dirname file.
Definition gen_top_srcdir (file : string) : string := path_join (gen_srcdir file) [".."].
Definition cdk_sourcedir (file : string) : string := path_join (gen_top_srcdir file) ["cdk"].

Definition macros_h_in (file : string) : string :=
  path_join (cdk_sourcedir file) ["cdkversionmacros.h.in"].
Definition macros_h (file : string) : string :=
  path_join (cdk_sourcedir file) ["cdkversionmacros.h"].

(** The dict literal: its values are evaluated left to right, so the first
    missing component raises. *)
Definition cdkversionmacro_replace_items (version_parts : list string) : outcome (pydict string) :=
  major ← py_index version_parts 0;
  minor ← py_index version_parts 1;
  micro ← py_index version_parts 2;
  mret (dict_lit [("@CTK_MAJOR_VERSION@", major);
                  ("@CTK_MINOR_VERSION@", minor);
                  ("@CTK_MICRO_VERSION@", micro)]).

Section Main.
Context `{TemplateRenderer}.

(** [main(argv)] *)
Definition gen_main (file : string) (a : genver_args) : io unit :=
  match version a with
  | None => raise (SystemExit 2)
  | Some v =>
      version_parts ← lift_outcome (str_split "." v);
      items ← lift_outcome (cdkversionmacro_replace_items version_parts);
      tr_replace_multi (macros_h_in file) (macros_h file) items
  end.

(** [if __name__ == '__main__': sys.exit(main(sys.argv))] *)
Definition gen_script (file : string) (a : genver_args) : io unit := sys_exit_main (gen_main file a).
End Main.

(** ** Lemmas *)

Lemma str_split_dot v : str_split "." v = Ok (py_split "." v).
Proof. reflexivity. Qed.

(** Joining at least three dot-free components and splitting again gives
    the three first components back. *)
Lemma py_split_version major minor micro rest :
  has_char dot major = false -> has_char dot minor = false -> has_char dot micro = false ->
  exists tl, py_split "." (py_join "." (major :: minor :: micro :: rest)) =
             major :: minor :: micro :: tl.
Proof.
  intros H1 H2 H3. rewrite !py_join_cons2, !py_split_char_cons by done.
  destruct rest as [|x rest].
  - exists []. by rewrite py_split_char_free.
  - exists (py_split "." (py_join "." (x :: rest))).
    by rewrite py_join_cons2, py_split_char_cons.
Qed.

Lemma cdkversionmacro_replace_items_ok major minor micro tl :
  cdkversionmacro_replace_items (major :: minor :: micro :: tl) =
    Ok (dict_lit [("@CTK_MAJOR_VERSION@", major); ("@CTK_MINOR_VERSION@", minor);
                  ("@CTK_MICRO_VERSION@", micro)]).
Proof. reflexivity. Qed.

Lemma cdkversionmacro_replace_items_short l :
  length l < 3 -> cdkversionmacro_replace_items l = Exc IndexError.
Proof. intros Hl. destruct l as [|x [|y [|z l]]]; simpl in *; done || lia. Qed.

Section MainProofs.
Context `{TemplateRenderer}.

Lemma gen_main_some file v w :
  gen_main file (mkGenverArgs (Some v)) w =
    (items ← lift_outcome (cdkversionmacro_replace_items (py_split "." v));
     tr_replace_multi (macros_h_in file) (macros_h file) items) w.
Proof. reflexivity. Qed.

(** C5: for a version [major.minor.micro] of dot-free components, [main]
    writes [cdkversionmacros.h]: the template with the three placeholders
    replaced by the three components. *)
Theorem gen_main_ok file major minor micro w tmpl :
  has_char dot major = false -> has_char dot minor = false -> has_char dot micro = false ->
  w_files w !! macros_h_in file = Some tmpl -> writable w (macros_h file) = true ->
  gen_main file (mkGenverArgs (Some (py_join "." [major; minor; micro]))) w =
    (Ok tt, set_files (<[macros_h file :=
       tr_text (dict_lit [("@CTK_MAJOR_VERSION@", major); ("@CTK_MINOR_VERSION@", minor);
                          ("@CTK_MICRO_VERSION@", micro)]) tmpl]> (w_files w)) w).
Proof.
  intros H1 H2 H3 Ht Hw. rewrite gen_main_some.
  destruct (py_split_version major minor micro [] H1 H2 H3) as [tl ->].
  rewrite cdkversionmacro_replace_items_ok, bind_lift_ok. by apply tr_ok.
Qed.

(** C3: a version with fewer than two dots makes [main] raise [IndexError]
    before any file is opened. *)
Theorem gen_main_short_version file v w :
  count_char dot v < 2 -> gen_main file (mkGenverArgs (Some v)) w = (Exc IndexError, w).
Proof.
  intros Hv. rewrite gen_main_some, cdkversionmacro_replace_items_short, bind_lift_exc; [done|].
  rewrite (length_py_split_char dot). lia.
Qed.

(** C12: components after the third are ignored: [major.minor.micro.x...]
    gives the same run as [major.minor.micro]. *)
Theorem gen_main_extra_components file major minor micro extra w :
  has_char dot major = false -> has_char dot minor = false -> has_char dot micro = false ->
  gen_main file (mkGenverArgs (Some (py_join "." (major :: minor :: micro :: extra)))) w =
  gen_main file (mkGenverArgs (Some (py_join "." [major; minor; micro]))) w.
Proof.
  intros H1 H2 H3. rewrite !gen_main_some.
  destruct (py_split_version major minor micro extra H1 H2 H3) as [tl ->].
  destruct (py_split_version major minor micro [] H1 H2 H3) as [tl' ->].
  reflexivity.
Qed.

(** C16: the exit status of [gen-cdkversionmacros-h.py]: 2 without
    [--version], 1 (the [IndexError]) when the version has fewer than two
    dots, else 0 when the template exists and the header can be written,
    and 1 otherwise. *)
Theorem gen_script_exit_status file a w :
  exit_status (gen_script file a w).1 =
    match version a with
    | None => 2%Z
    | Some v =>
        if bool_decide (count_char dot v < 2) then 1%Z
        else if tr_ready w (macros_h_in file) (macros_h file) then 0%Z else 1%Z
    end.
Proof.
  unfold gen_script. rewrite (proj1 (sys_exit_main_status _ _)).
  destruct a as [[v|]]; [|done]. rewrite gen_main_some. simpl. case_bool_decide as Hv.
  - rewrite cdkversionmacro_replace_items_short, bind_lift_exc; [done|].
    rewrite (length_py_split_char dot). lia.
  - pose proof (length_py_split_char dot v) as Hl. change (String dot "") with "." in Hl.
    destruct (py_split "." v) as [|x [|y [|z tl]]]; simpl in Hl; [lia..|].
    rewrite cdkversionmacro_replace_items_ok, bind_lift_ok. apply tr_status.
Qed.
(** C30: [main] on every branch: without [--version] it exits with status 2;
    when [--version] splits on dots into fewer than three parts, reading
    the missing part raises [IndexError] before any file is touched;
    otherwise it is the spec's batch of the one job rendering
    [cdkversionmacros.h.in] into [cdkversionmacros.h] with the dict
    mapping the three version tokens to parts 0, 1 and 2, in that
    order. *)
Theorem gen_main_batch file a w :
  gen_main file a w =
    match version a with
    | None => (Exc (SystemExit 2), w)
    | Some v =>
        match py_split "." v with
        | major :: minor :: micro :: _ =>
            batch_spec [(macros_h_in file, macros_h file,
                         [("@CTK_MAJOR_VERSION@", major); ("@CTK_MINOR_VERSION@", minor);
                          ("@CTK_MICRO_VERSION@", micro)])] w
        | _ => (Exc IndexError, w)
        end
    end.
Proof.
  destruct a as [[v|]]; [|done]. cbn [version]. rewrite gen_main_some. unfold mbind at 1, st_bind, lift_outcome.
  destruct (py_split "." v) as [|major [|minor [|micro tl]]] eqn:E;
    [done|done|done|]. rewrite <- tr_seq_spec. reflexivity.
Qed.

End MainProofs.

(** ** Witnesses *)

Definition ex_file : string := "win32/gen-cdkversionmacros-h.py".
Definition ex_tmpl : string := "#define CTK_MAJOR_VERSION (@CTK_MAJOR_VERSION@) #define CTK_MINOR_VERSION (@CTK_MINOR_VERSION@)".
Definition ex_world : world :=
  mkWorld {["win32/../cdk/cdkversionmacros.h.in" := ex_tmpl]} {["win32/../cdk"]} ∅ true [] [].

Lemma gen_main_ok_witness :
  gen_main ex_file (mkGenverArgs (Some (py_join "." ["3"; "24"; "1"]))) ex_world =
    (Ok tt, set_files (<[macros_h ex_file :=
       tr_text (dict_lit [("@CTK_MAJOR_VERSION@", "3"); ("@CTK_MINOR_VERSION@", "24");
                          ("@CTK_MICRO_VERSION@", "1")]) ex_tmpl]> (w_files ex_world)) ex_world).
Proof. apply (gen_main_ok ex_file "3" "24" "1" ex_world ex_tmpl); vm_compute; reflexivity. Defined.

Lemma gen_main_short_version_witness :
  gen_main ex_file (mkGenverArgs (Some "3.24")) ex_world = (Exc IndexError, ex_world).
Proof. apply (gen_main_short_version ex_file "3.24" ex_world). vm_compute. lia. Defined.

Lemma gen_main_extra_components_witness :
  gen_main ex_file (mkGenverArgs (Some (py_join "." ["3"; "24"; "1"; "5"]))) ex_world =
  gen_main ex_file (mkGenverArgs (Some (py_join "." ["3"; "24"; "1"]))) ex_world.
Proof. apply (gen_main_extra_components ex_file "3" "24" "1" ["5"] ex_world); reflexivity. Defined.

Example gen_main_ex_header :
  tr_text (dict_lit [("@CTK_MAJOR_VERSION@", "3"); ("@CTK_MINOR_VERSION@", "24");
                     ("@CTK_MICRO_VERSION@", "1")]) ex_tmpl =
    "#define CTK_MAJOR_VERSION (3) #define CTK_MINOR_VERSION (24)".
Proof. vm_compute. reflexivity. Qed.

Lemma gen_script_exit_status_witness :
  exit_status (gen_script ex_file (mkGenverArgs (Some "3.24.1")) ex_world).1 = 0%Z.
Proof. rewrite (gen_script_exit_status ex_file). vm_compute. reflexivity. Defined.
