(* ===== verification/PostInstall.v ===== *)
(** * [src/build-aux/meson/post-install.py]: the post-install hook

    Unless [DESTDIR] is set, the script reads five positional arguments,
    computes the module paths, copies the MSVC import libraries on
    Windows, and runs four refresh steps in a fixed order: compile the
    GSettings schemas, update the icon cache, regenerate
    [immodules.cache] from the output of [ctk-query-immodules-<api>], and
    query the print backends with [gio-querymodules].

    External programs are the oracle [run]: [run argv w] is the exit code
    and standard output of [argv] run in world [w], or [None] when the
    executable cannot be found ([subprocess] then raises
    [FileNotFoundError]).  Their effects on the file system other than
    a redirected standard output are not modelled; every run is recorded in
    [w_calls].  [subprocess.call] returns the exit code, which the script
    discards; [subprocess.check_output] raises [CalledProcessError] on a
    non-zero exit.  With the combinators of [CallLog], each step is shown
    to start its commands in the order of the source, and the whole run a
    prefix of [post_install_commands]. *)

From S2P Require Import Prelude PyStr PyDict FileSys CallLog Frame.

Section PostInstall.
Variable run : list string -> world -> option (Z * string).

Definition log_call (argv : list string) (w : world) : world := set_calls (w_calls w ++ [argv]) w.

Definition program (argv : list string) : string := default "" (head argv).

(** [subprocess.call(argv)]: the child's output goes to our standard output. *)
Definition call (argv : list string) : io Z := fun w =>
  match run argv w with
  | None => (Exc (FileNotFoundError (program argv)), w)
  | Some (code, out) => (Ok code, set_stdout (w_stdout w ++ [out]) (log_call argv w))
  end.

(** [subprocess.call(argv, stdout=f)] where [f] was opened on [p] for writing. *)
Definition call_to_file (argv : list string) (p : string) : io Z := fun w =>
  match run argv w with
  | None => (Exc (FileNotFoundError (program argv)), w)
  | Some (code, out) => (Ok code, set_files (<[p:=out]> (w_files w)) (log_call argv w))
  end.

(** [subprocess.check_output(argv)] *)
Definition check_output (argv : list string) : io string := fun w =>
  match run argv w with
  | None => (Exc (FileNotFoundError (program argv)), w)
  | Some (code, out) =>
      if bool_decide (code = 0%Z) then (Ok out, log_call argv w)
      else (Exc (CalledProcessError code argv), log_call argv w)
  end.

Definition path_exists_st (p : string) : io bool := fun w => (Ok (path_exists w p), w).
Definition isfile_st (p : string) : io bool := fun w => (Ok (isfile w p), w).
Definition os_name_nt : io bool := fun w => (Ok (w_os_nt w), w).
Definition destdir_set : io bool :=
  fun w => (Ok (bool_decide (is_Some (w_environ w !! "DESTDIR"))), w).

(** [tool = check_output(['pkg-config', '--variable=' + var, 'gio-2.0']).strip()]
    followed by [if not os.path.exists(tool): tool = fallback]. *)
Definition pkg_config_tool (var fallback : string) : io string :=
  out ← check_output ["pkg-config"; "--variable=" +:+ var; "gio-2.0"];
  let tool := py_strip out in
  (found ← path_exists_st tool;
   mret (if (found : bool) then tool else fallback)).

Definition glib_compile_schemas_tool : io string :=
  pkg_config_tool "glib_compile_schemas" "glib-compile-schemas".

Definition gio_querymodules_tool : io string :=
  pkg_config_tool "gio_querymodules" "gio-querymodules".

(** The paths computed from the arguments. *)
Definition ctk_query_immodules (bindir api : string) : string :=
  path_join bindir ["ctk-query-immodules-" +:+ api].
Definition ctk_update_icon_cache (bindir : string) : string :=
  path_join bindir ["ctk-update-icon-cache"].
Definition ctk_moduledir (libdir api abi : string) : string :=
  path_join libdir ["ctk-" +:+ api; abi].
Definition ctk_immodule_dir (moduledir : string) : string := path_join moduledir ["immodules"].
Definition ctk_printmodule_dir (moduledir : string) : string := path_join moduledir ["printbackends"].
Definition immodules_cache (moduledir : string) : string := path_join moduledir ["immodules.cache"].

(** The MSVC import libraries copied on Windows. *)
Definition msvc_libs : list string := ["gdk"; "ctk"; "gailutil"].

Definition installed_lib (libdir api_major lib : string) : string :=
  path_join libdir [lib +:+ "-" +:+ api_major +:+ ".lib"].
Definition installed_lib_dst (libdir api lib : string) : string :=
  path_join libdir [lib +:+ "-" +:+ api +:+ ".lib"].

(** The body of the loop for one library. *)
Definition copy_msvc_lib (libdir api lib : string) : io unit :=
  parts ← lift_outcome (str_split "." api);
  api_major ← lift_outcome (py_index parts 0);
  present ← isfile_st (installed_lib libdir api_major lib);
  if (present : bool) then copyfile (installed_lib libdir api_major lib) (installed_lib_dst libdir api lib)
  else mret tt.

(** [for lib in ['gdk', 'ctk', 'gailutil']: ...] *)
Definition copy_msvc_libs (libdir api : string) : io unit :=
  py_for msvc_libs (copy_msvc_lib libdir api).

Definition step_schemas (datadir : string) : io unit :=
  print "Compiling GSettings schemas...";;
  tool ← glib_compile_schemas_tool;
  _ ← call [tool; path_join datadir ["glib-2.0"; "schemas"]];
  mret tt.

Definition step_icon_cache (bindir datadir : string) : io unit :=
  print "Updating icon cache...";;
  _ ← call [ctk_update_icon_cache bindir; "-q"; "-t"; "-f"; path_join datadir ["icons"; "hicolor"]];
  mret tt.

Definition step_immodules (bindir api moduledir : string) : io unit :=
  print "Updating module cache for input methods...";;
  makedirs (ctk_immodule_dir moduledir);;
  open_write (immodules_cache moduledir);;
  _ ← call_to_file [ctk_query_immodules bindir api] (immodules_cache moduledir);
  mret tt.

Definition step_printbackends (moduledir : string) : io unit :=
  print "Updating module cache for print backends...";;
  makedirs (ctk_printmodule_dir moduledir);;
  tool ← gio_querymodules_tool;
  _ ← call [tool; ctk_printmodule_dir moduledir];
  mret tt.

(** The body of [if 'DESTDIR' not in os.environ:]. *)
Definition post_install_body (argv : list string) : io unit :=
  api ← lift_outcome (py_index argv 1);
  abi ← lift_outcome (py_index argv 2);
  bindir ← lift_outcome (py_index argv 3);
  libdir ← lift_outcome (py_index argv 4);
  datadir ← lift_outcome (py_index argv 5);
  let moduledir := ctk_moduledir libdir api abi in
  (nt ← os_name_nt;
   (if (nt : bool) then copy_msvc_libs libdir api else mret tt);;
   step_schemas datadir;;
   step_icon_cache bindir datadir;;
   step_immodules bindir api moduledir;;
   step_printbackends moduledir).

(** The script. *)
Definition post_install (argv : list string) : io unit :=
  staged ← destdir_set;
  if (staged : bool) then mret tt else post_install_body argv.
End PostInstall.

(** ** Lemmas *)

Section Proofs.
Variable run : list string -> world -> option (Z * string).

(** ** What a run may change *)

Lemma call_modifies F D argv : modifies F D (call run argv).
Proof. apply modifies_none. intros w. unfold call. by destruct (run argv w) as [[c o]|]. Qed.

Lemma check_output_modifies F D argv : modifies F D (check_output run argv).
Proof. apply modifies_none. intros w. unfold check_output. by repeat case_match. Qed.

Lemma query_modifies {A} F D (q : world -> A) : modifies F D (fun w => (Ok (q w), w)).
Proof. by apply modifies_none. Qed.

Lemma call_to_file_modifies D argv p : modifies (eq p) D (call_to_file run argv p).
Proof.
  intros w. unfold call_to_file. destruct (run argv w) as [[c o]|]; simpl; [|split_and!; [done|done|by left]].
  split_and!; [|done|by left]. intros q Hq. by rewrite lookup_insert_ne.
Qed.

Lemma pkg_config_tool_modifies F D var fb : modifies F D (pkg_config_tool run var fb).
Proof.
  unfold pkg_config_tool. apply modifies_bind; [apply check_output_modifies|intros out]. cbv zeta.
  apply modifies_bind; [apply query_modifies|intros; apply modifies_ret].
Qed.

(** The copy loop writes only the [<lib>-<api>.lib] destinations. *)
Lemma copy_msvc_libs_modifies D libdir api :
  modifies (fun p => p ∈ installed_lib_dst libdir api <$> msvc_libs) D (copy_msvc_libs libdir api).
Proof.
  apply modifies_for. intros lib Hlib. unfold copy_msvc_lib.
  do 2 (apply modifies_bind; [apply modifies_lift|intros ?]).
  apply modifies_bind; [apply query_modifies|intros []]; [|apply modifies_ret].
  eapply modifies_mono; [|done|apply copyfile_modifies]. intros p <-. by apply list_elem_of_fmap_2.
Qed.

Lemma step_schemas_modifies F D datadir : modifies F D (step_schemas run datadir).
Proof.
  unfold step_schemas, glib_compile_schemas_tool.
  apply modifies_bind; [apply print_modifies|intros _].
  apply modifies_bind; [apply pkg_config_tool_modifies|intros t].
  apply modifies_bind; [apply call_modifies|intros; apply modifies_ret].
Qed.

Lemma step_icon_cache_modifies F D bindir datadir : modifies F D (step_icon_cache run bindir datadir).
Proof.
  unfold step_icon_cache. apply modifies_bind; [apply print_modifies|intros _].
  apply modifies_bind; [apply call_modifies|intros; apply modifies_ret].
Qed.

Lemma step_immodules_modifies (F D : string -> Prop) bindir api m :
  F (immodules_cache m) -> (forall d, starts_with d (ctk_immodule_dir m) = true -> D d) ->
  modifies F D (step_immodules run bindir api m).
Proof.
  intros HF HD. unfold step_immodules. apply modifies_bind; [apply print_modifies|intros _].
  apply modifies_bind; [eapply modifies_mono; [done|exact HD|apply makedirs_modifies]|intros _].
  apply modifies_bind; [eapply modifies_mono; [| |apply open_write_modifies]; [intros p <-; exact HF|done]|intros _].
  apply modifies_bind; [|intros; apply modifies_ret].
  eapply modifies_mono; [| |apply call_to_file_modifies]; [intros p <-; exact HF|done].
Qed.

Lemma step_printbackends_modifies (F D : string -> Prop) m :
  (forall d, starts_with d (ctk_printmodule_dir m) = true -> D d) ->
  modifies F D (step_printbackends run m).
Proof.
  intros HD. unfold step_printbackends, gio_querymodules_tool.
  apply modifies_bind; [apply print_modifies|intros _].
  apply modifies_bind; [eapply modifies_mono; [done|exact HD|apply makedirs_modifies]|intros _].
  apply modifies_bind; [apply pkg_config_tool_modifies|intros t].
  apply modifies_bind; [apply call_modifies|intros; apply modifies_ret].
Qed.

(** The four steps write only [immodules.cache] and create only the two
    module directories and their ancestors. *)
Lemma steps_modifies (F D : string -> Prop) bindir api datadir m :
  F (immodules_cache m) ->
  (forall d, starts_with d (ctk_immodule_dir m) = true \/ starts_with d (ctk_printmodule_dir m) = true -> D d) ->
  modifies F D (step_schemas run datadir;; step_icon_cache run bindir datadir;;
                step_immodules run bindir api m;; step_printbackends run m).
Proof.
  intros HF HD.
  apply modifies_bind; [apply step_schemas_modifies|intros _].
  apply modifies_bind; [apply step_icon_cache_modifies|intros _].
  apply modifies_bind; [apply step_immodules_modifies; [done|naive_solver]|intros _].
  apply step_printbackends_modifies. naive_solver.
Qed.

(** C9: the [pkg-config] lookup of a GLib tool: a zero exit gives the
    stripped output when that path exists and the fallback name otherwise;
    a non-zero exit raises [CalledProcessError]. *)
Theorem pkg_config_tool_spec var fb w code out :
  run ["pkg-config"; "--variable=" +:+ var; "gio-2.0"] w = Some (code, out) ->
  pkg_config_tool run var fb w =
    (if bool_decide (code = 0%Z)
     then Ok (if path_exists w (py_strip out) then py_strip out else fb)
     else Exc (CalledProcessError code ["pkg-config"; "--variable=" +:+ var; "gio-2.0"]),
     log_call ["pkg-config"; "--variable=" +:+ var; "gio-2.0"] w).
Proof.
  intros H. unfold pkg_config_tool, check_output, mbind, st_bind. rewrite H.
  by case_bool_decide.
Qed.

(** C13: with [DESTDIR] in the environment the script does nothing at all. *)
Theorem post_install_staged argv w :
  is_Some (w_environ w !! "DESTDIR") -> post_install run argv w = (Ok tt, w).
Proof.
  intros H. unfold post_install, destdir_set, mbind, st_bind. by rewrite bool_decide_true.
Qed.

(** C14: with fewer than five arguments after the script name, [sys.argv[i]]
    raises [IndexError] before any effect. *)
Theorem post_install_short_argv argv w :
  w_environ w !! "DESTDIR" = None -> length argv < 6 ->
  post_install run argv w = (Exc IndexError, w).
Proof.
  intros H Hl. unfold post_install, destdir_set, mbind, st_bind.
  rewrite H, bool_decide_false by (intros [? ?]; done).
  destruct argv as [|a0 [|a1 [|a2 [|a3 [|a4 [|a5 argv]]]]]]; simpl in Hl; try lia; reflexivity.
Qed.

Lemma immodule_dir_tail moduledir : snd (path_split (ctk_immodule_dir moduledir)) <> "".
Proof.
  unfold ctk_immodule_dir, path_join. simpl.
  assert (Hl : str_last (join2 moduledir "immodules") = Some "s"%char)
    by (rewrite str_last_join2 by done; reflexivity).
  apply path_split_tail_ne; [by intros E; rewrite E in Hl|by rewrite Hl].
Qed.

(** C10: when [ctk-query-immodules] cannot be run, [immodules.cache] has
    already been opened for writing: the old cache is lost, the file is
    left empty, and [FileNotFoundError] propagates. *)
Theorem step_immodules_query_missing bindir api moduledir w :
  dir_closed w -> ctk_immodule_dir moduledir ∈ w_dirs w ->
  writable w (immodules_cache moduledir) = true ->
  (forall w', run [ctk_query_immodules bindir api] w' = None) ->
  step_immodules run bindir api moduledir w =
    (Exc (FileNotFoundError (ctk_query_immodules bindir api)),
     set_files (<[immodules_cache moduledir := ""]> (w_files w))
       (set_stdout (w_stdout w ++ ["Updating module cache for input methods..."]) w)).
Proof.
  intros Hc Hd Hw Hq. unfold step_immodules.
  rewrite (bind_ok _ _ _ tt (set_stdout (w_stdout w ++ ["Updating module cache for input methods..."]) w))
    by reflexivity.
  rewrite (bind_ok _ _ _ tt (set_stdout (w_stdout w ++ ["Updating module cache for input methods..."]) w))
    by (apply makedirs_dir_exists; [done|done|apply immodule_dir_tail]).
  unfold open_write, mbind, st_bind. rewrite writable_set_stdout, Hw.
  unfold call_to_file. by rewrite Hq.
Qed.

Lemma copy_msvc_libs_keeps_file libdir api p :
  p <> installed_lib_dst libdir api "gdk" -> p <> installed_lib_dst libdir api "ctk" ->
  p <> installed_lib_dst libdir api "gailutil" -> keeps_file p (copy_msvc_libs libdir api).
Proof.
  intros H1 H2 H3. apply keeps_file_for. intros lib Hlib. unfold copy_msvc_lib.
  apply keeps_file_bind; [apply keeps_file_lift|intros parts].
  apply keeps_file_bind; [apply keeps_file_lift|intros major].
  apply keeps_file_bind; [apply keeps_file_query|intros [|]]; [|apply keeps_file_ret].
  apply copyfile_keeps_file. unfold msvc_libs in Hlib.
  repeat (apply elem_of_cons in Hlib as [->|Hlib]; [done|]). set_solver.
Qed.

(** C11: on Windows the loop copies the import libraries [gdk-3.lib],
    [ctk-3.lib] and [gailutil-3.lib]; the CDK library, which the generated
    [cdk-3.0.pc] links as [cdk-3.0], never gets its [cdk-3.0.lib] copy. *)
Theorem copy_msvc_libs_skips_cdk libdir api w :
  w_files (snd (copy_msvc_libs libdir api w)) !! installed_lib_dst libdir api "cdk" =
  w_files w !! installed_lib_dst libdir api "cdk".
Proof.
  apply copy_msvc_libs_keeps_file; [..|done];
    unfold installed_lib_dst, path_join; simpl; intros H;
    apply join2_inj_r in H; try reflexivity; discriminate.
Qed.

(** ** The steps on success *)

Definition glib_schemas_argv : list string := ["pkg-config"; "--variable=glib_compile_schemas"; "gio-2.0"].
Definition gio_querymodules_argv : list string := ["pkg-config"; "--variable=gio_querymodules"; "gio-2.0"].

Lemma pkg_config_tool_found var fb w out :
  run ["pkg-config"; "--variable=" +:+ var; "gio-2.0"] w = Some (0%Z, out) ->
  is_Some (w_files w !! py_strip out) ->
  pkg_config_tool run var fb w = (Ok (py_strip out), log_call ["pkg-config"; "--variable=" +:+ var; "gio-2.0"] w).
Proof.
  intros Hr Hf.
  assert (He : path_exists (log_call ["pkg-config"; "--variable=" +:+ var; "gio-2.0"] w) (py_strip out) = true)
    by (unfold path_exists; apply orb_true_iff; left; by apply bool_decide_eq_true).
  unfold pkg_config_tool, check_output, path_exists_st, mbind, st_bind.
  rewrite Hr, bool_decide_true by done. cbv beta iota. by rewrite He.
Qed.

Lemma step_schemas_ok datadir w out c o :
  (forall w', run glib_schemas_argv w' = Some (0%Z, out)) -> is_Some (w_files w !! py_strip out) ->
  (forall w', run [py_strip out; path_join datadir ["glib-2.0"; "schemas"]] w' = Some (c, o)) ->
  step_schemas run datadir w =
    (Ok tt, mkWorld (w_files w) (w_dirs w) (w_environ w) (w_os_nt w)
              (w_stdout w ++ ["Compiling GSettings schemas..."; o])
              (w_calls w ++ [glib_schemas_argv; [py_strip out; path_join datadir ["glib-2.0"; "schemas"]]])).
Proof.
  intros Hpc Hf Hr. unfold step_schemas, glib_compile_schemas_tool.
  rewrite (bind_ok _ _ _ tt (set_stdout (w_stdout w ++ ["Compiling GSettings schemas..."]) w)) by done.
  rewrite (bind_ok _ _ _ (py_strip out) (log_call glib_schemas_argv
             (set_stdout (w_stdout w ++ ["Compiling GSettings schemas..."]) w)))
    by (apply pkg_config_tool_found; [apply Hpc|done]).
  unfold call, mbind, st_bind. rewrite Hr. cbn.
  unfold log_call, set_calls, set_stdout. cbn. by rewrite <- !app_assoc.
Qed.

Lemma step_icon_cache_ok bindir datadir w c o :
  (forall w', run [ctk_update_icon_cache bindir; "-q"; "-t"; "-f"; path_join datadir ["icons"; "hicolor"]] w' =
              Some (c, o)) ->
  step_icon_cache run bindir datadir w =
    (Ok tt, mkWorld (w_files w) (w_dirs w) (w_environ w) (w_os_nt w)
              (w_stdout w ++ ["Updating icon cache..."; o])
              (w_calls w ++ [[ctk_update_icon_cache bindir; "-q"; "-t"; "-f"; path_join datadir ["icons"; "hicolor"]]])).
Proof.
  intros Hr. unfold step_icon_cache, call, print, modify_st, mbind, st_bind. rewrite Hr. cbn.
  by rewrite <- app_assoc.
Qed.

Lemma dirname_join_name m x :
  m <> "" -> str_last m <> Some slash -> x <> "" -> has_char slash x = false ->
  dirname (path_join m [x]) = m.
Proof. intros. unfold dirname, path_join. simpl. by rewrite path_split_join2. Qed.

Lemma parent_ok_join_name w m x :
  m <> "" -> str_last m <> Some slash -> x <> "" -> has_char slash x = false -> m ∈ w_dirs w ->
  parent_ok w (path_join m [x]) = true.
Proof.
  intros. unfold parent_ok. rewrite dirname_join_name by done.
  apply orb_true_iff. right. by apply bool_decide_eq_true.
Qed.

Lemma immodules_cache_not_dir m : immodules_cache m <> ctk_immodule_dir m.
Proof. unfold immodules_cache, ctk_immodule_dir, path_join. simpl. intros H. by apply join2_inj_r in H. Qed.

Lemma immodules_cache_not_printdir m : immodules_cache m <> ctk_printmodule_dir m.
Proof. unfold immodules_cache, ctk_printmodule_dir, path_join. simpl. intros H. by apply join2_inj_r in H. Qed.

Lemma step_immodules_ok bindir api moduledir w c q :
  moduledir <> "" -> str_last moduledir <> Some slash -> moduledir ∈ w_dirs w ->
  isfile w (ctk_immodule_dir moduledir) = false -> immodules_cache moduledir ∉ w_dirs w ->
  (forall w', run [ctk_query_immodules bindir api] w' = Some (c, q)) ->
  step_immodules run bindir api moduledir w =
    (Ok tt, mkWorld (<[immodules_cache moduledir := q]> (w_files w))
              ({[ctk_immodule_dir moduledir]} ∪ w_dirs w) (w_environ w) (w_os_nt w)
              (w_stdout w ++ ["Updating module cache for input methods..."])
              (w_calls w ++ [[ctk_query_immodules bindir api]])).
Proof.
  intros Hm Hl Hd Hf Hc Hq. unfold step_immodules.
  set (w1 := set_stdout (w_stdout w ++ ["Updating module cache for input methods..."]) w).
  rewrite (bind_ok _ _ _ tt w1) by done.
  rewrite (bind_ok _ _ _ tt (with_dir (ctk_immodule_dir moduledir) w1)).
  2:{ apply makedirs_parent_exists; [|by apply parent_ok_join_name|done].
      unfold ctk_immodule_dir, path_join. simpl. by rewrite path_split_join2. }
  destruct (with_dir_other (ctk_immodule_dir moduledir) w1) as (F & E & N & O & C).
  pose proof (with_dir_dirs (ctk_immodule_dir moduledir) w1) as D.
  set (w2 := with_dir (ctk_immodule_dir moduledir) w1) in *.
  assert (Hw : writable w2 (immodules_cache moduledir) = true).
  { unfold writable. apply andb_true_iff. split.
    - apply bool_decide_eq_true. rewrite D. pose proof (immodules_cache_not_dir moduledir). set_solver.
    - apply parent_ok_join_name; [done..|]. rewrite D. set_solver. }
  rewrite (bind_ok _ _ _ tt (set_files (<[immodules_cache moduledir := ""]> (w_files w2)) w2))
    by (unfold open_write; by rewrite Hw).
  unfold call_to_file, mbind, st_bind. rewrite Hq. cbn.
  unfold mret, st_ret, set_files, log_call, set_calls.
  cbn [w_files w_dirs w_environ w_os_nt w_stdout w_calls].
  rewrite F, E, N, O, C, D, insert_insert_eq. done.
Qed.

Lemma immodules_cache_not_prefix m :
  m <> "" -> str_last m <> Some slash ->
  starts_with (immodules_cache m) (ctk_immodule_dir m) = false.
Proof.
  intros Hm Hl. unfold immodules_cache, ctk_immodule_dir, path_join. simpl.
  rewrite !join2_plain by done. rewrite starts_with_app_l. reflexivity.
Qed.

(** C25: on a fresh install, where the module directory and its parents
    may still be missing, the input-method step creates them with
    [os.makedirs], writes the query's output to [immodules.cache] and
    keeps the directory tree closed. *)
Theorem step_immodules_fresh bindir api moduledir w c q :
  dir_closed w -> mk_chain w moduledir -> isfile w (ctk_immodule_dir moduledir) = false ->
  immodules_cache moduledir ∉ w_dirs w ->
  (forall w', run [ctk_query_immodules bindir api] w' = Some (c, q)) ->
  exists w', step_immodules run bindir api moduledir w = (Ok tt, w') /\
    ctk_immodule_dir moduledir ∈ w_dirs w' /\ moduledir ∈ w_dirs w' /\ dir_closed w' /\
    w_files w' = <[immodules_cache moduledir := q]> (w_files w) /\
    w_calls w' = w_calls w ++ [[ctk_query_immodules bindir api]].
Proof.
  intros Hc Hm Hfi Hcache Hq. destruct (mk_chain_shape _ _ Hm) as [Hm1 Hm2].
  set (w1 := set_stdout (w_stdout w ++ ["Updating module cache for input methods..."]) w).
  assert (Hchain : mk_chain w (ctk_immodule_dir moduledir)) by (by apply mk_chain_join).
  destruct (makedirs_chain w _ Hchain w1) as (D & E & Himm & HD & Hnew); [done..|].
  assert (Hcl : dir_closed (set_dirs D w1))
    by (pose proof (makedirs_closed (ctk_immodule_dir moduledir) w1 Hc) as H; by rewrite E in H).
  assert (HmD : moduledir ∈ D).
  { destruct (Hcl _ Himm) as [Hd|Hd]; unfold ctk_immodule_dir in Hd;
      rewrite dirname_join_name in Hd by done; done. }
  assert (Hw : writable (set_dirs D w1) (immodules_cache moduledir) = true).
  { unfold writable. apply andb_true_iff. split.
    - apply bool_decide_eq_true. intros Hin. destruct (Hnew _ Hin) as [?|Hp]; [done|].
      by rewrite immodules_cache_not_prefix in Hp.
    - by apply parent_ok_join_name. }
  unfold step_immodules.
  rewrite (bind_ok _ _ _ tt w1) by done. rewrite (bind_ok _ _ _ tt (set_dirs D w1)) by done.
  rewrite (bind_ok _ _ _ tt (set_files (<[immodules_cache moduledir := ""]> (w_files (set_dirs D w1)))
                               (set_dirs D w1))) by (unfold open_write; by rewrite Hw).
  unfold call_to_file, mbind, st_bind. rewrite Hq.
  eexists. split; [reflexivity|]. cbn. by rewrite insert_insert_eq.
Qed.

Lemma step_printbackends_ok moduledir w out c o :
  moduledir <> "" -> str_last moduledir <> Some slash -> moduledir ∈ w_dirs w ->
  isfile w (ctk_printmodule_dir moduledir) = false ->
  (forall w', run gio_querymodules_argv w' = Some (0%Z, out)) -> is_Some (w_files w !! py_strip out) ->
  (forall w', run [py_strip out; ctk_printmodule_dir moduledir] w' = Some (c, o)) ->
  step_printbackends run moduledir w =
    (Ok tt, mkWorld (w_files w) ({[ctk_printmodule_dir moduledir]} ∪ w_dirs w) (w_environ w) (w_os_nt w)
              (w_stdout w ++ ["Updating module cache for print backends..."; o])
              (w_calls w ++ [gio_querymodules_argv; [py_strip out; ctk_printmodule_dir moduledir]])).
Proof.
  intros Hm Hl Hd Hf Hpc Ht Hr. unfold step_printbackends, gio_querymodules_tool.
  set (w1 := set_stdout (w_stdout w ++ ["Updating module cache for print backends..."]) w).
  rewrite (bind_ok _ _ _ tt w1) by done.
  rewrite (bind_ok _ _ _ tt (with_dir (ctk_printmodule_dir moduledir) w1)).
  2:{ apply makedirs_parent_exists; [|by apply parent_ok_join_name|done].
      unfold ctk_printmodule_dir, path_join. simpl. by rewrite path_split_join2. }
  destruct (with_dir_other (ctk_printmodule_dir moduledir) w1) as (F & E & N & O & C).
  pose proof (with_dir_dirs (ctk_printmodule_dir moduledir) w1) as D.
  set (w2 := with_dir (ctk_printmodule_dir moduledir) w1) in *.
  rewrite (bind_ok _ _ _ (py_strip out) (log_call gio_querymodules_argv w2))
    by (apply pkg_config_tool_found; [apply Hpc|by rewrite F]).
  unfold call, mbind, st_bind. rewrite Hr.
  unfold mret, st_ret, set_stdout, log_call, set_calls.
  cbn [w_files w_dirs w_environ w_os_nt w_stdout w_calls].
  rewrite F, E, N, O, C, D. unfold w1, set_stdout. cbn. rewrite <- !app_assoc. reflexivity.
Qed.

Lemma post_install_args s0 api abi bindir libdir datadir rest :
  post_install_body run (s0 :: api :: abi :: bindir :: libdir :: datadir :: rest) =
    (let moduledir := ctk_moduledir libdir api abi in
     nt ← os_name_nt;
     (if (nt : bool) then copy_msvc_libs libdir api else mret tt);;
     step_schemas run datadir;;
     step_icon_cache run bindir datadir;;
     step_immodules run bindir api moduledir;;
     step_printbackends run moduledir).
Proof. reflexivity. Qed.

(** C8: the frame of a run, whatever its outcome: the only files that
    change are [immodules.cache] of the module directory and, on Windows,
    the [<lib>-<api>.lib] copies; no directory disappears; and every new
    directory is [immodules], [printbackends] or one of their ancestors. *)
Theorem post_install_frame s0 api abi bindir libdir datadir rest w :
  let m := ctk_moduledir libdir api abi in
  let w' := (post_install run (s0 :: api :: abi :: bindir :: libdir :: datadir :: rest) w).2 in
  (forall p, p <> immodules_cache m ->
     (w_os_nt w = true -> p ∉ installed_lib_dst libdir api <$> msvc_libs) ->
     w_files w' !! p = w_files w !! p) /\
  w_dirs w ⊆ w_dirs w' /\
  (forall d, d ∈ w_dirs w' ->
     d ∈ w_dirs w \/ starts_with d (ctk_immodule_dir m) = true \/ starts_with d (ctk_printmodule_dir m) = true).
Proof.
  intros m w'. subst w'.
  set (F := fun p => p = immodules_cache m \/ (w_os_nt w = true /\ p ∈ installed_lib_dst libdir api <$> msvc_libs)).
  set (D := fun d => starts_with d (ctk_immodule_dir m) = true \/ starts_with d (ctk_printmodule_dir m) = true).
  set (argv := s0 :: api :: abi :: bindir :: libdir :: datadir :: rest).
  assert (H : (forall p, ~ F p -> w_files (post_install run argv w).2 !! p = w_files w !! p) /\
              w_dirs w ⊆ w_dirs (post_install run argv w).2 /\
              (forall d, d ∈ w_dirs (post_install run argv w).2 -> d ∈ w_dirs w \/ D d)).
  { unfold post_install. destruct (bool_decide (is_Some (w_environ w !! "DESTDIR"))) eqn:HD.
    - rewrite (bind_ok _ _ _ true w) by (unfold destdir_set; by rewrite HD). split_and!; [done|done|by left].
    - rewrite (bind_ok _ _ _ false w) by (unfold destdir_set; by rewrite HD).
      unfold argv. rewrite post_install_args. cbv zeta. rewrite (bind_ok _ _ _ (w_os_nt w) w) by done.
      apply (modifies_bind F D); [|intros _; apply steps_modifies; [by left|done]].
      destruct (w_os_nt w) eqn:Hnt; [|apply modifies_ret].
      eapply modifies_mono; [| |apply copy_msvc_libs_modifies]; [intros p Hp; by right|done]. }
  destruct H as (H1 & H2 & H3). split_and!; [|done|done].
  intros p Hp Hl. apply H1. unfold F. naive_solver.
Qed.

Lemma moduledir_last libdir api abi :
  abi <> "" -> str_last abi <> Some slash ->
  ctk_moduledir libdir api abi <> "" /\ str_last (ctk_moduledir libdir api abi) <> Some slash.
Proof.
  intros Ha Hl. unfold ctk_moduledir, path_join. simpl. rewrite str_last_join2 by done.
  split; [|done]. intros E. pose proof (str_last_join2 (join2 libdir ("ctk-" +:+ api)) abi Ha) as L.
  rewrite E in L. simpl in L. destruct (str_last_nonempty abi Ha) as [x Hx]. congruence.
Qed.

(** The run of the script when every tool is installed and the module
    directory exists, step by step. *)
Lemma post_install_run_ok s0 api abi bindir libdir datadir rest w out1 out2 c1 o1 c2 o2 c3 q c4 o4 :
  w_environ w !! "DESTDIR" = None -> w_os_nt w = false ->
  abi <> "" -> str_last abi <> Some slash ->
  ctk_moduledir libdir api abi ∈ w_dirs w ->
  isfile w (ctk_immodule_dir (ctk_moduledir libdir api abi)) = false ->
  isfile w (ctk_printmodule_dir (ctk_moduledir libdir api abi)) = false ->
  immodules_cache (ctk_moduledir libdir api abi) ∉ w_dirs w ->
  (forall w', run glib_schemas_argv w' = Some (0%Z, out1)) -> is_Some (w_files w !! py_strip out1) ->
  (forall w', run [py_strip out1; path_join datadir ["glib-2.0"; "schemas"]] w' = Some (c1, o1)) ->
  (forall w', run [ctk_update_icon_cache bindir; "-q"; "-t"; "-f"; path_join datadir ["icons"; "hicolor"]] w' =
              Some (c2, o2)) ->
  (forall w', run [ctk_query_immodules bindir api] w' = Some (c3, q)) ->
  (forall w', run gio_querymodules_argv w' = Some (0%Z, out2)) -> is_Some (w_files w !! py_strip out2) ->
  (forall w', run [py_strip out2; ctk_printmodule_dir (ctk_moduledir libdir api abi)] w' = Some (c4, o4)) ->
  post_install run (s0 :: api :: abi :: bindir :: libdir :: datadir :: rest) w =
    (Ok tt, mkWorld
       (<[immodules_cache (ctk_moduledir libdir api abi) := q]> (w_files w))
       ({[ctk_printmodule_dir (ctk_moduledir libdir api abi)]} ∪
          ({[ctk_immodule_dir (ctk_moduledir libdir api abi)]} ∪ w_dirs w))
       (w_environ w) (w_os_nt w)
       (w_stdout w ++ ["Compiling GSettings schemas..."; o1; "Updating icon cache..."; o2;
                       "Updating module cache for input methods...";
                       "Updating module cache for print backends..."; o4])
       (w_calls w ++ [glib_schemas_argv; [py_strip out1; path_join datadir ["glib-2.0"; "schemas"]];
                      [ctk_update_icon_cache bindir; "-q"; "-t"; "-f"; path_join datadir ["icons"; "hicolor"]];
                      [ctk_query_immodules bindir api];
                      gio_querymodules_argv; [py_strip out2; ctk_printmodule_dir (ctk_moduledir libdir api abi)]])).
Proof.
  intros HD Hnt Ha Hal Hm Hfi Hfp Hc Hpc1 Ht1 Hr1 Hr2 Hq Hpc2 Ht2 Hr4.
  destruct (moduledir_last libdir api abi Ha Hal) as [Hm1 Hm2].
  set (m := ctk_moduledir libdir api abi) in *.
  unfold post_install. rewrite (bind_ok _ _ _ false w) by (unfold destdir_set; by rewrite HD).
  rewrite post_install_args. cbv zeta.
  rewrite (bind_ok _ _ _ false w) by (unfold os_name_nt; by rewrite Hnt).
  rewrite (bind_ok _ _ _ tt w) by done.
  erewrite (bind_ok (step_schemas run datadir) _ w tt) by (by apply (step_schemas_ok _ _ out1 c1 o1)).
  erewrite (bind_ok (step_icon_cache run bindir datadir) _ _ tt) by (by apply (step_icon_cache_ok _ _ _ c2 o2)).
  erewrite (bind_ok (step_immodules run bindir api m) _ _ tt) by (by apply (step_immodules_ok _ _ _ _ c3 q)).
  rewrite (step_printbackends_ok _ _ out2 c4 o4); cbn [w_files w_dirs w_environ w_os_nt w_stdout w_calls].
  - by rewrite <- !app_assoc.
  - done.
  - done.
  - set_solver.
  - unfold isfile. cbn [w_files]. rewrite lookup_insert_ne; [done|]. apply immodules_cache_not_printdir.
  - done.
  - apply lookup_insert_is_Some'. by right.
  - done.
Qed.

(** C21: the whole run of the script on a non-Windows host ([os.name]
    not [nt]) without [DESTDIR], when both pkg-config lookups name existing
    tools, every tool is installed and the module directory exists: the six commands start in the order of the
    source, [immodules] and [printbackends] are created, [immodules.cache]
    holds the output of the query, and nothing else changes. *)
Theorem post_install_trace s0 api abi bindir libdir datadir rest w out1 out2 c1 o1 c2 o2 c3 q c4 o4 :
  w_environ w !! "DESTDIR" = None -> w_os_nt w = false ->
  abi <> "" -> str_last abi <> Some slash ->
  ctk_moduledir libdir api abi ∈ w_dirs w ->
  isfile w (ctk_immodule_dir (ctk_moduledir libdir api abi)) = false ->
  isfile w (ctk_printmodule_dir (ctk_moduledir libdir api abi)) = false ->
  immodules_cache (ctk_moduledir libdir api abi) ∉ w_dirs w ->
  (forall w', run glib_schemas_argv w' = Some (0%Z, out1)) -> is_Some (w_files w !! py_strip out1) ->
  (forall w', run [py_strip out1; path_join datadir ["glib-2.0"; "schemas"]] w' = Some (c1, o1)) ->
  (forall w', run [ctk_update_icon_cache bindir; "-q"; "-t"; "-f"; path_join datadir ["icons"; "hicolor"]] w' =
              Some (c2, o2)) ->
  (forall w', run [ctk_query_immodules bindir api] w' = Some (c3, q)) ->
  (forall w', run gio_querymodules_argv w' = Some (0%Z, out2)) -> is_Some (w_files w !! py_strip out2) ->
  (forall w', run [py_strip out2; ctk_printmodule_dir (ctk_moduledir libdir api abi)] w' = Some (c4, o4)) ->
  post_install run (s0 :: api :: abi :: bindir :: libdir :: datadir :: rest) w =
    (Ok tt, mkWorld
       (<[immodules_cache (ctk_moduledir libdir api abi) := q]> (w_files w))
       ({[ctk_printmodule_dir (ctk_moduledir libdir api abi)]} ∪
          ({[ctk_immodule_dir (ctk_moduledir libdir api abi)]} ∪ w_dirs w))
       (w_environ w) (w_os_nt w)
       (w_stdout w ++ ["Compiling GSettings schemas..."; o1; "Updating icon cache..."; o2;
                       "Updating module cache for input methods...";
                       "Updating module cache for print backends..."; o4])
       (w_calls w ++ [glib_schemas_argv; [py_strip out1; path_join datadir ["glib-2.0"; "schemas"]];
                      [ctk_update_icon_cache bindir; "-q"; "-t"; "-f"; path_join datadir ["icons"; "hicolor"]];
                      [ctk_query_immodules bindir api];
                      gio_querymodules_argv; [py_strip out2; ctk_printmodule_dir (ctk_moduledir libdir api abi)]])).
Proof. intros *. apply post_install_run_ok. Qed.

(** C27: on a non-Windows host and under the hypotheses of the trace,
    re-running the script on the tree its first run left (a reinstall
    into the same prefix) also runs to its end: [os.makedirs] is called
    with [exist_ok=True], so the now existing [immodules] and
    [printbackends] directories raise nothing, and the second run leaves
    the files and directories as the first run left them. *)
Theorem post_install_rerun s0 api abi bindir libdir datadir rest w out1 out2 c1 o1 c2 o2 c3 q c4 o4 :
  w_environ w !! "DESTDIR" = None -> w_os_nt w = false ->
  abi <> "" -> str_last abi <> Some slash ->
  ctk_moduledir libdir api abi ∈ w_dirs w ->
  isfile w (ctk_immodule_dir (ctk_moduledir libdir api abi)) = false ->
  isfile w (ctk_printmodule_dir (ctk_moduledir libdir api abi)) = false ->
  immodules_cache (ctk_moduledir libdir api abi) ∉ w_dirs w ->
  (forall w', run glib_schemas_argv w' = Some (0%Z, out1)) -> is_Some (w_files w !! py_strip out1) ->
  (forall w', run [py_strip out1; path_join datadir ["glib-2.0"; "schemas"]] w' = Some (c1, o1)) ->
  (forall w', run [ctk_update_icon_cache bindir; "-q"; "-t"; "-f"; path_join datadir ["icons"; "hicolor"]] w' =
              Some (c2, o2)) ->
  (forall w', run [ctk_query_immodules bindir api] w' = Some (c3, q)) ->
  (forall w', run gio_querymodules_argv w' = Some (0%Z, out2)) -> is_Some (w_files w !! py_strip out2) ->
  (forall w', run [py_strip out2; ctk_printmodule_dir (ctk_moduledir libdir api abi)] w' = Some (c4, o4)) ->
  exists w1 w2,
    post_install run (s0 :: api :: abi :: bindir :: libdir :: datadir :: rest) w = (Ok tt, w1) /\
    post_install run (s0 :: api :: abi :: bindir :: libdir :: datadir :: rest) w1 = (Ok tt, w2) /\
    w_files w2 = w_files w1 /\ w_dirs w2 = w_dirs w1.
Proof.
  intros HD Hnt Ha Hal Hm Hfi Hfp Hc Hpc1 Ht1 Hr1 Hr2 Hq Hpc2 Ht2 Hr4.
  pose proof (immodules_cache_not_dir (ctk_moduledir libdir api abi)).
  pose proof (immodules_cache_not_printdir (ctk_moduledir libdir api abi)).
  rewrite (post_install_run_ok s0 api abi bindir libdir datadir rest w out1 out2 c1 o1 c2 o2 c3 q c4 o4) by done.
  eexists _, _. split; [reflexivity|].
  erewrite (post_install_run_ok s0 api abi bindir libdir datadir rest _ out1 out2 c1 o1 c2 o2 c3 q c4 o4);
    cbn [w_files w_dirs w_environ w_os_nt]; try done.
  - split_and!; [reflexivity|cbn [w_files]; apply insert_insert_eq|cbn [w_dirs]; set_solver].
  - set_solver.
  - unfold isfile. cbn [w_files]. rewrite lookup_insert_ne; [done|congruence].
  - unfold isfile. cbn [w_files]. rewrite lookup_insert_ne; [done|congruence].
  - set_solver.
  - apply lookup_insert_is_Some'. by right.
  - apply lookup_insert_is_Some'. by right.
Qed.

(** ** The order of the commands

    Every run, whatever its outcome, starts a prefix of the six commands
    of the source in their order; the two tools found through pkg-config
    are whatever the lookup gave. *)

Definition post_install_commands (api abi bindir libdir datadir : string) : list (list string -> Prop) :=
  [eq glib_schemas_argv;
   (fun c => exists t, c = [t; path_join datadir ["glib-2.0"; "schemas"]]);
   eq [ctk_update_icon_cache bindir; "-q"; "-t"; "-f"; path_join datadir ["icons"; "hicolor"]];
   eq [ctk_query_immodules bindir api];
   eq gio_querymodules_argv;
   (fun c => exists t, c = [t; ctk_printmodule_dir (ctk_moduledir libdir api abi)])].

(** A command that starts [argv] logs it when [run] finds the program,
    and nothing when it raises [FileNotFoundError]. *)
Ltac logs_one :=
  intros w; repeat case_match; simplify_eq;
  first [ exists []; rewrite app_nil_r; split_and!; [done|constructor|done]
        | eexists [_]; cbn [w_calls set_calls set_stdout set_files log_call fst snd];
          split_and!; [reflexivity|by repeat constructor|done] ].

Lemma logs_call argv (P : list string -> Prop) : P argv -> logs [P] (call run argv).
Proof. intros HP. unfold call. logs_one. Qed.

Lemma logs_call_to_file argv p (P : list string -> Prop) : P argv -> logs [P] (call_to_file run argv p).
Proof. intros HP. unfold call_to_file. logs_one. Qed.

Lemma logs_check_output argv : logs [eq argv] (check_output run argv).
Proof. unfold check_output. logs_one. Qed.

Lemma logs_pkg_config_tool var fb :
  logs [eq ["pkg-config"; "--variable=" +:+ var; "gio-2.0"]] (pkg_config_tool run var fb).
Proof.
  apply (logs_bind [_] []); [apply logs_check_output|intros out]. cbv zeta.
  apply keeps_calls_logs. unfold path_exists_st. auto with ctk_inv.
Qed.

Lemma copy_msvc_libs_keeps_calls libdir api : keeps_calls (copy_msvc_libs libdir api).
Proof.
  apply keeps_calls_for. intros lib _. unfold copy_msvc_lib, isfile_st.
  repeat (apply keeps_calls_bind; [auto with ctk_inv|intros ?]). destruct (_ : bool); auto with ctk_inv.
Qed.

Lemma logs_step_schemas datadir :
  logs (take 2 (post_install_commands "" "" "" "" datadir)) (step_schemas run datadir).
Proof.
  unfold step_schemas, glib_compile_schemas_tool.
  apply (logs_bind [] _); [apply keeps_calls_logs, print_keeps_calls|intros _].
  apply (logs_bind [_] [_]); [apply logs_pkg_config_tool|intros t].
  apply (logs_bind [_] []); [apply logs_call; by eexists|intros _]. apply logs_ret.
Qed.

Lemma logs_step_icon_cache bindir datadir :
  logs [eq [ctk_update_icon_cache bindir; "-q"; "-t"; "-f"; path_join datadir ["icons"; "hicolor"]]]
    (step_icon_cache run bindir datadir).
Proof.
  unfold step_icon_cache.
  apply (logs_bind [] _); [apply keeps_calls_logs, print_keeps_calls|intros _].
  apply (logs_bind [_] []); [by apply logs_call|intros _]. apply logs_ret.
Qed.

Lemma logs_step_immodules bindir api moduledir :
  logs [eq [ctk_query_immodules bindir api]] (step_immodules run bindir api moduledir).
Proof.
  unfold step_immodules.
  do 3 (apply (logs_bind [] _); [apply keeps_calls_logs; auto with ctk_inv|intros _]).
  apply (logs_bind [_] []); [by apply logs_call_to_file|intros _]. apply logs_ret.
Qed.

Lemma logs_step_printbackends moduledir :
  logs [eq gio_querymodules_argv; fun c => exists t, c = [t; ctk_printmodule_dir moduledir]]
    (step_printbackends run moduledir).
Proof.
  unfold step_printbackends, gio_querymodules_tool.
  do 2 (apply (logs_bind [] _); [apply keeps_calls_logs; auto with ctk_inv|intros _]).
  apply (logs_bind [_] [_]); [apply logs_pkg_config_tool|intros t].
  apply (logs_bind [_] []); [apply logs_call; by eexists|intros _]. apply logs_ret.
Qed.

Lemma logs_post_install_body s0 api abi bindir libdir datadir rest :
  logs (post_install_commands api abi bindir libdir datadir)
    (post_install_body run (s0 :: api :: abi :: bindir :: libdir :: datadir :: rest)).
Proof.
  rewrite post_install_args. cbv zeta.
  apply (logs_bind [] _); [apply keeps_calls_logs; unfold os_name_nt; auto with ctk_inv|intros nt].
  apply (logs_bind [] _);
    [apply keeps_calls_logs; destruct nt; [apply copy_msvc_libs_keeps_calls|apply keeps_calls_ret]|intros _].
  apply (logs_bind [_; _] _); [apply logs_step_schemas|intros _].
  apply (logs_bind [_] _); [apply logs_step_icon_cache|intros _].
  apply (logs_bind [_] _); [apply logs_step_immodules|intros _].
  apply logs_step_printbackends.
Qed.

(** C28: whatever the tools, the files and the outcome, a run starts the
    commands of the source in their order: pkg-config for
    glib-compile-schemas, the schema compiler, ctk-update-icon-cache,
    ctk-query-immodules, pkg-config for gio-querymodules, the module
    query.  A statement that raises (a missing tool, a failing pkg-config,
    an unwritable cache) cuts the sequence there, so no later command
    starts; a staged install starts none, and a run that returns normally
    without [DESTDIR] starts all six. *)
Theorem post_install_command_order s0 api abi bindir libdir datadir rest w :
  exists l,
    w_calls (post_install run (s0 :: api :: abi :: bindir :: libdir :: datadir :: rest) w).2 = w_calls w ++ l /\
    Forall2 (fun P c => P c) (take (length l) (post_install_commands api abi bindir libdir datadir)) l /\
    (is_Some (w_environ w !! "DESTDIR") -> l = []) /\
    (forall a, (post_install run (s0 :: api :: abi :: bindir :: libdir :: datadir :: rest) w).1 = Ok a ->
       w_environ w !! "DESTDIR" = None -> length l = 6).
Proof.
  unfold post_install. destruct (w_environ w !! "DESTDIR") as [d|] eqn:HD.
  - rewrite (bind_ok _ _ _ true w) by (unfold destdir_set; rewrite HD, bool_decide_true; by eauto).
    exists []. rewrite app_nil_r. split_and!; [done|constructor|done|by intros ? ? ?].
  - rewrite (bind_ok _ _ _ false w) by (unfold destdir_set; by rewrite HD).
    destruct (logs_post_install_body s0 api abi bindir libdir datadir rest w) as (l & E & F & O).
    exists l. split_and!; [done|done|by intros []|intros a Ha _; by rewrite (O a Ha)].
Qed.

(** ** The import-library copies on Windows *)

(** The effect of one iteration on the files. *)
Definition copy_one (libdir api major lib : string) (fs : gmap string string) : gmap string string :=
  match fs !! installed_lib libdir major lib with
  | Some s => <[installed_lib_dst libdir api lib := s]> fs
  | None => fs
  end.

Lemma count_char_has c s : has_char c s = true -> 1 <= count_char c s.
Proof.
  induction s as [|d s IH]; simpl; [done|]. intros [H|H]%orb_true_iff.
  - rewrite H. lia.
  - specialize (IH H). lia.
Qed.

(** [api.split('.')[0]] of a dotted version is a proper prefix. *)
Lemma api_major_split api :
  has_char "."%char api = true -> exists major t, py_split "." api = major :: t /\ major <> api.
Proof.
  intros Hd. pose proof (length_py_split_char "."%char api) as L. pose proof (count_char_has _ _ Hd).
  pose proof (py_split_join "." api ltac:(done)) as J.
  destruct (py_split "." api) as [|m [|x t]]; simpl in L; [lia..|].
  exists m, (x :: t). split; [done|]. intros E. rewrite py_join_cons2 in J.
  apply (f_equal String.length) in J. rewrite E, !str_length_app in J. simpl in J. lia.
Qed.

Lemma msvc_libs_cases l : l ∈ msvc_libs -> l = "gdk" \/ l = "ctk" \/ l = "gailutil".
Proof.
  unfold msvc_libs. intros H.
  repeat (apply elem_of_cons in H as [->|H]; [auto|]). by apply elem_of_nil in H.
Qed.

Lemma lib_not_absolute lib x : lib ∈ msvc_libs -> starts_with "/" (lib +:+ x) = false.
Proof. intros Hl. by destruct (msvc_libs_cases _ Hl) as [-> | [-> | ->]]. Qed.

Lemma lib_name_inj l1 l2 x y :
  l1 ∈ msvc_libs -> l2 ∈ msvc_libs ->
  l1 +:+ "-" +:+ x +:+ ".lib" = l2 +:+ "-" +:+ y +:+ ".lib" -> l1 = l2 /\ x = y.
Proof.
  intros H1 H2 E.
  destruct (msvc_libs_cases _ H1) as [-> | [-> | ->]], (msvc_libs_cases _ H2) as [-> | [-> | ->]];
    rewrite ?str_app_cons, ?str_app_nil_l in E; try discriminate;
    repeat injection E as E; (split; [done|by apply str_app_inv_r in E]).
Qed.

Lemma installed_lib_dst_inj libdir api l1 l2 :
  l1 ∈ msvc_libs -> l2 ∈ msvc_libs ->
  installed_lib_dst libdir api l1 = installed_lib_dst libdir api l2 -> l1 = l2.
Proof.
  intros H1 H2 E. unfold installed_lib_dst, path_join in E. simpl in E.
  apply join2_inj_r in E; [|by apply lib_not_absolute..]. by apply lib_name_inj in E as [? _].
Qed.

Lemma installed_lib_not_dst libdir api major l1 l2 :
  l1 ∈ msvc_libs -> l2 ∈ msvc_libs -> major <> api ->
  installed_lib libdir major l1 <> installed_lib_dst libdir api l2.
Proof.
  intros H1 H2 Hm E. unfold installed_lib, installed_lib_dst, path_join in E. simpl in E.
  apply join2_inj_r in E; [|by apply lib_not_absolute..]. by apply lib_name_inj in E as [_ ?].
Qed.

Lemma copy_msvc_lib_ok libdir api major t lib w :
  py_split "." api = major :: t -> major <> api -> has_char slash api = false -> lib ∈ msvc_libs ->
  libdir <> "" -> str_last libdir <> Some slash -> libdir ∈ w_dirs w ->
  installed_lib_dst libdir api lib ∉ w_dirs w ->
  copy_msvc_lib libdir api lib w = (Ok tt, set_files (copy_one libdir api major lib (w_files w)) w).
Proof.
  intros Hs Hm Ha Hl Hd Hdl Hdir Hdst. unfold copy_msvc_lib, str_split. rewrite decide_False by done.
  rewrite bind_lift_ok, Hs. cbn [py_index lookup list_lookup]. rewrite bind_lift_ok.
  unfold isfile_st, copy_one, isfile, mbind, st_bind.
  destruct (w_files w !! installed_lib libdir major lib) as [s|] eqn:E; simpl.
  - apply copyfile_ok; [by apply installed_lib_not_dst|done|].
    unfold writable. apply andb_true_iff. split; [by apply bool_decide_eq_true|].
    destruct (msvc_libs_cases _ Hl) as [-> | [-> | ->]];
      (apply parent_ok_join_name; [done|done|by rewrite str_app_cons| |done]);
      rewrite !has_char_app, Ha; reflexivity.
  - by destruct w.
Qed.

Section CopyOne.
Context (libdir api major : string).
Hypothesis Hm : major <> api.

Lemma copy_one_ne lib fs p :
  p <> installed_lib_dst libdir api lib -> copy_one libdir api major lib fs !! p = fs !! p.
Proof. intros Hp. unfold copy_one. case_match; [by rewrite lookup_insert_ne|done]. Qed.

Lemma copy_one_dst lib fs :
  copy_one libdir api major lib fs !! installed_lib_dst libdir api lib =
    match fs !! installed_lib libdir major lib with Some s => Some s | None => fs !! installed_lib_dst libdir api lib end.
Proof. unfold copy_one. case_match; [by rewrite lookup_insert_eq|done]. Qed.

(** The files after the loop over [l]: each destination of [l] holds its
    source when there is one, everything else is unchanged. *)
Lemma fold_copy_one l fs lib :
  NoDup l -> l ⊆ msvc_libs -> lib ∈ msvc_libs ->
  fold_left (fun fs x => copy_one libdir api major x fs) l fs !! installed_lib_dst libdir api lib =
    if decide (lib ∈ l) then
      match fs !! installed_lib libdir major lib with Some s => Some s | None => fs !! installed_lib_dst libdir api lib end
    else fs !! installed_lib_dst libdir api lib.
Proof.
  revert fs. induction l as [|x l IH]; intros fs Hnd Hl Hlib; cbn [fold_left].
  { rewrite decide_False; [done|]. by intros ?%elem_of_nil. }
  apply NoDup_cons in Hnd as [Hx Hnd].
  assert (Hxm : x ∈ msvc_libs) by (apply Hl; by left).
  rewrite IH by (done || by intros y Hy; apply Hl; right).
  destruct (decide (lib = x)) as [->|Hne].
  - rewrite decide_False by done. rewrite decide_True by (by left).
    apply copy_one_dst.
  - assert (Hd : installed_lib_dst libdir api lib <> installed_lib_dst libdir api x)
      by (intros E; by apply installed_lib_dst_inj in E).
    rewrite !copy_one_ne by (done || by apply installed_lib_not_dst).
    destruct (decide (lib ∈ l)) as [Hin|Hnin].
    + by rewrite decide_True by (by right).
    + by rewrite decide_False by (by intros [?|?]%elem_of_cons).
Qed.

Lemma fold_copy_other l fs p :
  (forall lib, lib ∈ l -> p <> installed_lib_dst libdir api lib) ->
  fold_left (fun fs x => copy_one libdir api major x fs) l fs !! p = fs !! p.
Proof.
  revert fs. induction l as [|x l IH]; intros fs Hp; simpl; [done|].
  rewrite IH by (intros lib Hlib; apply Hp; by right). apply copy_one_ne. apply Hp. by left.
Qed.
End CopyOne.

(** C22: on Windows, with an API version [major.minor] and [libdir] a
    directory, the loop makes [gdk-<api>.lib], [ctk-<api>.lib] and
    [gailutil-<api>.lib] copies of the [-<major>.lib] import libraries
    that exist, and touches no other file. *)
Theorem copy_msvc_libs_copies libdir api w :
  libdir <> "" -> str_last libdir <> Some slash -> libdir ∈ w_dirs w ->
  has_char "."%char api = true -> has_char slash api = false ->
  (forall lib, lib ∈ msvc_libs -> installed_lib_dst libdir api lib ∉ w_dirs w) ->
  exists fs', copy_msvc_libs libdir api w = (Ok tt, set_files fs' w) /\
    (forall lib, lib ∈ msvc_libs ->
       fs' !! installed_lib_dst libdir api lib =
         match w_files w !! installed_lib libdir (default "" (head (py_split "." api))) lib with
         | Some s => Some s
         | None => w_files w !! installed_lib_dst libdir api lib
         end) /\
    (forall p, (forall lib, lib ∈ msvc_libs -> p <> installed_lib_dst libdir api lib) ->
       fs' !! p = w_files w !! p).
Proof.
  intros Hd Hdl Hdir Hdot Ha Hdst.
  destruct (api_major_split api Hdot) as (major & t & Hs & Hm). rewrite Hs. cbn [head default].
  exists (fold_left (fun fs x => copy_one libdir api major x fs) msvc_libs (w_files w)).
  split_and!.
  - unfold copy_msvc_libs. apply (py_for_files _ _ _ (w_dirs w)); [|done].
    intros x w' Hx Hw'. apply (copy_msvc_lib_ok _ _ _ t); rewrite ?Hw'; auto.
  - intros lib Hl. rewrite fold_copy_one by (done || apply (bool_decide_unpack _); by vm_compute).
    by rewrite decide_True.
  - intros p Hp. by apply fold_copy_other.
Qed.
(** C23: with an API version without a dot, [api.split('.')[0]] is the
    version itself, so the first existing import library is copied onto
    itself: [shutil.copyfile] raises [SameFileError] and the script
    stops. *)
Theorem copy_msvc_libs_same_file libdir api w :
  has_char "."%char api = false -> is_Some (w_files w !! installed_lib_dst libdir api "gdk") ->
  copy_msvc_libs libdir api w =
    (Exc (SameFileError (installed_lib_dst libdir api "gdk") (installed_lib_dst libdir api "gdk")), w).
Proof.
  intros Hd Hf. unfold copy_msvc_libs, msvc_libs. cbn [py_for]. apply bind_exc.
  unfold copy_msvc_lib, str_split. rewrite decide_False by done.
  rewrite bind_lift_ok, (py_split_char_free "."%char api Hd). cbn [py_index lookup list_lookup].
  rewrite bind_lift_ok. unfold isfile_st, isfile, mbind, st_bind.
  change (installed_lib libdir api "gdk") with (installed_lib_dst libdir api "gdk").
  rewrite bool_decide_true by done. unfold copyfile. by rewrite bool_decide_true.
Qed.

End Proofs.

(** ** Exit codes are never inspected

    Two oracles that agree on which programs exist and on their outputs,
    and agree entirely on [pkg-config], give the same run: the exit codes
    of the four refresh commands never matter. *)
Section ExitCodes.
Variables run run' : list string -> world -> option (Z * string).
Hypothesis Hout : forall argv w, option_map snd (run argv w) = option_map snd (run' argv w).
Hypothesis Hpc : forall argv w, program argv = "pkg-config" -> run argv w = run' argv w.

Lemma call_discard {B} argv (k : io B) w :
  (call run argv ≫= fun _ => k) w = (call run' argv ≫= fun _ => k) w.
Proof.
  unfold call, mbind, st_bind. pose proof (Hout argv w) as H.
  destruct (run argv w) as [[c o]|], (run' argv w) as [[c' o']|]; simpl in H; congruence.
Qed.

Lemma call_to_file_discard {B} argv p (k : io B) w :
  (call_to_file run argv p ≫= fun _ => k) w = (call_to_file run' argv p ≫= fun _ => k) w.
Proof.
  unfold call_to_file, mbind, st_bind. pose proof (Hout argv w) as H.
  destruct (run argv w) as [[c o]|], (run' argv w) as [[c' o']|]; simpl in H; congruence.
Qed.

Lemma pkg_config_tool_same var fb w : pkg_config_tool run var fb w = pkg_config_tool run' var fb w.
Proof. unfold pkg_config_tool, check_output, mbind, st_bind. by rewrite Hpc. Qed.

Ltac same_step :=
  repeat first
    [ reflexivity
    | apply call_discard
    | apply call_to_file_discard
    | apply pkg_config_tool_same
    | apply bind_ext; intros ].

Lemma post_install_body_same argv w : post_install_body run argv w = post_install_body run' argv w.
Proof.
  unfold post_install_body, step_schemas, step_icon_cache, step_immodules, step_printbackends,
    glib_compile_schemas_tool, gio_querymodules_tool.
  same_step.
Qed.
End ExitCodes.

(** C4: the script's run does not depend on the exit codes of the schema
    compiler, the icon-cache updater, the immodules query and
    [gio-querymodules]: a failing refresh step is not noticed. *)
Theorem post_install_ignores_exit_codes run run' argv w :
  (forall argv w, option_map snd (run argv w) = option_map snd (run' argv w)) ->
  (forall argv w, program argv = "pkg-config" -> run argv w = run' argv w) ->
  post_install run argv w = post_install run' argv w.
Proof.
  intros Hout Hpc. unfold post_install. apply bind_ext; [done|]. intros [|] w'; [done|].
  by apply post_install_body_same.
Qed.

(** C7: on a non-Windows host ([os.name] not [nt]) without [DESTDIR],
    a missing [ctk-update-icon-cache] stops the script with
    [FileNotFoundError] right after the schema step: the two earlier
    commands ran, no file or directory was touched, and the module-cache
    steps never run. *)
Theorem post_install_icon_cache_missing run s0 api abi bindir libdir datadir rest w out c1 o1 :
  w_environ w !! "DESTDIR" = None -> w_os_nt w = false ->
  (forall w', run ["pkg-config"; "--variable=glib_compile_schemas"; "gio-2.0"] w' = Some (0%Z, out)) ->
  let tool := if path_exists w (py_strip out) then py_strip out else "glib-compile-schemas" in
  (forall w', run [tool; path_join datadir ["glib-2.0"; "schemas"]] w' = Some (c1, o1)) ->
  (forall w', run [ctk_update_icon_cache bindir; "-q"; "-t"; "-f"; path_join datadir ["icons"; "hicolor"]] w' = None) ->
  exists w', post_install run (s0 :: api :: abi :: bindir :: libdir :: datadir :: rest) w =
     (Exc (FileNotFoundError (ctk_update_icon_cache bindir)), w') /\
   w_files w' = w_files w /\ w_dirs w' = w_dirs w /\
   w_calls w' = w_calls w ++ [["pkg-config"; "--variable=glib_compile_schemas"; "gio-2.0"];
                              [tool; path_join datadir ["glib-2.0"; "schemas"]]].
Proof.
  intros HD Hnt Hpc tool Hsch Hicon.
  unfold post_install, post_install_body, destdir_set, os_name_nt, step_schemas, step_icon_cache,
    glib_compile_schemas_tool, pkg_config_tool, check_output, call, print, path_exists_st,
    modify_st, lift_outcome, mbind, st_bind, mret, st_ret.
  rewrite HD. simpl. rewrite Hnt, Hpc. simpl. 
  change (path_exists _ (py_strip out)) with (path_exists w (py_strip out)).
  fold tool. rewrite Hsch, Hicon. simpl.
  eexists. split; [reflexivity|]. simpl. split_and!; [done|done|].
  unfold log_call. simpl. by rewrite <- app_assoc.
Qed.

(** ** Witnesses on a concrete install tree *)

Definition ex_tools : list string :=
  ["/usr/bin/glib-compile-schemas"; "/usr/bin/ctk-update-icon-cache";
   "/usr/bin/ctk-query-immodules-3.0"; "gio-querymodules"].

Definition ex_run (argv : list string) (w : world) : option (Z * string) :=
  match argv with
  | ["pkg-config"; "--variable=glib_compile_schemas"; _] => Some (0%Z, "/usr/bin/glib-compile-schemas ")
  | ["pkg-config"; _; _] => Some (0%Z, "")
  | p :: _ =>
      if decide (p ∈ ex_tools)
      then Some (0%Z, if decide (p = "/usr/bin/ctk-query-immodules-3.0") then "# cache" else "")
      else None
  | [] => None
  end.

(** The same tools, all failing with exit code 1 except [pkg-config]. *)
Definition ex_run_failing (argv : list string) (w : world) : option (Z * string) :=
  match ex_run argv w with
  | Some (c, o) => if decide (program argv = "pkg-config") then Some (c, o) else Some (1%Z, o)
  | None => None
  end.

(** Only [glib-compile-schemas] and [pkg-config] are installed. *)
Definition ex_run_no_icons (argv : list string) (w : world) : option (Z * string) :=
  match argv with
  | "pkg-config" :: _ => ex_run argv w
  | "/usr/bin/glib-compile-schemas" :: _ => ex_run argv w
  | _ => None
  end.

Definition ex_world : world :=
  mkWorld {["/usr/bin/glib-compile-schemas" := ""]}
          {["/usr"; "/usr/lib"; "/usr/bin"; "/usr/share"]} ∅ false [] [].

Definition ex_argv : list string :=
  ["post-install.py"; "3.0"; "3.0.0"; "/usr/bin"; "/usr/lib"; "/usr/share"].

Lemma pkg_config_tool_spec_witness :
  pkg_config_tool ex_run "glib_compile_schemas" "glib-compile-schemas" ex_world =
    (Ok "/usr/bin/glib-compile-schemas",
     log_call ["pkg-config"; "--variable=glib_compile_schemas"; "gio-2.0"] ex_world).
Proof.
  rewrite (pkg_config_tool_spec ex_run "glib_compile_schemas" "glib-compile-schemas" ex_world
             0%Z "/usr/bin/glib-compile-schemas "); vm_compute; reflexivity.
Defined.

Lemma post_install_staged_witness :
  let w := mkWorld ∅ ∅ {["DESTDIR" := "/tmp/stage"]} false [] [] in
  post_install ex_run ex_argv w = (Ok tt, w).
Proof. intros w. apply post_install_staged. vm_compute. by eexists. Defined.

Lemma post_install_short_argv_witness :
  post_install ex_run ["post-install.py"; "3.0"] ex_world = (Exc IndexError, ex_world).
Proof. apply post_install_short_argv; vm_compute; [reflexivity|lia]. Defined.

Lemma step_immodules_query_missing_witness :
  let w := mkWorld ∅ {["/"; "/m"; "/m/immodules"]} ∅ false [] [] in
  step_immodules ex_run_no_icons "/usr/bin" "3.0" "/m" w =
    (Exc (FileNotFoundError (ctk_query_immodules "/usr/bin" "3.0")),
     set_files (<[immodules_cache "/m" := ""]> (w_files w))
       (set_stdout (w_stdout w ++ ["Updating module cache for input methods..."]) w)).
Proof.
  intros w. apply step_immodules_query_missing.
  - apply dir_closedb_sound. vm_compute. reflexivity.
  - apply (bool_decide_unpack _). vm_compute. exact I.
  - vm_compute. reflexivity.
  - intros w'. vm_compute. reflexivity.
Defined.

Lemma post_install_ignores_exit_codes_witness :
  post_install ex_run ex_argv ex_world = post_install ex_run_failing ex_argv ex_world.
Proof.
  apply post_install_ignores_exit_codes.
  - intros argv w. unfold ex_run_failing.
    destruct (ex_run argv w) as [[c o]|]; [case_decide|]; reflexivity.
  - intros argv w Hp. unfold ex_run_failing.
    destruct (ex_run argv w) as [[c o]|]; [|done]. by rewrite decide_True.
Defined.

Lemma post_install_icon_cache_missing_witness :
  exists w', post_install ex_run_no_icons ex_argv ex_world =
     (Exc (FileNotFoundError (ctk_update_icon_cache "/usr/bin")), w') /\
   w_files w' = w_files ex_world /\ w_dirs w' = w_dirs ex_world /\
   w_calls w' = w_calls ex_world ++
     [["pkg-config"; "--variable=glib_compile_schemas"; "gio-2.0"];
      [if path_exists ex_world (py_strip "/usr/bin/glib-compile-schemas ")
       then py_strip "/usr/bin/glib-compile-schemas " else "glib-compile-schemas";
       path_join "/usr/share" ["glib-2.0"; "schemas"]]].
Proof.
  apply (post_install_icon_cache_missing ex_run_no_icons "post-install.py" "3.0" "3.0.0"
           "/usr/bin" "/usr/lib" "/usr/share" [] ex_world "/usr/bin/glib-compile-schemas " 0%Z "");
    [reflexivity|reflexivity|intros; reflexivity|intros; vm_compute; reflexivity|intros; reflexivity].
Defined.

(** The complete run on the example tree, in order. *)
Example post_install_ex_trace :
  w_calls (snd (post_install ex_run ex_argv ex_world)) =
    [["pkg-config"; "--variable=glib_compile_schemas"; "gio-2.0"];
     ["/usr/bin/glib-compile-schemas"; "/usr/share/glib-2.0/schemas"];
     ["/usr/bin/ctk-update-icon-cache"; "-q"; "-t"; "-f"; "/usr/share/icons/hicolor"];
     ["/usr/bin/ctk-query-immodules-3.0"];
     ["pkg-config"; "--variable=gio_querymodules"; "gio-2.0"];
     ["gio-querymodules"; "/usr/lib/ctk-3.0/3.0.0/printbackends"]].
Proof. vm_compute. reflexivity. Qed.

(** Every tool installed, [pkg-config] knowing both GLib tools. *)
Definition ex_run_full (argv : list string) (w : world) : option (Z * string) :=
  match argv with
  | ["pkg-config"; "--variable=glib_compile_schemas"; _] => Some (0%Z, "/usr/bin/glib-compile-schemas ")
  | ["pkg-config"; "--variable=gio_querymodules"; _] => Some (0%Z, "/usr/bin/gio-querymodules ")
  | "/usr/bin/ctk-query-immodules-3.0" :: _ => Some (0%Z, "# cache")
  | _ :: _ => Some (0%Z, "")
  | [] => None
  end.

Definition ex_world_full : world :=
  mkWorld (<["/usr/bin/glib-compile-schemas" := ""]> (<["/usr/bin/gio-querymodules" := ""]> ∅))
          {["/"; "/usr"; "/usr/bin"; "/usr/lib"; "/usr/lib/ctk-3.0"; "/usr/lib/ctk-3.0/3.0.0"; "/usr/share"]}
          ∅ false [] [].

Lemma post_install_trace_witness :
  post_install ex_run_full ex_argv ex_world_full =
    (Ok tt, mkWorld
       (<[immodules_cache (ctk_moduledir "/usr/lib" "3.0" "3.0.0") := "# cache"]> (w_files ex_world_full))
       ({[ctk_printmodule_dir (ctk_moduledir "/usr/lib" "3.0" "3.0.0")]} ∪
          ({[ctk_immodule_dir (ctk_moduledir "/usr/lib" "3.0" "3.0.0")]} ∪ w_dirs ex_world_full))
       (w_environ ex_world_full) (w_os_nt ex_world_full)
       (w_stdout ex_world_full ++ ["Compiling GSettings schemas..."; ""; "Updating icon cache..."; "";
                                   "Updating module cache for input methods...";
                                   "Updating module cache for print backends..."; ""])
       (w_calls ex_world_full ++
          [glib_schemas_argv;
           [py_strip "/usr/bin/glib-compile-schemas "; path_join "/usr/share" ["glib-2.0"; "schemas"]];
           [ctk_update_icon_cache "/usr/bin"; "-q"; "-t"; "-f"; path_join "/usr/share" ["icons"; "hicolor"]];
           [ctk_query_immodules "/usr/bin" "3.0"];
           gio_querymodules_argv;
           [py_strip "/usr/bin/gio-querymodules "; ctk_printmodule_dir (ctk_moduledir "/usr/lib" "3.0" "3.0.0")]])).
Proof.
  apply (post_install_trace ex_run_full "post-install.py" "3.0" "3.0.0" "/usr/bin" "/usr/lib" "/usr/share" []
           ex_world_full "/usr/bin/glib-compile-schemas " "/usr/bin/gio-querymodules " 0%Z "" 0%Z "" 0%Z
           "# cache" 0%Z "");
    first [intros; vm_compute; reflexivity | apply (bool_decide_unpack _); vm_compute; exact I
          | vm_compute; by eexists | vm_compute; discriminate].
Defined.

Lemma post_install_rerun_witness :
  exists w1 w2, post_install ex_run_full ex_argv ex_world_full = (Ok tt, w1) /\
    post_install ex_run_full ex_argv w1 = (Ok tt, w2) /\
    w_files w2 = w_files w1 /\ w_dirs w2 = w_dirs w1.
Proof.
  apply (post_install_rerun ex_run_full "post-install.py" "3.0" "3.0.0" "/usr/bin" "/usr/lib" "/usr/share" []
           ex_world_full "/usr/bin/glib-compile-schemas " "/usr/bin/gio-querymodules " 0%Z "" 0%Z "" 0%Z
           "# cache" 0%Z "");
    first [intros; vm_compute; reflexivity | apply (bool_decide_unpack _); vm_compute; exact I
          | vm_compute; by eexists | vm_compute; discriminate].
Defined.

Definition ex_world_nt : world :=
  mkWorld (<["/ctk/lib/gdk-3.lib" := "gdk"]> (<["/ctk/lib/ctk-3.lib" := "ctk"]> ∅))
          {["/"; "/ctk"; "/ctk/lib"]} ∅ true [] [].

Lemma copy_msvc_libs_copies_witness :
  exists fs', copy_msvc_libs "/ctk/lib" "3.0" ex_world_nt = (Ok tt, set_files fs' ex_world_nt) /\
    (forall lib, lib ∈ msvc_libs ->
       fs' !! installed_lib_dst "/ctk/lib" "3.0" lib =
         match w_files ex_world_nt !! installed_lib "/ctk/lib" (default "" (head (py_split "." "3.0"))) lib with
         | Some s => Some s
         | None => w_files ex_world_nt !! installed_lib_dst "/ctk/lib" "3.0" lib
         end) /\
    (forall p, (forall lib, lib ∈ msvc_libs -> p <> installed_lib_dst "/ctk/lib" "3.0" lib) ->
       fs' !! p = w_files ex_world_nt !! p).
Proof.
  apply copy_msvc_libs_copies; [vm_compute; congruence..| | | |].
  - apply (bool_decide_unpack _). vm_compute. exact I.
  - reflexivity.
  - reflexivity.
  - intros lib Hl. destruct (msvc_libs_cases _ Hl) as [-> | [-> | ->]];
      apply (bool_decide_unpack _); vm_compute; exact I.
Defined.

Lemma copy_msvc_libs_same_file_witness :
  copy_msvc_libs "/ctk/lib" "3" ex_world_nt =
    (Exc (SameFileError (installed_lib_dst "/ctk/lib" "3" "gdk") (installed_lib_dst "/ctk/lib" "3" "gdk")),
     ex_world_nt).
Proof. apply copy_msvc_libs_same_file; vm_compute; [reflexivity|by eexists]. Defined.

(** A fresh tree: only [/usr/lib] exists below the root. *)
Definition ex_world_fresh : world :=
  mkWorld ∅ {["/"; "/usr"; "/usr/lib"]} ∅ false [] [].

Lemma step_immodules_fresh_witness :
  let m := ctk_moduledir "/usr/lib" "3.0" "3.0.0" in
  exists w', step_immodules ex_run_full "/usr/bin" "3.0" m ex_world_fresh = (Ok tt, w') /\
    ctk_immodule_dir m ∈ w_dirs w' /\ m ∈ w_dirs w' /\ dir_closed w' /\
    w_files w' = <[immodules_cache m := "# cache"]> (w_files ex_world_fresh) /\
    w_calls w' = w_calls ex_world_fresh ++ [[ctk_query_immodules "/usr/bin" "3.0"]].
Proof.
  intros m. apply (step_immodules_fresh ex_run_full "/usr/bin" "3.0" m ex_world_fresh 0%Z "# cache").
  - apply dir_closedb_sound. vm_compute. reflexivity.
  - change m with (join2 (join2 "/usr/lib" "ctk-3.0") "3.0.0").
    apply mk_chain_join; [apply mk_chain_join; [apply mk_chain_dir|..]|..];
      first [apply (bool_decide_unpack _); vm_compute; exact I | vm_compute; congruence | reflexivity].
  - vm_compute. reflexivity.
  - apply (bool_decide_unpack _). vm_compute. exact I.
  - intros w'. reflexivity.
Defined.
